(** * The filter-and-aggregate code of the Dubai real-estate dashboards

    A shallow embedding of the data handling in [utils.py],
    [data_loader.py] and the dashboards under [dashboards/]:
    pandas data frames are lists of records, Python exceptions are an
    explicit error value, and each dashboard's filter section is a
    function from the widget selections to the filtered frame. *)

From Stdlib Require Import ZArith QArith Qcanon String Ascii List Floats Lqa.
From stdpp Require Import base option list sorting strings gmap numbers.

Open Scope Z_scope.

(** ** Exceptions and results *)

(** The Python exceptions the modelled code can raise.  [KeyError]
    carries the column label pandas was asked for. *)
Inductive exn :=
  | KeyError (key : string)
  | TypeError
  | ZeroDivisionError.

Inductive result (A : Type) :=
  | Ok (a : A)
  | Raise (e : exn).
Arguments Ok {A} a.
Arguments Raise {A} e.

#[global] Instance result_ret : MRet result := fun _ a => Ok a.
#[global] Instance result_bind : MBind result := fun _ _ f m =>
  match m with
  | Ok a => f a
  | Raise e => Raise e
  end.

#[global] Instance exn_eq_dec : EqDecision exn.
Proof. solve_decision. Defined.

#[global] Instance result_eq_dec {A} `{EqDecision A} : EqDecision (result A).
Proof. solve_decision. Defined.

(** ** Calendar dates and periods *)

(** pandas keeps a timestamp as a count from 1970-01-01; this model
    keeps the day count.  The calendar date of a day count is that of
    the proleptic Gregorian calendar, for every day count: the calendar
    repeats every 400 years, so the date is reached by stepping one day
    at a time from 1600-01-01 within one such era. *)
Module Calendar.

Record date := mkDate { year : Z; month : Z; day : Z }.

#[global] Instance date_eq_dec : EqDecision date.
Proof. solve_decision. Defined.

Definition is_leap (y : Z) : bool :=
  (y mod 4 =? 0) && (negb (y mod 100 =? 0) || (y mod 400 =? 0)).

Definition days_in_month (y m : Z) : Z :=
  if m =? 2 then (if is_leap y then 29 else 28)
  else if (m =? 4) || (m =? 6) || (m =? 9) || (m =? 11) then 30
  else 31.

Definition next_day (d : date) : date :=
  if day d <? days_in_month (year d) (month d)
  then mkDate (year d) (month d) (day d + 1)
  else if month d <? 12 then mkDate (year d) (month d + 1) 1
  else mkDate (year d + 1) 1 1.

Definition origin : date := mkDate 1600 1 1.
Definition origin_days : Z := -135140.

(** [Timestamp.min] and [Timestamp.max] (1677-09-21 and 2262-04-11) as
    day counts. *)
Definition timestamp_min : Z := -106752.
Definition timestamp_max : Z := 106751.

(** The calendar repeats every 400 years, which are 146097 days. *)
Definition days_per_era : Z := 146097.

Definition shift_eras (k : Z) (d : date) : date :=
  mkDate (year d + 400 * k) (month d) (day d).

(** The date of a day count: the days since 1600-01-01, split into whole
    eras and the days of the last era walked from 1600-01-01. *)
Definition civil_from_days (n : Z) : date :=
  let k := n - origin_days in
  shift_eras (k / days_per_era) (Z.iter (k mod days_per_era) next_day origin).

#[global] Arguments civil_from_days : simpl never.

(** Monday is 0; 1970-01-01 was a Thursday. *)
Definition weekday (n : Z) : Z := (n + 3) mod 7.

Definition digit (n : Z) : ascii := ascii_of_N (48 + Z.to_N (n mod 10)).

Definition fmt2 (n : Z) (rest : string) : string :=
  String (digit (n / 10)) (String (digit n) rest).

Definition fmt4 (n : Z) (rest : string) : string :=
  String (digit (n / 1000)) (String (digit (n / 100)) (fmt2 n rest)).

(** [YYYY-MM-DD], followed by [rest]; the year in four digits, as the
    years 1000 to 9999 print. *)
Definition fmt_date (d : date) (rest : string) : string :=
  fmt4 (year d) (String "-" (fmt2 (month d) (String "-" (fmt2 (day d) rest)))).

(** The frequencies of [to_period]: 'D', 'W' (weeks from Monday to
    Sunday), 'M', 'Q' and 'Y'. *)
Inductive Granularity := Daily | Weekly | Monthly | Quarterly | Yearly.

Inductive Period :=
  | PDay (d : date)
  | PWeek (first last : date)
  | PMonth (y m : Z)
  | PQuarter (y q : Z)
  | PYear (y : Z).

#[global] Instance Period_eq_dec : EqDecision Period.
Proof. solve_decision. Defined.

(** [Timestamp.to_period(freq)] *)
Definition to_period (g : Granularity) (n : Z) : Period :=
  match g with
  | Daily => PDay (civil_from_days n)
  | Weekly =>
      let monday := n - weekday n in
      PWeek (civil_from_days monday) (civil_from_days (monday + 6))
  | Monthly => let d := civil_from_days n in PMonth (year d) (month d)
  | Quarterly => let d := civil_from_days n in PQuarter (year d) ((month d - 1) / 3 + 1)
  | Yearly => PYear (year (civil_from_days n))
  end.

(** [str(period)], the bucket key the charts use. *)
Definition period_str (p : Period) : string :=
  match p with
  | PDay d => fmt_date d ""
  | PWeek first last => fmt_date first (String "/" (fmt_date last ""))
  | PMonth y m => fmt4 y (String "-" (fmt2 m ""))
  | PQuarter y q => fmt4 y (String "Q" (String (digit q) ""))
  | PYear y => fmt4 y ""
  end.

(** Two day counts fall in the same calendar bucket. *)
Definition same_bucket (g : Granularity) (a b : Z) : Prop :=
  match g with
  | Daily => a = b
  | Weekly => (a + 3) / 7 = (b + 3) / 7
  | Monthly =>
      year (civil_from_days a) = year (civil_from_days b)
      /\ month (civil_from_days a) = month (civil_from_days b)
  | Quarterly =>
      year (civil_from_days a) = year (civil_from_days b)
      /\ (month (civil_from_days a) - 1) / 3 = (month (civil_from_days b) - 1) / 3
  | Yearly => year (civil_from_days a) = year (civil_from_days b)
  end.

(** The calendar's own division into buckets, by the days on which a
    bucket starts: every day, every Monday, the first of a month, the
    first of January, April, July and October, the first of January. *)
Definition starts_bucket (g : Granularity) (n : Z) : bool :=
  let d := civil_from_days n in
  match g with
  | Daily => true
  | Weekly => weekday n =? 0
  | Monthly => day d =? 1
  | Quarterly =>
      (day d =? 1) && ((month d =? 1) || (month d =? 4) || (month d =? 7) || (month d =? 10))
  | Yearly => (day d =? 1) && (month d =? 1)
  end.

(** Two days lie in the same calendar bucket when no bucket starts
    after the earlier one and up to the later one. *)
Definition same_calendar_bucket (g : Granularity) (a b : Z) : Prop :=
  forall n, Z.min a b < n <= Z.max a b -> starts_bucket g n = false.

(** A date of the calendar, and the number [YYYYMMDD] that orders dates
    chronologically. *)
Definition valid_date (d : date) : Prop :=
  1 <= month d <= 12 /\ 1 <= day d <= days_in_month (year d) (month d).

Definition date_code (d : date) : Z := year d * 10000 + month d * 100 + day d.

End Calendar.

(** ** Data frames *)

(** A cell of a frame.  Numbers are exact rationals (the rounding of
    float64 is outside this model); a timestamp is its day count;
    [CNull] stands for NaN, None and NaT alike. *)
Inductive cell :=
  | CStr (s : string)
  | CNum (q : Qc)
  | CBool (b : bool)
  | CDate (d : Z)
  | CPeriod (p : Calendar.Period)
  | CNull.

#[global] Instance cell_eq_dec : EqDecision cell.
Proof. solve_decision. Defined.

(** A record maps column labels to cells; a frame is its column labels
    and its records in index order. *)
Record DataFrame := mkFrame {
  columns : list string;
  rows : list (gmap string cell)
}.

#[global] Instance DataFrame_eq_dec : EqDecision DataFrame.
Proof. solve_decision. Defined.

Definition cell_of (r : gmap string cell) (col : string) : cell :=
  default CNull (r !! col).

(** [df.empty]: true when either axis has length 0. *)
Definition empty (df : DataFrame) : bool :=
  match rows df, columns df with
  | _ :: _, _ :: _ => false
  | _, _ => true
  end.

(** [df[col]]: the column as a list of cells, or [KeyError]. *)
Definition getitem (df : DataFrame) (col : string) : result (list cell) :=
  if bool_decide (col ∈ columns df) then Ok (map (fun r => cell_of r col) (rows df))
  else Raise (KeyError col).

(** [df[mask]]: boolean indexing keeps the records whose mask entry is
    true, in their original order. *)
Fixpoint select {A} (xs : list A) (mask : list bool) : list A :=
  match xs, mask with
  | x :: xs', b :: mask' => if b then x :: select xs' mask' else select xs' mask'
  | _, _ => []
  end.

Definition loc (df : DataFrame) (mask : list bool) : DataFrame :=
  mkFrame (columns df) (select (rows df) mask).

(** [df.dropna(subset=[col])] *)
Definition notna (c : cell) : bool :=
  match c with CNull => false | _ => true end.

Definition dropna (df : DataFrame) (col : string) : result DataFrame :=
  s ← getitem df col; Ok (loc df (map notna s)).

(** [df[col] = values]: assignment of a whole column (added to the
    labels when new). *)
Definition setitem (df : DataFrame) (col : string) (values : list cell) : DataFrame :=
  mkFrame (if bool_decide (col ∈ columns df) then columns df else columns df ++ [col])
          (zip_with (fun r v => <[col := v]> r) (rows df) values).

(** ** Element-wise comparisons *)

Definition Qc_leb (a b : Qc) : bool := bool_decide (a <= b)%Qc.
Definition Qc_ltb (a b : Qc) : bool := bool_decide (a < b)%Qc.

(** [x == v] on one element.  A null never compares equal; Python's
    [True == 1] and [False == 0] hold. *)
Definition cell_eqb (x v : cell) : bool :=
  match x, v with
  | CStr a, CStr b => bool_decide (a = b)
  | CNum a, CNum b => bool_decide (a = b)
  | CBool a, CBool b => bool_decide (a = b)
  | CNum a, CBool b | CBool b, CNum a => bool_decide (a = if b then 1%Qc else 0%Qc)
  | CDate a, CDate b => bool_decide (a = b)
  | CPeriod a, CPeriod b => bool_decide (a = b)
  | _, _ => false
  end.

(** ** Filtering *)

Section Filters.

(** Python's [str] applied to one element, as [astype(str)] does; its
    rendering of numbers and nulls follows the column's dtype and is
    left open. *)
Variable astype_str : cell -> string.

(** The mask expressions the dashboards build over one column. *)
Inductive FilterPredicate :=
  | Equals (v : cell)                (* df[col] == v *)
  | IsIn (values : list string)      (* df[col].isin(values) *)
  | AsStrEquals (s : string)         (* df[col].astype(str) == s *)
  | DateBetween (lo hi : Z)          (* (df[col].dt.date >= lo) & (df[col].dt.date <= hi) *)
  | Less (q : Qc)                    (* df[col] < q *)
  | Between (lo hi : Qc)             (* (df[col] >= lo) & (df[col] <= hi) *)
  | Greater (q : Qc).                (* df[col] > q *)

(** The value of the mask on one element of a column of the kind the
    mask expects: text for [==], [isin] and [astype(str)], timestamps
    for [.dt.date], numbers for the ordering comparisons; a null gives
    false.  On a column of another kind pandas raises ([TypeError] for
    an ordering comparison with text, [AttributeError] for [.dt] on a
    column that is not datetime); such frames are outside this model,
    which gives false there too. *)
Definition matches (p : FilterPredicate) (x : cell) : bool :=
  match p with
  | Equals v => cell_eqb x v
  | IsIn values => existsb (fun v => cell_eqb x (CStr v)) values
  | AsStrEquals s => bool_decide (astype_str x = s)
  | DateBetween lo hi =>
      match x with CDate d => (lo <=? d) && (d <=? hi) | _ => false end
  | Less q => match x with CNum a => Qc_ltb a q | _ => false end
  | Between lo hi =>
      match x with CNum a => Qc_leb lo a && Qc_leb a hi | _ => false end
  | Greater q => match x with CNum a => Qc_ltb q a | _ => false end
  end.

(** [df[mask(df[col])]] *)
Definition where_ (df : DataFrame) (col : string) (p : FilterPredicate)
  : result DataFrame :=
  s ← getitem df col; Ok (loc df (map (matches p) s)).

Definition is_all (selected : string) : bool := bool_decide (selected = "All"%string).

(** *** dashboards/transactions.py, the interactive filters

    [selected_year] is [None] when the select box has no options. *)
Definition truthy (selected_year : option Qc) : bool :=
  match selected_year with
  | Some y => negb (bool_decide (y = 0%Qc))
  | None => false
  end.

Definition show_transactions_dashboard_filtered_data
    (transactions : DataFrame) (selected_year : option Qc) (selected_area : string)
  : result DataFrame :=
  let filtered_data := transactions in
  filtered_data ←
    (if truthy selected_year
     then where_ filtered_data "year" (Equals (from_option CNum CNull selected_year))
     else Ok filtered_data);
  filtered_data ←
    (if negb (is_all selected_area)
     then where_ filtered_data "area_name_en" (Equals (CStr selected_area))
     else Ok filtered_data);
  Ok filtered_data.

(** *** dashboards/rentals.py, "Apply filters"

    The filter statements alone; [show_rentals_dashboard_to_filters]
    below has the column reads that come before them. *)
Definition show_rentals_dashboard_filtered_rentals
    (rentals : DataFrame) (selected_area selected_property_type : string)
  : result DataFrame :=
  let filtered_rentals := rentals in
  filtered_rentals ←
    (if negb (is_all selected_area)
     then where_ filtered_rentals "area_name_en" (Equals (CStr selected_area))
     else Ok filtered_rentals);
  filtered_rentals ←
    (if negb (is_all selected_property_type)
     then where_ filtered_rentals "ejari_property_sub_type_en"
            (Equals (CStr selected_property_type))
     else Ok filtered_rentals);
  Ok filtered_rentals.

(** *** dashboards/area_analytics.py, "Filters" *)
Definition show_area_analytics_dashboard_filtered_area_data
    (transactions : DataFrame) (selected_areas : list string) : result DataFrame :=
  match selected_areas with
  | [] => Ok transactions
  | _ => where_ transactions "area_name_en" (IsIn selected_areas)
  end.

(** *** dashboards/sales.py, "Apply filters"

    The widget selections.  A select box that was not drawn because its
    column is absent leaves its variable unread: every use is behind
    the same column test. *)
Record SalesSelection := mkSalesSelection {
  date_range : list Z;
  selected_area : string;
  selected_property_type : string;
  selected_project : string;
  selected_procedure : string;
  selected_usage : string;
  selected_rooms : string;
  selected_master_project : string;
  selected_parking : string;
  selected_metro : string;
  selected_reg_type : string;
  selected_zone : string;
  selected_payment : string;
  selected_metro_dist : string
}.

(** [if col in transactions.columns and cond: filtered = filtered[mask]] *)
Definition if_column (transactions filtered_data : DataFrame) (col : string)
    (cond : bool) (p : FilterPredicate) : result DataFrame :=
  if bool_decide (col ∈ columns transactions) && cond
  then where_ filtered_data col p
  else Ok filtered_data.

Definition is_str (a b : string) : bool := bool_decide (a = b).

Definition show_sales_dashboard_filtered_data
    (transactions : DataFrame) (w : SalesSelection) : result DataFrame :=
  let eq_filter fd col sel :=
    if_column transactions fd col (negb (is_all sel)) (Equals (CStr sel)) in
  let filtered_data := transactions in
  filtered_data ←
    if_column transactions filtered_data "instance_date"
      (bool_decide (length (date_range w) = 2%nat))
      (DateBetween (nth 0 (date_range w) 0) (nth 1 (date_range w) 0));
  filtered_data ← eq_filter filtered_data "area_name_en" (selected_area w);
  filtered_data ← eq_filter filtered_data "property_type_en" (selected_property_type w);
  filtered_data ← eq_filter filtered_data "project_name_en" (selected_project w);
  filtered_data ← eq_filter filtered_data "procedure_name_en" (selected_procedure w);
  filtered_data ← eq_filter filtered_data "property_usage_en" (selected_usage w);
  filtered_data ←
    if_column transactions filtered_data "rooms_en"
      (negb (is_all (selected_rooms w))) (AsStrEquals (selected_rooms w));
  filtered_data ← eq_filter filtered_data "master_project_en" (selected_master_project w);
  filtered_data ←
    (if bool_decide ("has_parking"%string ∈ columns transactions)
        && negb (is_all (selected_parking w)) then
       if is_str (selected_parking w) "Yes" then
         where_ filtered_data "has_parking" (Equals (CBool true))
       else if is_str (selected_parking w) "No" then
         where_ filtered_data "has_parking" (Equals (CBool false))
       else Ok filtered_data
     else Ok filtered_data);
  filtered_data ← eq_filter filtered_data "nearest_metro_en" (selected_metro w);
  filtered_data ← eq_filter filtered_data "reg_type_en" (selected_reg_type w);
  filtered_data ← eq_filter filtered_data "zone_type" (selected_zone w);
  filtered_data ← eq_filter filtered_data "payment_method" (selected_payment w);
  filtered_data ←
    (if bool_decide ("distance_to_metro"%string ∈ columns transactions)
        && negb (is_all (selected_metro_dist w)) then
       if is_str (selected_metro_dist w) "Under 1km" then
         where_ filtered_data "distance_to_metro" (Less 1%Qc)
       else if is_str (selected_metro_dist w) "1-3km" then
         where_ filtered_data "distance_to_metro" (Between 1%Qc (Qc_of_Z 3))
       else if is_str (selected_metro_dist w) "Over 3km" then
         where_ filtered_data "distance_to_metro" (Greater (Qc_of_Z 3))
       else Ok filtered_data
     else Ok filtered_data);
  Ok filtered_data.

(** *** The common shape

    Every filter section above runs a sequence of statements
    [filtered = filtered[mask]], each optionally behind a test that the
    column exists.  [apply_filters] is that loop over an explicit list
    of steps. *)
Record FilterStep := mkStep {
  field : string;
  guarded : bool;
  test : FilterPredicate
}.

Definition run_step (df : DataFrame) (st : FilterStep) : result DataFrame :=
  if guarded st && negb (bool_decide (field st ∈ columns df)) then Ok df
  else where_ df (field st) (test st).

Fixpoint apply_filters (df : DataFrame) (steps : list FilterStep) : result DataFrame :=
  match steps with
  | [] => Ok df
  | st :: steps' => df' ← run_step df st; apply_filters df' steps'
  end.

(** A record satisfies a step when the mask is true on it. *)
Definition satisfies (st : FilterStep) (r : gmap string cell) : bool :=
  matches (test st) (cell_of r (field st)).

(** The steps each dashboard runs, in source order. *)
Definition transactions_steps (selected_year : option Qc) (selected_area : string)
  : list FilterStep :=
  (if truthy selected_year
   then [mkStep "year" false (Equals (from_option CNum CNull selected_year))] else [])
  ++ (if negb (is_all selected_area)
      then [mkStep "area_name_en" false (Equals (CStr selected_area))] else []).

Definition rentals_steps (selected_area selected_property_type : string)
  : list FilterStep :=
  (if negb (is_all selected_area)
   then [mkStep "area_name_en" false (Equals (CStr selected_area))] else [])
  ++ (if negb (is_all selected_property_type)
      then [mkStep "ejari_property_sub_type_en" false
              (Equals (CStr selected_property_type))] else []).

Definition area_analytics_steps (selected_areas : list string) : list FilterStep :=
  match selected_areas with
  | [] => []
  | _ => [mkStep "area_name_en" false (IsIn selected_areas)]
  end.

Definition step_if (cond : bool) (col : string) (p : FilterPredicate)
  : list FilterStep :=
  if cond then [mkStep col true p] else [].

Definition sales_steps (w : SalesSelection) : list FilterStep :=
  let eq_step col sel := step_if (negb (is_all sel)) col (Equals (CStr sel)) in
  step_if (bool_decide (length (date_range w) = 2%nat)) "instance_date"
    (DateBetween (nth 0 (date_range w) 0) (nth 1 (date_range w) 0))
  ++ eq_step "area_name_en" (selected_area w)
  ++ eq_step "property_type_en" (selected_property_type w)
  ++ eq_step "project_name_en" (selected_project w)
  ++ eq_step "procedure_name_en" (selected_procedure w)
  ++ eq_step "property_usage_en" (selected_usage w)
  ++ step_if (negb (is_all (selected_rooms w))) "rooms_en" (AsStrEquals (selected_rooms w))
  ++ eq_step "master_project_en" (selected_master_project w)
  ++ (if is_str (selected_parking w) "Yes"
      then step_if true "has_parking" (Equals (CBool true))
      else step_if (is_str (selected_parking w) "No") "has_parking" (Equals (CBool false)))
  ++ eq_step "nearest_metro_en" (selected_metro w)
  ++ eq_step "reg_type_en" (selected_reg_type w)
  ++ eq_step "zone_type" (selected_zone w)
  ++ eq_step "payment_method" (selected_payment w)
  ++ (if is_str (selected_metro_dist w) "Under 1km"
      then step_if true "distance_to_metro" (Less 1%Qc)
      else if is_str (selected_metro_dist w) "1-3km"
      then step_if true "distance_to_metro" (Between 1%Qc (Qc_of_Z 3))
      else step_if (is_str (selected_metro_dist w) "Over 3km") "distance_to_metro"
             (Greater (Qc_of_Z 3))).

(** What the loop comes to.  A step whose column is absent either stops
    the run (unguarded: pandas raises) or is skipped (guarded); the
    other steps each keep the records their mask accepts. *)
Definition present (cols : list string) (st : FilterStep) : bool :=
  bool_decide (field st ∈ cols).

Definition blocking (cols : list string) (st : FilterStep) : bool :=
  negb (guarded st) && negb (present cols st).

Definition keep (cols : list string) (steps : list FilterStep)
    (r : gmap string cell) : bool :=
  forallb (fun st => negb (present cols st) || satisfies st r) steps.

Definition filtered_view (df : DataFrame) (steps : list FilterStep) : result DataFrame :=
  match List.find (blocking (columns df)) steps with
  | Some st => Raise (KeyError (field st))
  | None => Ok (mkFrame (columns df) (List.filter (keep (columns df) steps) (rows df)))
  end.

(** Two runs agree: the same frame, or an error on both sides. *)
Definition same_view (a b : result DataFrame) : Prop :=
  match a, b with
  | Ok v, Ok v' => v = v'
  | Raise _, Raise _ => True
  | _, _ => False
  end.

End Filters.

(** ** Series reductions *)

(** The result of a reduction: a number or NaN. *)
Inductive number :=
  | Num (q : Qc)
  | NaN.

#[global] Instance number_eq_dec : EqDecision number.
Proof. solve_decision. Defined.

(** The numeric reading of one element; nulls are skipped by every
    reduction ([skipna=True]), text and dates are not numbers. *)
Definition numeric (c : cell) : result (option Qc) :=
  match c with
  | CNum q => Ok (Some q)
  | CBool b => Ok (Some (if b then 1%Qc else 0%Qc))
  | CNull => Ok None
  | _ => Raise TypeError
  end.

Fixpoint values (s : list cell) : result (list Qc) :=
  match s with
  | [] => Ok []
  | c :: s' =>
      v ← numeric c; vs ← values s';
      Ok (match v with Some q => q :: vs | None => vs end)
  end.

(** The exact sum.  pandas adds in float64 (or int64): its sum is this
    one when no addition rounds or overflows, see [exact_amounts]. *)
Definition Qc_sum (vs : list Qc) : Qc := foldr Qcplus 0%Qc vs.

Definition Qc_of_nat (n : nat) : Qc := Qc_of_Z (Z.of_nat n).

(** The exact mean of the numbers; NaN when there is none.  pandas
    divides the float64 sum by the count and rounds the quotient. *)
Definition mean_of (vs : list Qc) : number :=
  match vs with
  | [] => NaN
  | _ => Num (Qc_sum vs / Qc_of_nat (length vs))%Qc
  end.

Definition median_of (vs : list Qc) : number :=
  let sorted := merge_sort Qcle vs in
  let n := length sorted in
  match sorted !! (n / 2)%nat with
  | None => NaN
  | Some hi =>
      if Nat.even n
      then match sorted !! (n / 2 - 1)%nat with
           | Some lo => Num ((lo + hi) / Qc_of_Z 2)%Qc
           | None => NaN
           end
      else Num hi
  end.

Definition Qc_min (a b : Qc) : Qc := if Qc_leb a b then a else b.
Definition Qc_max (a b : Qc) : Qc := if Qc_leb a b then b else a.

Definition min_of (vs : list Qc) : number :=
  match vs with [] => NaN | v :: vs' => Num (foldr Qc_min v vs') end.

Definition max_of (vs : list Qc) : number :=
  match vs with [] => NaN | v :: vs' => Num (foldr Qc_max v vs') end.

(** [s.sum()], [s.mean()], [s.median()], [s.min()], [s.max()] *)
Definition series_sum (s : list cell) : result Qc := vs ← values s; Ok (Qc_sum vs).
Definition series_mean (s : list cell) : result number := vs ← values s; Ok (mean_of vs).
Definition series_median (s : list cell) : result number := vs ← values s; Ok (median_of vs).
Definition series_min (s : list cell) : result number := vs ← values s; Ok (min_of vs).
Definition series_max (s : list cell) : result number := vs ← values s; Ok (max_of vs).

(** ** Grouping *)

Fixpoint traverse {A B} (f : A -> result B) (l : list A) : result (list B) :=
  match l with
  | [] => Ok []
  | x :: l' => y ← f x; ys ← traverse f l'; Ok (y :: ys)
  end.

(** The key of one record in the groupings by a name column, whose
    elements are text or null; a null key is left out of every group
    ([dropna=True]).  The groupings by a [pd.cut] category or by a
    period are not modelled: keys of another kind are outside this
    model and are reported as [TypeError]. *)
Definition group_key (c : cell) : result (option string) :=
  match c with
  | CStr s => Ok (Some s)
  | CNull => Ok None
  | _ => Raise TypeError
  end.

(** Insertion into the sorted list of distinct keys ([sort=True]). *)
Fixpoint insert_key (k : string) (ks : list string) : list string :=
  match ks with
  | [] => [k]
  | k' :: ks' =>
      if bool_decide (k = k') then ks
      else if String.ltb k k' then k :: ks
      else k' :: insert_key k ks'
  end.

Fixpoint group_keys (s : list cell) : result (list string) :=
  match s with
  | [] => Ok []
  | c :: s' =>
      k ← group_key c; ks ← group_keys s';
      Ok (match k with Some k => insert_key k ks | None => ks end)
  end.

(** [df[df[col] == v]] *)
Definition where_eq (df : DataFrame) (col : string) (v : cell) : result DataFrame :=
  s ← getitem df col; Ok (loc df (map (fun x => cell_eqb x v) s)).

(** [df.groupby(key)]: the groups in ascending key order, each with its
    records in their original order. *)
Definition groupby (df : DataFrame) (key : string) : result (list (string * DataFrame)) :=
  s ← getitem df key;
  ks ← group_keys s;
  Ok (map (fun k => (k, loc df (map (fun x => cell_eqb x (CStr k)) s))) ks).

(** [df.groupby(key)[target].sum()] *)
Definition groupby_sum (df : DataFrame) (key target : string)
  : result (list (string * Qc)) :=
  groups ← groupby df key;
  if bool_decide (target ∈ columns df)
  then traverse (fun kg : string * DataFrame =>
                   s ← getitem kg.2 target; v ← series_sum s; Ok (kg.1, v)) groups
  else Raise (KeyError target).

(** [s.nlargest(n)]: the [n] largest entries in descending order of
    value; equal values stay in their order of appearance
    ([keep='first']). *)
Fixpoint insert_desc (x : string * Qc) (l : list (string * Qc)) : list (string * Qc) :=
  match l with
  | [] => [x]
  | y :: l' => if Qc_ltb x.2 y.2 then y :: insert_desc x l' else x :: l
  end.

Definition sort_desc (s : list (string * Qc)) : list (string * Qc) :=
  foldr insert_desc [] s.

Definition nlargest (n : nat) (s : list (string * Qc)) : list (string * Qc) :=
  take n (sort_desc s).

(** [df.groupby(key)["actual_worth"].sum().nlargest(10)], the "top 10
    by worth" tables. *)
Definition top_by_worth (df : DataFrame) (key : string) : result (list (string * Qc)) :=
  s ← groupby_sum df key "actual_worth"; Ok (nlargest 10 s).

(** dashboards/transactions.py: [area_worth] *)
Definition area_worth (transactions : DataFrame) : result (list (string * Qc)) :=
  top_by_worth transactions "area_name_en".

(** dashboards/area_analytics.py: [building_worth] and [project_worth],
    computed only when the column exists. *)
Definition building_worth (filtered_area_data : DataFrame)
  : option (result (list (string * Qc))) :=
  if bool_decide ("building_name_en"%string ∈ columns filtered_area_data)
  then Some (top_by_worth filtered_area_data "building_name_en") else None.

Definition project_worth (filtered_area_data : DataFrame)
  : option (result (list (string * Qc))) :=
  if bool_decide ("project_name_en"%string ∈ columns filtered_area_data)
  then Some (top_by_worth filtered_area_data "project_name_en") else None.

(** The order the top-N tables promise: larger value first, and among
    equal values the smaller key first. *)
Definition before (x y : string * Qc) : Prop :=
  (y.2 < x.2)%Qc \/ (x.2 = y.2 /\ String.ltb x.1 y.1 = true).

(** dashboards/sales.py, "Create top areas metrics table" *)
Record AreaMetrics := mkAreaMetrics {
  Area : string;
  NoOfDeals : nat;
  TotalSales : Qc;
  AvgPrice : number;
  PricePerSqft : option number;     (* None when the column is absent *)
  YoYGrowth : option Qc             (* the key is set only in some cases *)
}.

#[global] Instance AreaMetrics_eq_dec : EqDecision AreaMetrics.
Proof. solve_decision. Defined.

Definition number_scale (x : number) (k : Qc) : number :=
  match x with Num q => Num (q * k)%Qc | NaN => NaN end.

Definition sqft_per_sqm : Qc := Q2Qc (10764 # 1000).

Definition area_metrics (filtered_data previous_period_data : DataFrame)
  : result (list AreaMetrics) :=
  groups ← groupby filtered_data "area_name_en";
  traverse (fun ag : string * DataFrame =>
    let area := ag.1 in
    let group := ag.2 in
    worth ← getitem group "actual_worth";
    total ← series_sum worth;
    avg ← series_mean worth;
    sqft ←
      (if bool_decide ("meter_sale_price"%string ∈ columns group)
       then s ← getitem group "meter_sale_price"; m ← series_mean s;
            Ok (Some (number_scale m sqft_per_sqm))
       else Ok None);
    yoy ←
      (if negb (empty previous_period_data) then
         prev_group ← where_eq previous_period_data "area_name_en" (CStr area);
         if negb (empty prev_group) then
           pw ← getitem prev_group "actual_worth";
           prev_total_value ← series_sum pw;
           if Qc_ltb 0 prev_total_value
           then Ok (Some ((total - prev_total_value) / prev_total_value * Qc_of_Z 100)%Qc)
           else Ok None
         else Ok None
       else Ok None);
    Ok (mkAreaMetrics area (length (rows group)) total avg sqft yoy)) groups.

(** [pd.DataFrame(area_metrics)]: the column labels are the keys of the
    dictionaries of the list, in order of first appearance; a list with
    no dictionary gives a frame with no column. *)
Definition area_metrics_df_columns (area_metrics : list AreaMetrics) : list string :=
  match area_metrics with
  | [] => []
  | _ =>
      ["Area"; "No. of Deals"; "Total Sales (AED)"; "Avg. Price"; "Price/sqft"]%string
      ++ (if existsb (fun m => bool_decide (is_Some (YoYGrowth m))) area_metrics
          then ["YoY Growth %"]%string else [])
  end.

(** dashboards/rentals.py, "Area-wise Rental Metrics Table" *)
Record RentMetrics := mkRentMetrics {
  RentArea : string;
  ContractCount : nat;
  AverageRent : number;
  MedianRent : number;
  HighestRent : number;
  LowestRent : number;
  TotalRentalValue : Qc
}.

Section AreaTables.

(** [df.sort_values(by, ascending=False)] on the rows of a table whose
    column [by] holds the given values.  pandas sorts with NumPy's
    default sort, which does not fix the order of rows with equal
    values; the resulting order is left open. *)
Variable sort_values_desc : forall A : Type, (A -> Qc) -> list A -> list A.

(** dashboards/sales.py: [area_metrics_df.sort_values('No. of Deals',
    ascending=False).head(10)], after the table is built. *)
Definition top_areas_by_volume (filtered_data previous_period_data : DataFrame)
  : result (list AreaMetrics) :=
  area_metrics ← area_metrics filtered_data previous_period_data;
  sorted ←
    (if bool_decide ("No. of Deals"%string ∈ area_metrics_df_columns area_metrics)
     then Ok (sort_values_desc _ (fun m => Qc_of_nat (NoOfDeals m)) area_metrics)
     else Raise (KeyError "No. of Deals"));
  Ok (take 10 sorted).

(** dashboards/rentals.py: the table is built and sorted only
    [if not filtered_rentals.empty]. *)
Definition rentals_area_metrics (filtered_rentals : DataFrame)
  : option (result (list RentMetrics)) :=
  if negb (empty filtered_rentals) then
    Some (
      groups ← groupby filtered_rentals "area_name_en";
      area_metrics ←
        traverse (fun ag : string * DataFrame =>
          let area := ag.1 in
          let group := ag.2 in
          amount ← getitem group "annual_amount";
          average ← series_mean amount;
          median ← series_median amount;
          highest ← series_max amount;
          lowest ← series_min amount;
          total ← series_sum amount;
          Ok (mkRentMetrics area (length (rows group)) average median highest lowest total))
        groups;
      match area_metrics with
      | [] => Raise (KeyError "Contract Count")
      | _ => Ok (sort_values_desc _ (fun m => Qc_of_nat (ContractCount m)) area_metrics)
      end)
  else None.

End AreaTables.

(** ** utils.py *)

Module Utils.

(** Python's [a / b] on floats: raises exactly when the divisor compares
    equal to zero (both [0.0] and [-0.0]). *)
Definition py_truediv (a b : float) : result float :=
  if (b =? 0)%float then Raise ZeroDivisionError else Ok (a / b)%float.

(** [calculate_percent_change(current, previous)] *)
Definition calculate_percent_change (current previous : float) : result float :=
  if (previous =? 0)%float then Ok infinity
  else q ← py_truediv (current - previous)%float previous;
       Ok (q * 100)%float.

(** The dictionary [calculate_statistics] returns. *)
Record Statistics := mkStatistics {
  mean : number;
  median : number;
  min : number;
  max : number;
  count : nat
}.

#[global] Instance Statistics_eq_dec : EqDecision Statistics.
Proof. solve_decision. Defined.

(** [calculate_statistics(df, column)] *)
Definition calculate_statistics (df : DataFrame) (column : string) : result Statistics :=
  if empty df then Ok (mkStatistics (Num 0) (Num 0) (Num 0) (Num 0) 0)
  else
    s ← getitem df column;
    mean ← series_mean s;
    median ← series_median s;
    min ← series_min s;
    max ← series_max s;
    Ok (mkStatistics mean median min max (length (rows df))).

Section Dates.

(** [pd.to_datetime(x, errors='coerce')] on one raw element: its day
    count, or nothing when pandas yields NaT.  The text parser is
    pandas' own and is left open; a timestamp is kept and a null stays
    null. *)
Variable to_timestamp : cell -> option Z.

Definition to_datetime (c : cell) : cell :=
  from_option CDate CNull (to_timestamp c).

(** [ensure_datetime(df, date_column)].  The Python function assigns
    the column into the frame it was given and returns that frame; here
    the updated frame is the result. *)
Definition ensure_datetime (df : DataFrame) (date_column : string) : DataFrame :=
  if bool_decide (date_column ∈ columns df)
  then setitem df date_column (map (fun r => to_datetime (cell_of r date_column)) (rows df))
  else df.

(** [s.dt.to_period(period)] on one element; NaT stays NaT. *)
Definition dt_to_period (period : Calendar.Granularity) (c : cell) : cell :=
  match c with
  | CDate d => CPeriod (Calendar.to_period period d)
  | _ => CNull
  end.

(** [create_time_periods(df, date_column, period)] *)
Definition create_time_periods (df : DataFrame) (date_column : string)
    (period : Calendar.Granularity) : DataFrame :=
  if negb (bool_decide (date_column ∈ columns df)) then df
  else
    let df := ensure_datetime df date_column in
    setitem df "time_period"
      (map (fun r => dt_to_period period (cell_of r date_column)) (rows df)).

(** [s.astype(str)] on a period column: the bucket keys. *)
Definition bucket_key (c : cell) : option string :=
  match c with
  | CPeriod p => Some (Calendar.period_str p)
  | _ => None
  end.

(** The date [create_time_periods] reads in the record at position [i],
    and the bucket key of the record at position [i] of its result. *)
Definition date_at (df : DataFrame) (date_column : string) (i : nat) : option Z :=
  r ← rows df !! i; to_timestamp (cell_of r date_column).

Definition key_at (df : DataFrame) (i : nat) : option string :=
  r ← rows df !! i; bucket_key (cell_of r "time_period").

End Dates.

End Utils.

(** ** data_loader.py *)

Module DataLoader.

Section Load.

Variable to_timestamp : cell -> option Z.

(** [dt.year] and [dt.month] of one element. *)
Definition dt_year (c : cell) : cell :=
  match c with
  | CDate d => CNum (Qc_of_Z (Calendar.year (Calendar.civil_from_days d)))
  | _ => CNull
  end.

Definition dt_month (c : cell) : cell :=
  match c with
  | CDate d => CNum (Qc_of_Z (Calendar.month (Calendar.civil_from_days d)))
  | _ => CNull
  end.

(** The statements of [load_data] on the stored transactions:
    "Double-check date parsing", drop the records without a date, add
    the derived columns. *)
Definition load_transactions (stored : DataFrame) : result DataFrame :=
  s ← getitem stored "instance_date";
  let transactions :=
    setitem stored "instance_date" (map (Utils.to_datetime to_timestamp) s) in
  transactions ← dropna transactions "instance_date";
  s ← getitem transactions "instance_date";
  let transactions := setitem transactions "year" (map dt_year s) in
  s ← getitem transactions "instance_date";
  let transactions := setitem transactions "month" (map dt_month s) in
  Ok transactions.

(** [load_data()] with both stored tables present and no sampling: what
    the caller receives is the pair of frames. *)
Definition load_data (stored_transactions stored_rentals : DataFrame)
  : result (DataFrame * DataFrame) :=
  transactions ← load_transactions stored_transactions;
  let rentals := stored_rentals in
  Ok (transactions, rentals).

(** [df.sample(n, random_state=42)] on the records of a frame: pandas'
    pseudo-random choice of [n] of them, left open. *)
Variable sample : nat -> list (gmap string cell) -> list (gmap string cell).

(** [if len(df) > sample_size: df = df.sample(sample_size, random_state=42)] *)
Definition sample_frame (sample_size : nat) (df : DataFrame) : DataFrame :=
  if (sample_size <? length (rows df))%nat
  then mkFrame (columns df) (sample sample_size (rows df))
  else df.

(** [load_data(sample_size)] with both stored tables present;
    [load_data] above is the call without [sample_size]. *)
Definition load_data_sample (sample_size : option nat)
    (stored_transactions stored_rentals : DataFrame) : result (DataFrame * DataFrame) :=
  transactions ← load_transactions stored_transactions;
  let rentals := stored_rentals in
  match sample_size with
  | Some n => Ok (sample_frame n transactions, sample_frame n rentals)
  | None => Ok (transactions, rentals)
  end.

(** One record as [load_data] returns it: the date coerced, the year
    and the month added. *)
Definition with_dates (r : gmap string cell) : gmap string cell :=
  let r1 := <["instance_date"%string := Utils.to_datetime to_timestamp (cell_of r "instance_date")]> r in
  let r2 := <["year"%string := dt_year (cell_of r1 "instance_date")]> r1 in
  <["month"%string := dt_month (cell_of r2 "instance_date")]> r2.

(** The records [load_data] leaves out. *)
Definition unparsable (r : gmap string cell) : bool :=
  match to_timestamp (cell_of r "instance_date") with
  | Some _ => false
  | None => true
  end.

End Load.

End DataLoader.

(** ** dashboards/comparing.py and dashboards/sales.py: yields and returns *)

Module Returns.

(** [calculate_rental_yield(price, annual_rent)] *)
Definition calculate_rental_yield (price annual_rent : float) : result float :=
  if (price <=? 0)%float then Ok 0%float
  else q ← Utils.py_truediv annual_rent price; Ok (q * 100)%float.

(** [calculate_net_yield(price, annual_rent, expenses_percent)] *)
Definition calculate_net_yield (price annual_rent expenses_percent : float) : result float :=
  if (price <=? 0)%float then Ok 0%float
  else
    let expenses := (price * expenses_percent)%float in
    let net_income := (annual_rent - expenses)%float in
    q ← Utils.py_truediv net_income price; Ok (q * 100)%float.

(** [calculate_roi(purchase_price, annual_rent, annual_expenses_percent,
    vacancy_rate)]: the pair [(roi_percent, cash_flow)]. *)
Definition calculate_roi
    (purchase_price annual_rent annual_expenses_percent vacancy_rate : float)
  : result (float * float) :=
  let annual_expenses := (purchase_price * annual_expenses_percent)%float in
  let effective_annual_rent := (annual_rent * (1 - vacancy_rate))%float in
  let cash_flow := (effective_annual_rent - annual_expenses)%float in
  q ← Utils.py_truediv cash_flow purchase_price;
  Ok ((q * 100)%float, cash_flow).

End Returns.

(** ** What the groups hold *)

(** The text of a key cell, the test that a record has a key, and the
    amount a reduction reads from a record (a null adds nothing). *)
Definition key_text (c : cell) : option string :=
  match c with CStr s => Some s | _ => None end.

Definition has_key (col : string) (r : gmap string cell) : bool :=
  match key_text (cell_of r col) with Some _ => true | None => false end.

Definition amount_of (col : string) (r : gmap string cell) : Qc :=
  match cell_of r col with
  | CNum q => q
  | CBool b => if b then 1%Qc else 0%Qc
  | _ => 0%Qc
  end.

Definition nat_sum (l : list nat) : nat := foldr Nat.add 0%nat l.

(** Amounts that float64 adds without rounding: whole numbers whose
    absolute values add up to less than 2^53.  Every partial sum of
    such amounts, in any order, is a whole number below 2^53 in
    absolute value, so the sums pandas computes in float64 (or in
    int64) are the exact sums. *)
Definition whole (q : Qc) : Prop := Qden (this q) = 1%positive.

Definition Qc_abs (q : Qc) : Qc := if Qc_leb 0%Qc q then q else (- q)%Qc.

Definition exact_amounts (vs : list Qc) : Prop :=
  Forall whole vs /\ (Qc_sum (map Qc_abs vs) < Qc_of_Z 9007199254740992)%Qc.

(** The columns on which the sales filters order values or read dates
    hold what those filters expect: [instance_date] is a datetime column
    (timestamps and NaT), [distance_to_metro] holds numbers (and NaN).
    On other frames pandas raises [AttributeError] for [.dt] or
    [TypeError] for the comparison, which [matches] does not model. *)
Definition sales_columns_typed (transactions : DataFrame) : Prop :=
  Forall (fun r =>
            match cell_of r "instance_date" with CDate _ | CNull => True | _ => False end
            /\ match cell_of r "distance_to_metro" with CNum _ | CNull => True | _ => False end)
         (rows transactions).

(** A row of a table is at least as large as another. *)
Definition at_least (x y : string * Qc) : Prop := (y.2 <= x.2)%Qc.

(** ** data_loader.py: the one-time conversion *)

Module Conversion.

Section FirstRun.

(** [pd.to_datetime(x, dayfirst=True, errors='coerce')] and
    [pd.to_datetime(x, errors='coerce')] on one element. *)
Variable to_timestamp_dayfirst : cell -> option Z.
Variable to_timestamp : cell -> option Z.

(** The statements between [read_csv] and [to_parquet]: what is stored
    for the transactions read from the CSV file. *)
Definition convert_transactions (raw_transactions : DataFrame) : result DataFrame :=
  s ← getitem raw_transactions "instance_date";
  let raw_transactions :=
    setitem raw_transactions "instance_date"
      (map (Utils.to_datetime to_timestamp_dayfirst) s) in
  dropna raw_transactions "instance_date".

(** [load_data()] when neither stored table exists yet: both are
    converted, stored and read back (the stored copy is taken to hold
    what was written), then loaded as usual. *)
Definition load_data_first_run (raw_transactions raw_rentals : DataFrame)
  : result (DataFrame * DataFrame) :=
  stored_transactions ← convert_transactions raw_transactions;
  let stored_rentals := raw_rentals in
  DataLoader.load_data to_timestamp stored_transactions stored_rentals.

(** The records the conversion keeps. *)
Definition parsable (r : gmap string cell) : bool :=
  match to_timestamp_dayfirst (cell_of r "instance_date") with
  | Some _ => true
  | None => false
  end.

End FirstRun.

End Conversion.

(** ** dashboards/rentals.py: from the key metrics to the filters *)

Section RentalsToFilters.

Variable astype_str : cell -> string.

(** [show_rentals_dashboard] up to its filter statements.  The key
    metrics reduce [rentals['annual_amount']], the area count and the
    options of the two select boxes read [rentals['area_name_en']] and
    [rentals['ejari_property_sub_type_en']]; what is computed there is
    displayed and not kept. *)
Definition show_rentals_dashboard_to_filters (rentals : DataFrame)
    (selected_area selected_property_type : string) : result DataFrame :=
  s ← getitem rentals "annual_amount"; _ ← series_sum s;
  s ← getitem rentals "annual_amount"; _ ← series_mean s;
  s ← getitem rentals "annual_amount"; _ ← series_median s;
  s ← getitem rentals "annual_amount"; _ ← series_max s;
  _ ← getitem rentals "area_name_en";
  _ ← getitem rentals "area_name_en";
  _ ← getitem rentals "ejari_property_sub_type_en";
  show_rentals_dashboard_filtered_rentals astype_str rentals
    selected_area selected_property_type.

End RentalsToFilters.

(** The first of the columns the rentals dashboard reads that a frame
    lacks. *)
Definition first_missing (rentals : DataFrame) : option string :=
  List.find (fun c => negb (bool_decide (c ∈ columns rentals)))
    ["annual_amount"; "area_name_en"; "ejari_property_sub_type_en"]%string.

(** ** dashboards/sales.py: the previous period *)

(** What a section comes to: a frame, an exception of pandas, or
    Python's [UnboundLocalError] on reading the variable of a select
    box that was not drawn. *)
Inductive section_result :=
  | Frame (df : DataFrame)
  | Pandas (e : exn)
  | UnboundLocalError (name : string).

Section PreviousPeriod.

Variable astype_str : cell -> string.

(** [previous_period_data]: the window of the same length that ends the
    day before the selected range starts, narrowed by area and property
    type only.  [selected_area] and [selected_property_type] are bound
    only when their columns exist, and are read here without that
    test. *)
Definition show_sales_dashboard_previous_period_data
    (transactions : DataFrame) (w : SalesSelection) : section_result :=
  if bool_decide ("instance_date"%string ∈ columns transactions)
     && bool_decide (length (date_range w) = 2%nat) then
    let period_length := nth 1 (date_range w) 0 - nth 0 (date_range w) 0 in
    let previous_end := nth 0 (date_range w) 0 - 1 in
    let previous_start := previous_end - period_length in
    match where_ astype_str transactions "instance_date"
            (DateBetween previous_start previous_end) with
    | Raise e => Pandas e
    | Ok previous_period_data =>
        if negb (bool_decide ("area_name_en"%string ∈ columns transactions))
        then UnboundLocalError "selected_area"
        else
          match (if negb (is_all (selected_area w))
                 then where_ astype_str previous_period_data "area_name_en"
                        (Equals (CStr (selected_area w)))
                 else Ok previous_period_data) with
          | Raise e => Pandas e
          | Ok previous_period_data =>
              if negb (bool_decide ("property_type_en"%string ∈ columns transactions))
              then UnboundLocalError "selected_property_type"
              else
                match (if negb (is_all (selected_property_type w))
                       then where_ astype_str previous_period_data "property_type_en"
                              (Equals (CStr (selected_property_type w)))
                       else Ok previous_period_data) with
                | Raise e => Pandas e
                | Ok previous_period_data => Frame previous_period_data
                end
          end
    end
  else Frame (mkFrame [] []).

End PreviousPeriod.

(** ** dashboards/sales.py: price segments *)

Module Segments.

(** An edge of [pd.cut]: a number or [float('inf')]. *)
Inductive edge :=
  | Finite (q : Qc)
  | Inf.

(** [e < q] and [q <= e] *)
Definition above (q : Qc) (e : edge) : bool :=
  match e with Finite b => Qc_ltb b q | Inf => false end.

Definition upto (q : Qc) (e : edge) : bool :=
  match e with Finite b => Qc_leb q b | Inf => true end.

(** [pd.cut(x, bins, labels)] on one number: the label of the interval
    (lo, hi] that holds it ([right=True]), none outside the edges. *)
Fixpoint cut (bins : list edge) (labels : list string) (q : Qc) : option string :=
  match bins, labels with
  | lo :: (hi :: _) as bins', l :: labels' =>
      if above q lo && upto q hi then Some l else cut bins' labels' q
  | _, _ => None
  end.

Definition price_bins : list edge :=
  [Finite 0%Qc; Finite (Qc_of_Z 1000000); Finite (Qc_of_Z 3000000);
   Finite (Qc_of_Z 5000000); Finite (Qc_of_Z 10000000); Inf].

Definition price_labels : list string :=
  ["Affordable (<1M)"; "Mid-Market (1-3M)"; "Luxury (3-5M)"; "Ultra-Luxury (5-10M)";
   "Super-Prime (10M+)"]%string.

(** The segment of one element; a null has none. *)
Definition price_segment (c : cell) : result (option string) :=
  v ← numeric c; Ok (v ≫= cut price_bins price_labels).

(** [value_counts()] of a categorical: every category has a row, the
    nulls are not counted.  The rows are given in the order of the
    categories, which is the order the sort by [Segment] at the end of
    the section puts them in. *)
Definition value_counts (categories : list string) (s : list (option string))
  : list (string * nat) :=
  map (fun l => (l, length (List.filter (fun x => bool_decide (x = Some l)) s))) categories.

Record SegmentCount := mkSegmentCount {
  Segment : string;
  Count : nat;
  Percentage : number
}.

(** [Count / Count.sum() * 100]; 0/0 is NaN in a column. *)
Definition percentage (count total : nat) : number :=
  if (total =? 0)%nat then NaN
  else Num (Qc_of_nat count / Qc_of_nat total * Qc_of_Z 100)%Qc.

Definition price_segment_counts (filtered_data : DataFrame) : result (list SegmentCount) :=
  actual_worth ← getitem filtered_data "actual_worth";
  price_segment ← traverse price_segment actual_worth;
  let counts := value_counts price_labels price_segment in
  let total := nat_sum (map snd counts) in
  Ok (map (fun lc => mkSegmentCount lc.1 lc.2 (percentage lc.2 total)) counts).

(** The records [pd.cut] puts in a segment: those with a worth above
    the first edge. *)
Definition positive_worth (r : gmap string cell) : bool :=
  match cell_of r "actual_worth" with
  | CNum q => Qc_ltb 0%Qc q
  | CBool b => b
  | _ => false
  end.

End Segments.

(** ** The session: auth.py, app.py and [get_data] of data_loader.py *)

Module Session.

(** What [st.session_state] holds under a key. *)
Inductive value :=
  | VBool (b : bool)
  | VStr (s : string)
  | VNone
  | VFrame (df : DataFrame).

Abbreviation SessionState := (gmap string value).

(** Python's truth value *)
Definition truthy (v : value) : bool :=
  match v with
  | VBool b => b
  | VStr s => negb (bool_decide (s = ""%string))
  | VNone => false
  | VFrame _ => true
  end.

(** The widgets of one run of the script: the login form is drawn when
    the session is not authenticated, the logout button when it is. *)
Record Widgets := mkWidgets {
  username : string;
  password : string;
  submit : bool;
  logout : bool
}.

(** How [custom_login] ends: it returns, or [st.rerun()] stops the run. *)
Inductive Outcome :=
  | Return (b : bool)
  | Rerun.

Definition getitem_state (session_state : SessionState) (key : string) : result value :=
  match session_state !! key with
  | Some v => Ok v
  | None => Raise (KeyError key)
  end.

(** [custom_login()], after the configuration is read (its content is
    not used). *)
Definition custom_login (session_state : SessionState) (w : Widgets)
  : result (SessionState * Outcome) :=
  authenticated ← getitem_state session_state "authenticated";
  if negb (truthy authenticated) then
    if submit w then
      if String.eqb (username w) "user" && String.eqb (password w) "password123" then
        let session_state := <["authenticated"%string := VBool true]> session_state in
        let session_state := <["username"%string := VStr (username w)]> session_state in
        let session_state := <["name"%string := VStr "Regular User"]> session_state in
        Ok (session_state, Rerun)
      else if String.eqb (username w) "admin" && String.eqb (password w) "admin123" then
        let session_state := <["authenticated"%string := VBool true]> session_state in
        let session_state := <["username"%string := VStr (username w)]> session_state in
        let session_state := <["name"%string := VStr "Admin User"]> session_state in
        Ok (session_state, Rerun)
      else Ok (session_state, Return false)
    else Ok (session_state, Return false)
  else
    _ ← getitem_state session_state "name";
    if logout w then
      let session_state := <["authenticated"%string := VBool false]> session_state in
      let session_state := <["username"%string := VNone]> session_state in
      let session_state := <["name"%string := VNone]> session_state in
      Ok (session_state, Rerun)
    else Ok (session_state, Return true).

(** app.py: [if key not in st.session_state: st.session_state[key] = v] *)
Definition setdefault (key : string) (v : value) (session_state : SessionState)
  : SessionState :=
  match session_state !! key with
  | Some _ => session_state
  | None => <[key := v]> session_state
  end.

(** One run of app.py up to the login gate: the dashboards are drawn
    when [custom_login] returns [True]. *)
Definition app (session_state : SessionState) (w : Widgets)
  : result (SessionState * Outcome) :=
  let session_state := setdefault "authenticated" (VBool false) session_state in
  let session_state := setdefault "username" VNone session_state in
  let session_state := setdefault "name" VNone session_state in
  custom_login session_state w.

(** The session after a sequence of runs, each with its own widget
    input. *)
Fixpoint runs (session_state : SessionState) (ws : list Widgets) : result SessionState :=
  match ws with
  | [] => Ok session_state
  | w :: ws' => so ← app session_state w; runs so.1 ws'
  end.

(** The session is that of a logged-out visitor, or of one of the two
    demo accounts. *)
Definition logged_out (s : SessionState) : Prop :=
  s !! "authenticated"%string = Some (VBool false)
  /\ s !! "username"%string = Some VNone
  /\ s !! "name"%string = Some VNone.

Definition logged_in_as (user display : string) (s : SessionState) : Prop :=
  s !! "authenticated"%string = Some (VBool true)
  /\ s !! "username"%string = Some (VStr user)
  /\ s !! "name"%string = Some (VStr display).

Definition consistent (s : SessionState) : Prop :=
  logged_out s \/ logged_in_as "user" "Regular User" s \/ logged_in_as "admin" "Admin User" s.

(** The session a run starts from: fresh, or left by an earlier run. *)
Definition started (s : SessionState) : Prop := s = ∅ \/ consistent s.

(** A submitted login form with one of the two demo pairs. *)
Definition demo_credentials (w : Widgets) : Prop :=
  submit w = true
  /\ ((username w = "user"%string /\ password w = "password123"%string)
      \/ (username w = "admin"%string /\ password w = "admin123"%string)).

(** *** data_loader.py, [get_data] *)

Section GetData.

(** [load_data(sample_size)]; the sample is drawn at random. *)
Variable load_data : option Z -> result (DataFrame * DataFrame).

(** Reading [st.session_state.key]: a missing attribute is an
    [AttributeError]. *)
Inductive failure :=
  | Load (e : exn)
  | AttributeError (key : string).

Definition getattr (session_state : SessionState) (key : string) : failure + value :=
  match session_state !! key with
  | Some v => inr v
  | None => inl (AttributeError key)
  end.

Definition get_data (use_sample : bool) (session_state : SessionState)
  : failure + (SessionState * (value * value)) :=
  let loaded :=
    if negb (bool_decide (is_Some (session_state !! "transactions"%string)))
       || negb (bool_decide (is_Some (session_state !! "rentals"%string))) then
      let sample_size := if use_sample then Some 10000 else None in
      match load_data sample_size with
      | Raise e => inl (Load e)
      | Ok (transactions, rentals) =>
          inr (<["rentals"%string := VFrame rentals]>
                 (<["transactions"%string := VFrame transactions]> session_state))
      end
    else inr session_state in
  match loaded with
  | inl e => inl e
  | inr session_state =>
      match getattr session_state "transactions", getattr session_state "rentals" with
      | inr transactions, inr rentals => inr (session_state, (transactions, rentals))
      | inl e, _ | _, inl e => inl e
      end
  end.

End GetData.

End Session.

(** ** dashboards/comparing.py: [prepare_merged_data] *)

Module Comparing.

(** [df.groupby(key)[target].mean()] *)
Definition groupby_mean (df : DataFrame) (key target : string)
  : result (list (string * number)) :=
  groups ← groupby df key;
  if bool_decide (target ∈ columns df)
  then traverse (fun kg : string * DataFrame =>
                   s ← getitem kg.2 target; v ← series_mean s; Ok (kg.1, v)) groups
  else Raise (KeyError target).

(** A row of [merged_data] *)
Record MergedRow := mkMergedRow {
  area_name_en : string;
  actual_worth : number;
  annual_amount : number
}.

(** [pd.merge(left, right, on='area_name_en', how='inner')]: the rows
    of the left table, in their order, each paired with the rows of the
    right table that have its key. *)
Definition merge (left right : list (string * number)) : list MergedRow :=
  flat_map (fun l =>
              map (fun r => mkMergedRow l.1 l.2 r.2)
                  (List.filter (fun r : string * number => bool_decide (r.1 = l.1)) right))
           left.

(** [(s >= min_price) & (s <= max_price)] on one element; [max_price]
    is [float('inf')] by default. *)
Definition in_price_range (min_price : Qc) (max_price : Segments.edge) (x : cell) : bool :=
  match x with
  | CNum a => Qc_leb min_price a && Segments.upto a max_price
  | _ => false
  end.

Definition property_mapping (selected_property_type : string) : option (list string) :=
  if is_str selected_property_type "Apartment" then Some ["Apartment"; "Studio"; "Flat"]%string
  else if is_str selected_property_type "Villa" then Some ["Villa"; "Townhouse"]%string
  else if is_str selected_property_type "Commercial" then Some ["Office"; "Shop"; "Retail"]%string
  else None.

Section Prepare.

Variable astype_str : cell -> string.

Definition prepare_merged_data (transactions rentals : DataFrame)
    (selected_area selected_property_type selected_rooms : string)
    (min_price : Qc) (max_price : Segments.edge)
  : result (DataFrame * DataFrame * list MergedRow) :=
  let filtered_transactions := transactions in
  filtered_transactions ←
    (if negb (is_all selected_area)
     then where_ astype_str filtered_transactions "area_name_en" (Equals (CStr selected_area))
     else Ok filtered_transactions);
  filtered_transactions ←
    (if negb (is_all selected_property_type)
     then where_ astype_str filtered_transactions "property_type_en"
            (Equals (CStr selected_property_type))
     else Ok filtered_transactions);
  filtered_transactions ←
    if_column astype_str transactions filtered_transactions "rooms_en"
      (negb (is_all selected_rooms)) (AsStrEquals selected_rooms);
  worth ← getitem filtered_transactions "actual_worth";
  let filtered_transactions :=
    loc filtered_transactions (map (in_price_range min_price max_price) worth) in
  let filtered_rentals := rentals in
  filtered_rentals ←
    (if negb (is_all selected_area)
     then where_ astype_str filtered_rentals "area_name_en" (Equals (CStr selected_area))
     else Ok filtered_rentals);
  filtered_rentals ←
    (if negb (is_all selected_property_type) then
       if bool_decide ("property_type_en"%string ∈ columns rentals) then
         where_ astype_str filtered_rentals "property_type_en"
           (Equals (CStr selected_property_type))
       else if bool_decide ("ejari_property_sub_type_en"%string ∈ columns rentals) then
         match property_mapping selected_property_type with
         | Some matched_types =>
             where_ astype_str filtered_rentals "ejari_property_sub_type_en"
               (IsIn matched_types)
         | None => Ok filtered_rentals
         end
       else Ok filtered_rentals
     else Ok filtered_rentals);
  filtered_rentals ←
    if_column astype_str rentals filtered_rentals "rooms_en"
      (negb (is_all selected_rooms)) (AsStrEquals selected_rooms);
  area_price_data ← groupby_mean filtered_transactions "area_name_en" "actual_worth";
  area_rent_data ← groupby_mean filtered_rentals "area_name_en" "annual_amount";
  let merged_data := merge area_price_data area_rent_data in
  Ok (filtered_transactions, filtered_rentals, merged_data).

End Prepare.

(** The records of a frame in an area. *)
Definition in_area (df : DataFrame) (k : string) : Prop :=
  exists r, r ∈ rows df /\ cell_of r "area_name_en" = CStr k.

End Comparing.

(** ** Data for the closed examples *)

(** [astype(str)] on a column of text with nulls: text is unchanged and
    a null prints as [nan].  The examples apply it to such columns
    only. *)
Definition text_str (c : cell) : string :=
  match c with
  | CStr s => s
  | _ => "nan"
  end.

Definition sale (area : string) (worth : Z) : gmap string cell :=
  {[ "area_name_en"%string := CStr area;
     "actual_worth"%string := CNum (Qc_of_Z worth) ]}.

(** Five sales: worth 100, 200, 300, 400, 500 in areas A, A, B, B, B. *)
Definition five_sales : DataFrame :=
  mkFrame ["actual_worth"; "area_name_en"]%string
    [sale "A" 100; sale "A" 200; sale "B" 300; sale "B" 400; sale "B" 500].

(** Worth between 200 and 500 inclusive: on [five_sales], the sales of
    worth at least 200. *)
Definition worth_from_200 : FilterStep :=
  mkStep "actual_worth" false (Between (Qc_of_Z 200) (Qc_of_Z 500)).

Definition in_area_B : FilterStep :=
  mkStep "area_name_en" false (Equals (CStr "B")).

(** A sales selection that asks for one zone type and leaves every other
    widget at its default. *)
Definition only_zone (zone : string) : SalesSelection :=
  mkSalesSelection [] "All" "All" "All" "All" "All" "All" "All" "All" "All" "All"
    zone "All" "All".

(** [to_datetime] for the examples: timestamps are kept, everything else
    (in particular text that is not a date) becomes NaT. *)
Definition timestamps_only (c : cell) : option Z :=
  match c with
  | CDate d => Some d
  | _ => None
  end.

(** The columns the aggregates read hold what their names say: names
    are text or null, amounts are numbers or null. *)
Definition is_text (c : cell) : Prop :=
  match c with CStr _ | CNull => True | _ => False end.

Definition is_amount (c : cell) : Prop :=
  match c with CNum _ | CBool _ | CNull => True | _ => False end.

Definition text_column (df : DataFrame) (col : string) : Prop :=
  Forall (fun r => is_text (cell_of r col)) (rows df).

Definition amount_column (df : DataFrame) (col : string) : Prop :=
  Forall (fun r => is_amount (cell_of r col)) (rows df).

Definition str_lt (a b : string) : Prop := String.ltb a b = true.

(** The sales columns with no records: what a filter that matches
    nothing leaves. *)
Definition no_sales : DataFrame :=
  mkFrame ["actual_worth"; "area_name_en"]%string [].

(** Three sales dated 2024-01-15, 2024-01-20 and 2024-02-01. *)
Definition dated (d : Z) : gmap string cell := {[ "instance_date"%string := CDate d ]}.

Definition three_dates : DataFrame :=
  mkFrame ["instance_date"]%string [dated 19737; dated 19742; dated 19754].

(** Stored transactions whose dates are partly not dates. *)
Definition stored_row (date : cell) (worth : Z) : gmap string cell :=
  {[ "instance_date"%string := date; "actual_worth"%string := CNum (Qc_of_Z worth) ]}.

Definition one_bad_date : DataFrame :=
  mkFrame ["instance_date"; "actual_worth"]%string
    [stored_row (CDate 19737) 100; stored_row (CStr "n/a") 200].

Definition two_bad_dates : DataFrame :=
  mkFrame ["instance_date"; "actual_worth"]%string
    [stored_row (CDate 19737) 100; stored_row (CStr "n/a") 200;
     stored_row (CStr "n/a") 200].

(** Day-first text for the examples: one known date, everything else
    is not a date. *)
Definition dayfirst_only (c : cell) : option Z :=
  match c with
  | CDate d => Some d
  | CStr "15-01-2024" => Some 19737
  | _ => None
  end.

Definition raw_two : DataFrame :=
  mkFrame ["instance_date"; "actual_worth"]%string
    [stored_row (CStr "15-01-2024") 100; stored_row (CStr "n/a") 200].

(** Two rentals, in areas B and C. *)
Definition rent (area : string) (amount : Z) : gmap string cell :=
  {[ "area_name_en"%string := CStr area;
     "annual_amount"%string := CNum (Qc_of_Z amount) ]}.

Definition two_rents : DataFrame :=
  mkFrame ["annual_amount"; "area_name_en"]%string [rent "B" 40; rent "C" 50].

(** ** Theorems *)

Example calculate_percent_change_150_100 :
  Utils.calculate_percent_change 150 100 = Ok 50%float.
Proof. vm_compute. reflexivity. Qed.

Example py_truediv_by_zero :
  Utils.py_truediv 1 0 = Raise ZeroDivisionError
  /\ Utils.py_truediv 1 (-0) = Raise ZeroDivisionError.
Proof. split; vm_compute; reflexivity. Qed.

(** C10. [calculate_percent_change] never raises a division-by-zero
    error: it returns positive infinity when [previous == 0] and
    [((current - previous) / previous) * 100] otherwise. *)
Theorem calculate_percent_change_total (current previous : float) :
  Utils.calculate_percent_change current previous
  = Ok (if (previous =? 0)%float then infinity
        else ((current - previous) / previous * 100)%float).
Proof.
  unfold Utils.calculate_percent_change, Utils.py_truediv.
  destruct (previous =? 0)%float; reflexivity.
Qed.

Example civil_epoch : Calendar.civil_from_days 0 = Calendar.mkDate 1970 1 1.
Proof. vm_compute. reflexivity. Qed.

Example civil_2024_01_15 :
  Calendar.civil_from_days 19737 = Calendar.mkDate 2024 1 15
  /\ Calendar.weekday 19737 = 0.
Proof. split; vm_compute; reflexivity. Qed.

Example civil_timestamp_bounds :
  Calendar.civil_from_days Calendar.timestamp_min = Calendar.mkDate 1677 9 21
  /\ Calendar.civil_from_days Calendar.timestamp_max = Calendar.mkDate 2262 4 11.
Proof. split; vm_compute; reflexivity. Qed.

Example period_str_examples :
  map (fun g => Calendar.period_str (Calendar.to_period g 19740))
      [Calendar.Daily; Calendar.Weekly; Calendar.Monthly; Calendar.Quarterly; Calendar.Yearly]
  = ["2024-01-18"; "2024-01-15/2024-01-21"; "2024-01"; "2024Q1"; "2024"]%string.
Proof. vm_compute. reflexivity. Qed.

(** *** The result monad *)

Lemma bind_ok {A B} (a : A) (f : A -> result B) : (Ok a ≫= f) = f a.
Proof. reflexivity. Qed.

Lemma bind_ret {A} (m : result A) : (x ← m; Ok x) = m.
Proof. destruct m; reflexivity. Qed.

(** *** Boolean indexing is a filter *)

Lemma select_map_filter {A} (f : A -> bool) (xs : list A) :
  select xs (map f xs) = List.filter f xs.
Proof.
  induction xs as [|x xs IH]; simpl; [reflexivity|].
  rewrite IH. reflexivity.
Qed.

Lemma filter_sublist {A} (f : A -> bool) (xs : list A) :
  sublist (List.filter f xs) xs.
Proof.
  induction xs as [|x xs IH]; simpl; [constructor|].
  destruct (f x); [apply sublist_skip | apply sublist_cons]; exact IH.
Qed.

Lemma filter_filter_andb {A} (f g : A -> bool) (xs : list A) :
  List.filter g (List.filter f xs) = List.filter (fun x => f x && g x) xs.
Proof.
  induction xs as [|x xs IH]; simpl; [reflexivity|].
  destruct (f x); simpl; [destruct (g x)|]; rewrite IH; reflexivity.
Qed.

Lemma filter_ext_bool {A} (f g : A -> bool) (xs : list A) :
  (forall x, f x = g x) -> List.filter f xs = List.filter g xs.
Proof.
  intros E. induction xs as [|x xs IH]; simpl; [reflexivity|].
  rewrite E, IH. reflexivity.
Qed.

Lemma getitem_present (df : DataFrame) (col : string) :
  col ∈ columns df ->
  getitem df col = Ok (map (fun r => cell_of r col) (rows df)).
Proof. intros H. unfold getitem. rewrite bool_decide_eq_true_2; done. Qed.

Lemma getitem_absent (df : DataFrame) (col : string) :
  col ∉ columns df -> getitem df col = Raise (KeyError col).
Proof. intros H. unfold getitem. rewrite bool_decide_eq_false_2; done. Qed.

Section FilterFacts.

Variable astype_str : cell -> string.


Lemma where_present (df : DataFrame) (col : string) (p : FilterPredicate) :
  col ∈ columns df ->
  where_ astype_str df col p
  = Ok (mkFrame (columns df)
          (List.filter (fun r => matches astype_str p (cell_of r col)) (rows df))).
Proof.
  intros H. unfold where_. rewrite getitem_present by done.
  cbn. unfold loc. rewrite map_map, select_map_filter. reflexivity.
Qed.

Lemma where_absent (df : DataFrame) (col : string) (p : FilterPredicate) :
  col ∉ columns df -> where_ astype_str df col p = Raise (KeyError col).
Proof. intros H. unfold where_. rewrite getitem_absent by done. reflexivity. Qed.

(** The loop computes [filtered_view]. *)
Lemma apply_filters_view (steps : list FilterStep) (df : DataFrame) :
  apply_filters astype_str df steps = filtered_view astype_str df steps.
Proof.
  revert df. induction steps as [|st steps IH]; intros df.
  - unfold filtered_view. simpl.
    destruct df as [cols rs]. simpl. f_equal. f_equal.
    induction rs as [|r rs IHr]; simpl; [reflexivity|]. f_equal. exact IHr.
  - change (apply_filters astype_str df (st :: steps))
      with (run_step astype_str df st ≫= fun df' => apply_filters astype_str df' steps).
    unfold filtered_view at 1. simpl List.find. unfold run_step, blocking at 1, present.
    destruct (decide (field st ∈ columns df)) as [Hin|Hout].
    + rewrite (bool_decide_eq_true_2 _ Hin), !andb_false_r.
      rewrite where_present by done. rewrite bind_ok, IH.
      unfold filtered_view. simpl columns. simpl rows.
      destruct (List.find _ steps); [reflexivity|].
      rewrite filter_filter_andb. do 2 f_equal.
      apply filter_ext_bool. intros r. simpl. unfold present, satisfies.
      rewrite (bool_decide_eq_true_2 _ Hin). reflexivity.
    + rewrite (bool_decide_eq_false_2 _ Hout), !andb_true_r.
      destruct (guarded st); simpl negb; cbv iota.
      * rewrite bind_ok, IH. unfold filtered_view.
        destruct (List.find _ steps); [reflexivity|].
        do 2 f_equal. apply filter_ext_bool. intros r. simpl. unfold present.
        rewrite (bool_decide_eq_false_2 _ Hout). reflexivity.
      * rewrite where_absent by done. reflexivity.
Qed.

Lemma apply_filters_app (a b : list FilterStep) (df : DataFrame) :
  apply_filters astype_str df (a ++ b)
  = (df' ← apply_filters astype_str df a; apply_filters astype_str df' b).
Proof.
  revert df. induction a as [|st a IH]; intros df; simpl; [reflexivity|].
  destruct (run_step astype_str df st) as [df'|e]; simpl; [apply IH | reflexivity].
Qed.

Lemma apply_filters_columns (steps : list FilterStep) (df v : DataFrame) :
  apply_filters astype_str df steps = Ok v -> columns v = columns df.
Proof.
  rewrite apply_filters_view. unfold filtered_view.
  destruct (List.find _ steps); [discriminate|].
  intros [= <-]. reflexivity.
Qed.

Lemma find_blocking_none (cols : list string) (steps : list FilterStep) :
  Forall (fun st => field st ∈ cols) steps ->
  List.find (blocking cols) steps = None.
Proof.
  induction 1 as [|st steps Hst _ IH]; simpl; [reflexivity|].
  unfold blocking at 1, present. rewrite (bool_decide_eq_true_2 _ Hst).
  rewrite andb_false_r. exact IH.
Qed.

Lemma keep_satisfies (cols : list string) (steps : list FilterStep) (r : gmap string cell) :
  Forall (fun st => field st ∈ cols) steps ->
  keep astype_str cols steps r = true ->
  Forall (fun st => satisfies astype_str st r = true) steps.
Proof.
  unfold keep. induction 1 as [|st steps Hst _ IH]; simpl; intros Hk; [constructor|].
  apply andb_true_iff in Hk as [H1 H2]. constructor; [|auto].
  unfold present in H1. rewrite (bool_decide_eq_true_2 _ Hst) in H1. exact H1.
Qed.

Lemma forallb_Permutation {A} (f : A -> bool) (l l' : list A) :
  l ≡ₚ l' -> forallb f l = forallb f l'.
Proof.
  induction 1 as [|x l l' _ IH|x y l|l l' l'' _ IH1 _ IH2]; simpl.
  - reflexivity.
  - rewrite IH. reflexivity.
  - destruct (f x), (f y); reflexivity.
  - congruence.
Qed.

Lemma find_none_Permutation {A} (f : A -> bool) (l l' : list A) :
  l ≡ₚ l' -> List.find f l = None -> List.find f l' = None.
Proof.
  intros HP Hn. destruct (List.find f l') as [x|] eqn:E; [|reflexivity].
  apply List.find_some in E as [Hin Hf].
  apply (Permutation_in _ (Permutation_sym HP)) in Hin.
  rewrite (List.find_none _ _ Hn _ Hin) in Hf. discriminate.
Qed.

(** *** The dashboards run [apply_filters] *)

Lemma transactions_filter_steps (transactions : DataFrame)
    (selected_year : option Qc) (selected_area : string) :
  show_transactions_dashboard_filtered_data astype_str transactions selected_year selected_area
  = apply_filters astype_str transactions (transactions_steps selected_year selected_area).
Proof.
  unfold show_transactions_dashboard_filtered_data, transactions_steps.
  destruct (truthy selected_year), (negb (is_all selected_area)); simpl;
    unfold run_step; simpl;
    repeat match goal with
           | |- context [where_ ?a ?d ?c ?p] => destruct (where_ a d c p); simpl
           end; reflexivity.
Qed.

Lemma rentals_filter_steps (rentals : DataFrame)
    (selected_area selected_property_type : string) :
  show_rentals_dashboard_filtered_rentals astype_str rentals selected_area selected_property_type
  = apply_filters astype_str rentals (rentals_steps selected_area selected_property_type).
Proof.
  unfold show_rentals_dashboard_filtered_rentals, rentals_steps.
  destruct (negb (is_all selected_area)), (negb (is_all selected_property_type)); simpl;
    unfold run_step; simpl;
    repeat match goal with
           | |- context [where_ ?a ?d ?c ?p] => destruct (where_ a d c p); simpl
           end; reflexivity.
Qed.

Lemma area_analytics_filter_steps (transactions : DataFrame) (selected_areas : list string) :
  show_area_analytics_dashboard_filtered_area_data astype_str transactions selected_areas
  = apply_filters astype_str transactions (area_analytics_steps selected_areas).
Proof.
  unfold show_area_analytics_dashboard_filtered_area_data, area_analytics_steps.
  destruct selected_areas as [|a l]; [reflexivity|].
  simpl. unfold run_step. simpl. rewrite bind_ret. reflexivity.
Qed.

Lemma if_column_steps (transactions fd : DataFrame) (col : string) (cond : bool)
    (p : FilterPredicate) :
  columns fd = columns transactions ->
  if_column astype_str transactions fd col cond p
  = apply_filters astype_str fd (step_if cond col p).
Proof.
  intros Hc. unfold if_column, step_if. rewrite <- Hc.
  destruct cond; [|rewrite andb_false_r; reflexivity].
  rewrite andb_true_r. simpl. unfold run_step. simpl.
  destruct (bool_decide (col ∈ columns fd)); simpl; [|reflexivity].
  rewrite bind_ret. reflexivity.
Qed.

Lemma chain_steps (transactions fd : DataFrame) (s rest : list FilterStep)
    (m : result DataFrame) (K : DataFrame -> result DataFrame) :
  columns fd = columns transactions ->
  m = apply_filters astype_str fd s ->
  (forall fd', columns fd' = columns transactions ->
               K fd' = apply_filters astype_str fd' rest) ->
  (m ≫= K) = apply_filters astype_str fd (s ++ rest).
Proof.
  intros Hc -> HK. rewrite apply_filters_app.
  destruct (apply_filters astype_str fd s) as [v|e] eqn:E; simpl; [|reflexivity].
  apply HK. rewrite (apply_filters_columns _ _ _ E). exact Hc.
Qed.

Lemma parking_steps (transactions fd : DataFrame) (sel : string) :
  columns fd = columns transactions ->
  (if bool_decide ("has_parking"%string ∈ columns transactions) && negb (is_all sel) then
     if is_str sel "Yes" then where_ astype_str fd "has_parking" (Equals (CBool true))
     else if is_str sel "No" then where_ astype_str fd "has_parking" (Equals (CBool false))
     else Ok fd
   else Ok fd)
  = apply_filters astype_str fd
      (if is_str sel "Yes" then step_if true "has_parking" (Equals (CBool true))
       else step_if (is_str sel "No") "has_parking" (Equals (CBool false))).
Proof.
  intros Hc. unfold is_str, is_all.
  destruct (decide (sel = "Yes"%string)) as [->|HY].
  { rewrite (bool_decide_eq_true_2 ("Yes"%string = "Yes"%string)) by done.
    rewrite (bool_decide_eq_false_2 ("Yes"%string = "All"%string)) by done.
    rewrite <- (if_column_steps transactions) by done. unfold if_column.
    simpl negb. rewrite !andb_true_r. reflexivity. }
  rewrite (bool_decide_eq_false_2 _ HY).
  destruct (decide (sel = "No"%string)) as [->|HN].
  { rewrite (bool_decide_eq_true_2 ("No"%string = "No"%string)) by done.
    rewrite (bool_decide_eq_false_2 ("No"%string = "All"%string)) by done.
    rewrite <- (if_column_steps transactions) by done. unfold if_column.
    simpl negb. rewrite !andb_true_r. reflexivity. }
  rewrite (bool_decide_eq_false_2 _ HN). simpl.
  destruct (_ && _); reflexivity.
Qed.

Lemma metro_dist_steps (transactions fd : DataFrame) (sel : string) :
  columns fd = columns transactions ->
  (if bool_decide ("distance_to_metro"%string ∈ columns transactions) && negb (is_all sel) then
     if is_str sel "Under 1km" then where_ astype_str fd "distance_to_metro" (Less 1%Qc)
     else if is_str sel "1-3km" then
       where_ astype_str fd "distance_to_metro" (Between 1%Qc (Qc_of_Z 3))
     else if is_str sel "Over 3km" then
       where_ astype_str fd "distance_to_metro" (Greater (Qc_of_Z 3))
     else Ok fd
   else Ok fd)
  = apply_filters astype_str fd
      (if is_str sel "Under 1km" then step_if true "distance_to_metro" (Less 1%Qc)
       else if is_str sel "1-3km"
       then step_if true "distance_to_metro" (Between 1%Qc (Qc_of_Z 3))
       else step_if (is_str sel "Over 3km") "distance_to_metro" (Greater (Qc_of_Z 3))).
Proof.
  intros Hc. unfold is_str, is_all.
  destruct (decide (sel = "Under 1km"%string)) as [->|H1].
  { rewrite (bool_decide_eq_true_2 ("Under 1km"%string = "Under 1km"%string)) by done.
    rewrite (bool_decide_eq_false_2 ("Under 1km"%string = "All"%string)) by done.
    rewrite <- (if_column_steps transactions) by done. unfold if_column.
    simpl negb. rewrite !andb_true_r. reflexivity. }
  rewrite (bool_decide_eq_false_2 _ H1).
  destruct (decide (sel = "1-3km"%string)) as [->|H2].
  { rewrite (bool_decide_eq_true_2 ("1-3km"%string = "1-3km"%string)) by done.
    rewrite (bool_decide_eq_false_2 ("1-3km"%string = "All"%string)) by done.
    rewrite <- (if_column_steps transactions) by done. unfold if_column.
    simpl negb. rewrite !andb_true_r. reflexivity. }
  rewrite (bool_decide_eq_false_2 _ H2).
  destruct (decide (sel = "Over 3km"%string)) as [->|H3].
  { rewrite (bool_decide_eq_true_2 ("Over 3km"%string = "Over 3km"%string)) by done.
    rewrite (bool_decide_eq_false_2 ("Over 3km"%string = "All"%string)) by done.
    rewrite <- (if_column_steps transactions) by done. unfold if_column.
    simpl negb. rewrite !andb_true_r. reflexivity. }
  rewrite (bool_decide_eq_false_2 _ H3). simpl.
  destruct (_ && _); reflexivity.
Qed.

Lemma sales_filter_steps (transactions : DataFrame) (w : SalesSelection) :
  show_sales_dashboard_filtered_data astype_str transactions w
  = apply_filters astype_str transactions (sales_steps w).
Proof.
  unfold show_sales_dashboard_filtered_data, sales_steps. cbv zeta.
  apply (chain_steps transactions);
    [reflexivity | apply if_column_steps; reflexivity | intros fd Hc].
  do 12 (apply (chain_steps transactions);
         [ exact Hc
         | first [ apply if_column_steps; exact Hc | apply parking_steps; exact Hc ]
         | clear fd Hc; intros fd Hc ]).
  rewrite bind_ret. apply metro_dist_steps. exact Hc.
Qed.

(** C1. Under the contract that every predicate names a column of the
    data set, the filters return a view with the same columns whose
    records are a sub-sequence of the source's records (nothing new,
    original order kept), and every record of the view satisfies every
    predicate. *)
Theorem apply_filters_subset (D : DataFrame) (P : list FilterStep) :
  Forall (fun st => field st ∈ columns D) P ->
  exists v,
    apply_filters astype_str D P = Ok v
    /\ columns v = columns D
    /\ sublist (rows v) (rows D)
    /\ Forall (fun r => Forall (fun st => satisfies astype_str st r = true) P) (rows v).
Proof.
  intros HP. rewrite apply_filters_view. unfold filtered_view.
  rewrite (find_blocking_none _ _ HP).
  eexists. split; [reflexivity|]. simpl.
  split; [reflexivity|]. split; [apply filter_sublist|].
  apply List.Forall_forall. intros r Hr.
  apply List.filter_In in Hr as [_ Hk].
  exact (keep_satisfies _ _ _ HP Hk).
Qed.

(** C4. Reordering the predicates does not change the view: two runs
    over permuted predicate lists return the same frame, or both fail
    (possibly naming different missing columns). *)
Theorem apply_filters_permutation (D : DataFrame) (P P' : list FilterStep) :
  P ≡ₚ P' ->
  same_view (apply_filters astype_str D P) (apply_filters astype_str D P').
Proof.
  intros HP. rewrite !apply_filters_view. unfold filtered_view, same_view.
  destruct (List.find (blocking (columns D)) P) as [st|] eqn:E.
  - destruct (List.find (blocking (columns D)) P') as [st'|] eqn:E'; [exact I|].
    rewrite (find_none_Permutation _ _ _ (Permutation_sym HP) E') in E. discriminate.
  - rewrite (find_none_Permutation _ _ _ HP E).
    f_equal. apply filter_ext_bool. intros r. unfold keep.
    apply forallb_Permutation. exact HP.
Qed.

(** C9. Filtering is idempotent: running the same predicates on the
    view they produced returns that view again (and a failing run fails
    the same way). *)
Theorem apply_filters_idempotent (D : DataFrame) (P : list FilterStep) :
  (v ← apply_filters astype_str D P; apply_filters astype_str v P)
  = apply_filters astype_str D P.
Proof.
  rewrite apply_filters_view. unfold filtered_view.
  destruct (List.find (blocking (columns D)) P) as [st|] eqn:E; [reflexivity|].
  rewrite bind_ok, apply_filters_view. unfold filtered_view. simpl columns.
  rewrite E. simpl rows. rewrite filter_filter_andb.
  do 2 f_equal. apply filter_ext_bool. intros r. apply andb_diag.
Qed.

End FilterFacts.

Example five_sales_filtered :
  apply_filters text_str five_sales [worth_from_200]
  = Ok (mkFrame ["actual_worth"; "area_name_en"]%string
          [sale "A" 200; sale "B" 300; sale "B" 400; sale "B" 500]).
Proof. vm_compute. reflexivity. Qed.

Lemma apply_filters_subset_witness :
  exists v,
    apply_filters text_str five_sales [worth_from_200; in_area_B] = Ok v
    /\ columns v = columns five_sales
    /\ sublist (rows v) (rows five_sales)
    /\ Forall (fun r => Forall (fun st => satisfies text_str st r = true)
                          [worth_from_200; in_area_B]) (rows v).
Proof.
  apply (apply_filters_subset text_str five_sales [worth_from_200; in_area_B]).
  repeat constructor.
Defined.

Lemma apply_filters_permutation_witness :
  same_view (apply_filters text_str five_sales [worth_from_200; in_area_B])
            (apply_filters text_str five_sales [in_area_B; worth_from_200]).
Proof.
  apply (apply_filters_permutation text_str five_sales
           [worth_from_200; in_area_B] [in_area_B; worth_from_200]).
  apply perm_swap.
Defined.

(** *** Absent columns *)

Lemma absent_field_ignored :
  ("zone_type"%string ∉ columns five_sales)
  /\ show_sales_dashboard_filtered_data text_str five_sales (only_zone "Waterfront")
     = Ok five_sales
  /\ Utils.create_time_periods timestamps_only five_sales "instance_date" Calendar.Monthly
     = five_sales.
Proof.
  split; [|split].
  - intros H. apply (bool_decide_eq_true_2 _) in H. vm_compute in H. discriminate.
  - vm_compute. reflexivity.
  - vm_compute. reflexivity.
Qed.

(** C2, as the code has it. When the named column is absent, a step
    behind a column test (the sales filters, [ensure_datetime],
    [create_time_periods]) is skipped and the data set comes back
    unchanged, and a step without the test (rentals, transactions, area
    analytics) fails with pandas' [KeyError] carrying the column name. *)
Theorem absent_field_skipped_or_KeyError
    (astype_str : cell -> string) (to_timestamp : cell -> option Z)
    (df : DataFrame) (col : string) (p : FilterPredicate) (g : Calendar.Granularity) :
  col ∉ columns df ->
  apply_filters astype_str df [mkStep col true p] = Ok df
  /\ apply_filters astype_str df [mkStep col false p] = Raise (KeyError col)
  /\ Utils.ensure_datetime to_timestamp df col = df
  /\ Utils.create_time_periods to_timestamp df col g = df.
Proof.
  intros H. repeat split.
  - simpl. unfold run_step. simpl. rewrite (bool_decide_eq_false_2 _ H). reflexivity.
  - simpl. unfold run_step. simpl. rewrite where_absent by done. reflexivity.
  - unfold Utils.ensure_datetime. rewrite (bool_decide_eq_false_2 _ H). reflexivity.
  - unfold Utils.create_time_periods. rewrite (bool_decide_eq_false_2 _ H). reflexivity.
Qed.

Lemma absent_field_skipped_or_KeyError_witness :
  apply_filters text_str five_sales [mkStep "zone_type" true (Equals (CStr "Waterfront"))]
  = Ok five_sales
  /\ apply_filters text_str five_sales [mkStep "zone_type" false (Equals (CStr "Waterfront"))]
     = Raise (KeyError "zone_type")
  /\ Utils.ensure_datetime timestamps_only five_sales "zone_type" = five_sales
  /\ Utils.create_time_periods timestamps_only five_sales "zone_type" Calendar.Monthly
     = five_sales.
Proof.
  apply (absent_field_skipped_or_KeyError text_str timestamps_only five_sales
           "zone_type" (Equals (CStr "Waterfront")) Calendar.Monthly).
  intros H. apply (bool_decide_eq_true_2 _) in H. vm_compute in H. discriminate.
Defined.

(** The unguarded dashboards on a frame without their column. *)
Example rentals_filter_KeyError :
  show_rentals_dashboard_filtered_rentals text_str
    (mkFrame ["annual_amount"]%string []) "Marina" "All"
  = Raise (KeyError "area_name_en").
Proof. vm_compute. reflexivity. Qed.

(** *** Order on keys *)

Lemma str_lt_compare (a b : string) : str_lt a b <-> String.compare a b = Lt.
Proof.
  unfold str_lt, String.ltb. destruct (String.compare a b); split; congruence.
Qed.

Lemma compare_refl (a : string) : String.compare a a = Eq.
Proof.
  induction a as [|c a IH]; simpl; [reflexivity|].
  unfold Ascii.compare. rewrite N.compare_refl. exact IH.
Qed.

Lemma str_lt_irrefl (a : string) : ~ str_lt a a.
Proof. rewrite str_lt_compare, compare_refl. discriminate. Qed.

Lemma str_lt_le (a b : string) : str_lt a b -> String.le a b.
Proof.
  rewrite str_lt_compare. unfold String.le, String.leb. intros ->. exact I.
Qed.

Lemma str_lt_trans (a b c : string) : str_lt a b -> str_lt b c -> str_lt a c.
Proof.
  intros Hab Hbc.
  assert (Hac : String.le a c).
  { transitivity b; apply str_lt_le; assumption. }
  apply str_lt_compare.
  destruct (String.compare a c) eqn:E.
  - apply String.compare_eq_iff in E. subst c.
    assert (a = b) as ->.
    { apply (anti_symm String.le); apply str_lt_le; assumption. }
    destruct (str_lt_irrefl _ Hab).
  - reflexivity.
  - unfold String.le, String.leb in Hac. rewrite E in Hac. destruct Hac.
Qed.

Lemma str_lt_total (a b : string) : a <> b -> ~ str_lt a b -> str_lt b a.
Proof.
  intros Hne Hn. apply str_lt_compare. rewrite String.compare_antisym.
  destruct (String.compare a b) eqn:E; simpl.
  - apply String.compare_eq_iff in E. contradiction.
  - apply str_lt_compare in E. contradiction.
  - reflexivity.
Qed.

(** *** Group keys *)

Lemma insert_key_elem (k x : string) (ks : list string) :
  x ∈ insert_key k ks <-> x = k \/ x ∈ ks.
Proof.
  induction ks as [|k' ks IH]; simpl.
  - rewrite list_elem_of_singleton. split; [auto|].
    intros [H|H]; [exact H|inversion H].
  - case_bool_decide as Hk.
    + subst k'. rewrite elem_of_cons. tauto.
    + destruct (String.ltb k k'); rewrite !elem_of_cons; [tauto|].
      rewrite IH. tauto.
Qed.

Lemma insert_key_sorted (k : string) (ks : list string) :
  StronglySorted str_lt ks -> StronglySorted str_lt (insert_key k ks).
Proof.
  induction 1 as [|k' ks Hs IH Hall]; simpl.
  - repeat constructor.
  - case_bool_decide as Hk; [constructor; assumption|].
    destruct (String.ltb k k') eqn:E.
    + constructor; [constructor; assumption|].
      constructor; [exact E|].
      eapply List.Forall_impl; [|exact Hall]. intros z Hz.
      exact (str_lt_trans _ _ _ E Hz).
    + constructor; [exact IH|].
      apply List.Forall_forall. intros z Hz.
      apply list_elem_of_In, insert_key_elem in Hz as [->|Hz].
      * apply str_lt_total; [congruence|]. unfold str_lt. rewrite E. discriminate.
      * rewrite List.Forall_forall in Hall. apply Hall, list_elem_of_In, Hz.
Qed.

Lemma group_keys_spec (s : list cell) (ks : list string) :
  group_keys s = Ok ks ->
  StronglySorted str_lt ks /\ (forall k, k ∈ ks -> CStr k ∈ s).
Proof.
  revert ks. induction s as [|c s IH]; simpl; intros ks H.
  - injection H as <-. split; [constructor|]. intros k Hk. inversion Hk.
  - destruct (group_key c) as [k|e] eqn:Ek; [|discriminate]. simpl in H.
    destruct (group_keys s) as [ks'|e] eqn:Eks; [|discriminate]. simpl in H.
    injection H as <-. destruct (IH _ eq_refl) as [Hs Hin].
    destruct k as [k|].
    + destruct c; try discriminate. injection Ek as ->.
      split; [apply insert_key_sorted; exact Hs|].
      intros x Hx. apply insert_key_elem in Hx as [->|Hx]; [left|right; auto].
    + split; [exact Hs|]. intros x Hx. right. auto.
Qed.

Lemma group_keys_total (s : list cell) :
  Forall is_text s -> exists ks, group_keys s = Ok ks.
Proof.
  induction 1 as [|c s Hc _ [ks IH]]; simpl; [eauto|].
  rewrite IH. destruct c; try destruct Hc; simpl; eauto.
Qed.

(** *** Traversals *)

Lemma traverse_Forall2 {A B} (f : A -> result B) (l : list A) (ys : list B) :
  traverse f l = Ok ys -> Forall2 (fun x y => f x = Ok y) l ys.
Proof.
  revert ys. induction l as [|x l IH]; simpl; intros ys H.
  - injection H as <-. constructor.
  - destruct (f x) as [y|e] eqn:Ey; [|discriminate]. simpl in H.
    destruct (traverse f l) as [ys'|e] eqn:El; [|discriminate]. simpl in H.
    injection H as <-. constructor; [exact Ey | apply IH; reflexivity].
Qed.

Lemma traverse_total {A B} (f : A -> result B) (l : list A) :
  Forall (fun x => exists y, f x = Ok y) l -> exists ys, traverse f l = Ok ys.
Proof.
  induction 1 as [|x l [y Hy] _ [ys IH]]; simpl; [eauto|].
  rewrite Hy, IH. simpl. eauto.
Qed.

Lemma values_total (s : list cell) :
  Forall is_amount s -> exists vs, values s = Ok vs.
Proof.
  induction 1 as [|c s Hc _ [vs IH]]; simpl; [eauto|].
  rewrite IH. destruct c; try destruct Hc; simpl; eauto.
Qed.

Lemma select_sublist {A} (xs : list A) (mask : list bool) :
  sublist (select xs mask) xs.
Proof.
  revert mask. induction xs as [|x xs IH]; intros [|b mask]; simpl;
    try apply sublist_nil_l.
  destruct b; [apply sublist_skip | apply sublist_cons]; apply IH.
Qed.

(** *** Groups *)

Lemma groupby_keys (df : DataFrame) (key : string) (groups : list (string * DataFrame)) :
  groupby df key = Ok groups ->
  StronglySorted str_lt (map fst groups)
  /\ Forall (fun kg => columns kg.2 = columns df /\ sublist (rows kg.2) (rows df)
                       /\ rows kg.2 <> []) groups.
Proof.
  unfold groupby. destruct (getitem df key) as [s|e] eqn:Es; [|discriminate].
  rewrite bind_ok. destruct (group_keys s) as [ks|e] eqn:Ek; [|discriminate].
  rewrite bind_ok. intros [= <-].
  destruct (group_keys_spec _ _ Ek) as [Hs Hin]. split.
  - rewrite map_map. simpl. rewrite map_id. exact Hs.
  - apply List.Forall_forall. intros kg Hkg. apply in_map_iff in Hkg.
    destruct Hkg as (k & <- & Hk). simpl.
    split; [reflexivity|]. split; [apply select_sublist|].
    apply list_elem_of_In, Hin in Hk.
    unfold getitem in Es. destruct (bool_decide _); [|discriminate].
    injection Es as <-. rewrite map_map, select_map_filter.
    apply list_elem_of_In, in_map_iff in Hk as (r & Hr & Hin').
    intros Hnil.
    assert (In r (List.filter (fun x => cell_eqb (cell_of x key) (CStr k)) (rows df))) as Hf.
    { apply List.filter_In. split; [exact Hin'|]. rewrite Hr. simpl.
      apply bool_decide_eq_true_2. reflexivity. }
    rewrite Hnil in Hf. destruct Hf.
Qed.

(** *** The descending sort *)

Lemma insert_desc_perm (x : string * Qc) (l : list (string * Qc)) :
  insert_desc x l ≡ₚ x :: l.
Proof.
  induction l as [|y l IH]; simpl; [reflexivity|].
  destruct (Qc_ltb x.2 y.2); [|reflexivity].
  rewrite IH. apply perm_swap.
Qed.

Lemma sort_desc_perm (s : list (string * Qc)) : sort_desc s ≡ₚ s.
Proof.
  induction s as [|x s IH]; simpl; [reflexivity|].
  rewrite insert_desc_perm, IH. reflexivity.
Qed.

Lemma before_after_equal (x y z : string * Qc) :
  (y.2 <= x.2)%Qc -> str_lt x.1 z.1 -> before y z -> before x z.
Proof.
  unfold before, str_lt. intros Hyx Hxz [Hlt|[Heq _]].
  - left. eapply Qclt_le_trans; eassumption.
  - rewrite Heq in Hyx. destruct (Qcle_lt_or_eq _ _ Hyx) as [Hlt|Heq'].
    + left. exact Hlt.
    + right. split; [symmetry; exact Heq' | exact Hxz].
Qed.

Lemma insert_desc_sorted (x : string * Qc) (l : list (string * Qc)) :
  StronglySorted before l ->
  Forall (fun y => str_lt x.1 y.1) l ->
  StronglySorted before (insert_desc x l).
Proof.
  induction 1 as [|y l Hs IH Hall]; simpl; intros Hk.
  - repeat constructor.
  - inversion Hk as [|y' l' Hxy Hk']; subst y' l'. clear Hk. rename Hk' into Hk.
    unfold Qc_ltb. case_bool_decide as Hlt.
    + constructor; [apply IH; exact Hk|].
      rewrite insert_desc_perm. constructor; [left; exact Hlt | exact Hall].
    + apply Qcnot_lt_le in Hlt.
      constructor; [constructor; assumption|].
      constructor.
      * destruct (Qcle_lt_or_eq _ _ Hlt) as [H|H]; [left; exact H|].
        right. split; [symmetry; exact H | exact Hxy].
      * rewrite List.Forall_forall in Hall, Hk. apply List.Forall_forall.
        intros z Hz. apply (before_after_equal x y z); auto.
Qed.

Lemma sort_desc_sorted (s : list (string * Qc)) :
  StronglySorted str_lt (map fst s) -> StronglySorted before (sort_desc s).
Proof.
  induction s as [|x s IH]; simpl; intros Hs; [constructor|].
  apply StronglySorted_inv in Hs as [Hs Hx].
  apply insert_desc_sorted; [apply IH; exact Hs|].
  rewrite sort_desc_perm. rewrite List.Forall_forall in Hx.
  apply List.Forall_forall. intros y Hy. apply Hx, in_map. exact Hy.
Qed.

Lemma take_sorted {A} (R : A -> A -> Prop) (n : nat) (l : list A) :
  StronglySorted R l -> StronglySorted R (take n l).
Proof.
  intros Hs. revert n. induction Hs as [|x l Hs IH Hx]; intros [|n]; simpl;
    try constructor; [apply IH | apply Forall_take; exact Hx].
Qed.

Lemma nlargest_sorted (n : nat) (s : list (string * Qc)) :
  StronglySorted str_lt (map fst s) -> StronglySorted before (nlargest n s).
Proof. intros Hs. apply take_sorted, sort_desc_sorted, Hs. Qed.

(** *** Grouped sums *)

Lemma groupby_sum_keys (df : DataFrame) (key target : string) (table : list (string * Qc)) :
  groupby_sum df key target = Ok table ->
  StronglySorted str_lt (map fst table).
Proof.
  unfold groupby_sum. destruct (groupby df key) as [groups|e] eqn:Eg; [|discriminate].
  rewrite bind_ok. destruct (bool_decide _); [|discriminate].
  intros Ht. apply traverse_Forall2 in Ht.
  destruct (groupby_keys _ _ _ Eg) as [Hs _].
  assert (map fst table = map fst groups) as ->; [|exact Hs].
  clear Hs Eg. induction Ht as [|kg y groups table Hy _ IH]; simpl; [reflexivity|].
  f_equal; [|exact IH].
  destruct (getitem kg.2 target) as [s|e]; [|discriminate]. rewrite bind_ok in Hy.
  destruct (series_sum s) as [v|e]; [|discriminate]. injection Hy as <-. reflexivity.
Qed.

Lemma sublist_Forall {A} (P : A -> Prop) (l k : list A) :
  sublist l k -> Forall P k -> Forall P l.
Proof.
  induction 1 as [|x l k _ IH|x l k _ IH]; intros H; [constructor|..];
    inversion H; subst; [constructor|]; auto.
Qed.

Lemma groupby_total (df : DataFrame) (key : string) :
  key ∈ columns df -> text_column df key -> exists groups, groupby df key = Ok groups.
Proof.
  intros Hk Ht. unfold groupby. rewrite getitem_present by done. rewrite bind_ok.
  destruct (group_keys_total (map (fun r => cell_of r key) (rows df))) as [ks Hks].
  { apply Forall_map. exact Ht. }
  rewrite Hks. eexists. reflexivity.
Qed.

Lemma groupby_sum_total (df : DataFrame) (key target : string) :
  key ∈ columns df -> target ∈ columns df ->
  text_column df key -> amount_column df target ->
  exists table, groupby_sum df key target = Ok table.
Proof.
  intros Hk Ht Htext Hnum. unfold groupby_sum.
  destruct (groupby_total df key Hk Htext) as [groups Hg]. rewrite Hg, bind_ok.
  rewrite (bool_decide_eq_true_2 _ Ht).
  apply traverse_total.
  destruct (groupby_keys _ _ _ Hg) as [_ Hall].
  eapply List.Forall_impl; [|exact Hall]. intros kg (Hc & Hsub & _).
  rewrite getitem_present by (rewrite Hc; exact Ht). rewrite bind_ok.
  unfold series_sum.
  destruct (values_total (map (fun r => cell_of r target) (rows kg.2))) as [vs Hvs].
  { apply Forall_map. exact (sublist_Forall _ _ _ Hsub Hnum). }
  rewrite Hvs. eexists. reflexivity.
Qed.

Example five_sales_top_by_worth :
  (v ← apply_filters text_str five_sales [worth_from_200];
   top_by_worth v "area_name_en")
  = Ok [("B"%string, Qc_of_Z 1200); ("A"%string, Qc_of_Z 200)].
Proof. compute_done. Qed.

(** Equal sums come out in ascending key order. *)
Example tied_sums_by_key :
  area_worth (mkFrame ["actual_worth"; "area_name_en"]%string
                [sale "C" 5; sale "B" 7; sale "A" 5; sale "D" 7])
  = Ok [("B"%string, Qc_of_Z 7); ("D"%string, Qc_of_Z 7);
        ("A"%string, Qc_of_Z 5); ("C"%string, Qc_of_Z 5)].
Proof. compute_done. Qed.

(** *** Empty input *)

Lemma empty_rows (df : DataFrame) : rows df = [] -> empty df = true.
Proof. unfold empty. intros ->. reflexivity. Qed.

Lemma groupby_no_rows (df : DataFrame) (key : string) :
  rows df = [] -> key ∈ columns df -> groupby df key = Ok [].
Proof.
  intros Hr Hk. unfold groupby. rewrite getitem_present by done.
  rewrite Hr. reflexivity.
Qed.

Lemma empty_mean_is_zero :
  Utils.calculate_statistics no_sales "actual_worth"
  = Ok (Utils.mkStatistics (Num 0) (Num 0) (Num 0) (Num 0) 0).
Proof. reflexivity. Qed.

(** C3, as the code has it. A reduction over zero rows is not reported
    as a failure: for a frame with no rows (or no columns)
    [calculate_statistics] returns 0 for the mean, the median, the
    minimum and the maximum, whatever column is asked for, and 0 for the
    count. *)
Theorem empty_reduction_defaults (df : DataFrame) (column : string) :
  empty df = true ->
  exists st,
    Utils.calculate_statistics df column = Ok st
    /\ Utils.mean st = Num 0 /\ Utils.median st = Num 0
    /\ Utils.min st = Num 0 /\ Utils.max st = Num 0
    /\ Utils.count st = 0%nat.
Proof.
  intros He. unfold Utils.calculate_statistics. rewrite He.
  eexists. split; [reflexivity|]. cbn. auto.
Qed.

Lemma empty_reduction_defaults_witness :
  exists st,
    Utils.calculate_statistics no_sales "no_such_column" = Ok st
    /\ Utils.mean st = Num 0 /\ Utils.median st = Num 0
    /\ Utils.min st = Num 0 /\ Utils.max st = Num 0
    /\ Utils.count st = 0%nat.
Proof.
  apply (empty_reduction_defaults no_sales "no_such_column"). reflexivity.
Defined.

Example five_sales_statistics :
  Utils.calculate_statistics five_sales "actual_worth"
  = Ok (Utils.mkStatistics (Num (Qc_of_Z 300)) (Num (Qc_of_Z 300))
          (Num (Qc_of_Z 100)) (Num (Qc_of_Z 500)) 5).
Proof. compute_done. Qed.

Example even_count_statistics :
  Utils.calculate_statistics
    (mkFrame ["actual_worth"; "area_name_en"]%string
       [sale "A" 400; sale "A" 100; sale "B" 300; sale "B" 200]) "actual_worth"
  = Ok (Utils.mkStatistics (Num (Qc_of_Z 250)) (Num (Qc_of_Z 250))
          (Num (Qc_of_Z 100)) (Num (Qc_of_Z 400)) 4).
Proof. compute_done. Qed.

(** Records without an amount: the reductions skip the nulls and find
    nothing, the count is the number of records. *)
Example all_null_statistics :
  Utils.calculate_statistics
    (mkFrame ["actual_worth"; "area_name_en"]%string
       [{[ "area_name_en"%string := CStr "A" ]}; {[ "area_name_en"%string := CStr "B" ]}])
    "actual_worth"
  = Ok (Utils.mkStatistics NaN NaN NaN NaN 2).
Proof. compute_done. Qed.

(** C6, where the code departs from the claim. On a view with no
    records the grouped aggregates return tables with zero rows, as the
    claim says; but the sales dashboard then orders its empty area table
    by "No. of Deals", a column a frame made from an empty list does not
    have, and stops with [KeyError].  The rentals dashboard builds and
    orders its area table only when the view is not empty. *)
Theorem top_areas_empty_view_KeyError
    (sort_values_desc : forall A : Type, (A -> Qc) -> list A -> list A)
    (view previous : DataFrame) (key : string) :
  rows view = [] ->
  key ∈ columns view ->
  "area_name_en"%string ∈ columns view ->
  "actual_worth"%string ∈ columns view ->
  top_by_worth view key = Ok []
  /\ area_metrics view previous = Ok []
  /\ top_areas_by_volume sort_values_desc view previous = Raise (KeyError "No. of Deals")
  /\ rentals_area_metrics sort_values_desc view = None.
Proof.
  intros Hr Hk Ha Hw.
  assert (Hm : area_metrics view previous = Ok [])
    by (unfold area_metrics; rewrite (groupby_no_rows _ _ Hr Ha); reflexivity).
  repeat split.
  - unfold top_by_worth, groupby_sum. rewrite (groupby_no_rows _ _ Hr Hk), bind_ok.
    rewrite (bool_decide_eq_true_2 _ Hw). reflexivity.
  - exact Hm.
  - unfold top_areas_by_volume. rewrite Hm. reflexivity.
  - unfold rentals_area_metrics. rewrite (empty_rows _ Hr). reflexivity.
Qed.

Lemma top_areas_empty_view_KeyError_witness :
  top_by_worth no_sales "area_name_en" = Ok []
  /\ area_metrics no_sales five_sales = Ok []
  /\ top_areas_by_volume (fun A _ l => l) no_sales five_sales
     = Raise (KeyError "No. of Deals")
  /\ rentals_area_metrics (fun A _ l => l) no_sales = None.
Proof.
  apply (top_areas_empty_view_KeyError (fun A _ l => l) no_sales five_sales "area_name_en").
  - reflexivity.
  - compute_done.
  - compute_done.
  - compute_done.
Defined.

Example five_sales_area_metrics :
  area_metrics five_sales no_sales
  = Ok [mkAreaMetrics "A" 2 (Qc_of_Z 300) (Num (Qc_of_Z 150)) None None;
        mkAreaMetrics "B" 3 (Qc_of_Z 1200) (Num (Qc_of_Z 400)) None None].
Proof. compute_done. Qed.

(** *** The calendar *)

Module CalendarFacts.
Import Calendar.

(** Linear arithmetic with division and remainder by constants. *)
Ltac zlia := Z.div_mod_to_equations; lia.

Lemma days_in_month_bounds (y m : Z) : 28 <= days_in_month y m <= 31.
Proof.
  unfold days_in_month.
  destruct (m =? 2); [destruct (is_leap y); lia|].
  destruct ((m =? 4) || (m =? 6) || (m =? 9) || (m =? 11)); lia.
Qed.

Lemma next_day_valid (d : date) : valid_date d -> valid_date (next_day d).
Proof.
  unfold valid_date, next_day. intros [Hm Hd].
  destruct (Z.ltb_spec (day d) (days_in_month (year d) (month d))); simpl.
  - lia.
  - pose proof (days_in_month_bounds (year d) (month d + 1)).
    pose proof (days_in_month_bounds (year d + 1) 1).
    destruct (Z.ltb_spec (month d) 12); simpl; lia.
Qed.

Lemma next_day_later (d : date) :
  valid_date d -> date_code d < date_code (next_day d).
Proof.
  unfold valid_date, next_day, date_code. intros [Hm Hd].
  pose proof (days_in_month_bounds (year d) (month d)).
  destruct (Z.ltb_spec (day d) (days_in_month (year d) (month d))); simpl.
  - lia.
  - destruct (Z.ltb_spec (month d) 12); simpl; lia.
Qed.

Lemma iter_succ {A} (f : A -> A) (x : A) (n : Z) :
  0 <= n -> Z.iter (n + 1) f x = f (Z.iter n f x).
Proof.
  intros Hn. rewrite !iter_nat_of_Z by lia.
  change (n + 1) with (Z.succ n). rewrite Zabs2Nat.inj_succ by exact Hn.
  reflexivity.
Qed.

Lemma is_leap_shift (y k : Z) : is_leap (y + 400 * k) = is_leap y.
Proof.
  unfold is_leap.
  replace (y + 400 * k) with (y + (100 * k) * 4) at 1 by lia.
  replace (y + 400 * k) with (y + (4 * k) * 100) at 1 by lia.
  replace (y + 400 * k) with (y + k * 400) by lia.
  rewrite !Z.mod_add by lia. reflexivity.
Qed.

Lemma next_day_shift (k : Z) (d : date) :
  next_day (shift_eras k d) = shift_eras k (next_day d).
Proof.
  unfold next_day, shift_eras, days_in_month. cbn [year month day].
  rewrite is_leap_shift.
  destruct (day d <? _); [reflexivity|].
  destruct (month d <? 12); cbn [year month day]; f_equal; lia.
Qed.

Lemma valid_shift (k : Z) (d : date) : valid_date d -> valid_date (shift_eras k d).
Proof.
  unfold valid_date, shift_eras, days_in_month. cbn [year month day].
  rewrite is_leap_shift. auto.
Qed.

Lemma last_day_of_era :
  Z.iter (days_per_era - 1) next_day origin = mkDate 1999 12 31.
Proof. vm_compute. reflexivity. Qed.

(** The day after, for every day count. *)
Lemma civil_next (n : Z) : civil_from_days (n + 1) = next_day (civil_from_days n).
Proof.
  unfold civil_from_days. cbv zeta.
  replace (n + 1 - origin_days) with (n - origin_days + 1) by lia.
  set (k := n - origin_days).
  assert (Hr : 0 <= k mod days_per_era < days_per_era)
    by (apply Z.mod_pos_bound; unfold days_per_era; lia).
  destruct (Z.eq_dec (k mod days_per_era) (days_per_era - 1)) as [E|NE].
  - assert (E1 : (k + 1) mod days_per_era = 0) by (unfold days_per_era in *; zlia).
    assert (E2 : (k + 1) / days_per_era = k / days_per_era + 1)
      by (unfold days_per_era in *; zlia).
    rewrite E1, E2, E, last_day_of_era. unfold next_day, shift_eras, origin.
    cbn. f_equal. lia.
  - assert (E1 : (k + 1) mod days_per_era = k mod days_per_era + 1)
      by (unfold days_per_era in *; zlia).
    assert (E2 : (k + 1) / days_per_era = k / days_per_era)
      by (unfold days_per_era in *; zlia).
    rewrite E1, E2, iter_succ by lia. symmetry. apply next_day_shift.
Qed.

Lemma civil_succ (n : Z) :
  origin_days <= n -> civil_from_days (n + 1) = next_day (civil_from_days n).
Proof. intros _. apply civil_next. Qed.

(** Every day count is a date of the calendar. *)
Lemma civil_date (n : Z) : valid_date (civil_from_days n).
Proof.
  unfold civil_from_days. cbv zeta. apply valid_shift.
  assert (Hr : 0 <= (n - origin_days) mod days_per_era)
    by (apply Z.mod_pos_bound; unfold days_per_era; lia).
  revert Hr. generalize ((n - origin_days) mod days_per_era). intros r Hr.
  apply (natlike_ind (fun r => valid_date (Z.iter r next_day origin))); [| |exact Hr].
  - vm_compute. intuition discriminate.
  - intros k Hk IH. change (Z.succ k) with (k + 1). rewrite iter_succ by exact Hk.
    apply next_day_valid, IH.
Qed.

Lemma civil_valid (n : Z) : origin_days <= n -> valid_date (civil_from_days n).
Proof.
  intros Hn. replace n with (origin_days + (n - origin_days)) by lia.
  apply (natlike_ind (fun k => valid_date (civil_from_days (origin_days + k))));
    [| |lia].
  - vm_compute. intuition discriminate.
  - intros k Hk IH. replace (origin_days + Z.succ k) with (origin_days + k + 1) by lia.
    rewrite civil_succ by lia. apply next_day_valid, IH.
Qed.

Lemma civil_mono (a b : Z) :
  origin_days <= a -> a <= b ->
  date_code (civil_from_days a) <= date_code (civil_from_days b).
Proof.
  intros Ha Hab. replace b with (a + (b - a)) by lia.
  apply (natlike_ind (fun k => date_code (civil_from_days a)
                               <= date_code (civil_from_days (a + k)))); [| |lia].
  - rewrite Z.add_0_r. lia.
  - intros k Hk IH. replace (a + Z.succ k) with (a + k + 1) by lia.
    rewrite civil_succ by lia.
    assert (Hv : valid_date (civil_from_days (a + k))) by (apply civil_valid; lia).
    pose proof (next_day_later _ Hv). lia.
Qed.

Lemma code_year (d e : date) :
  valid_date d -> valid_date e -> date_code d <= date_code e -> year d <= year e.
Proof.
  unfold valid_date, date_code. intros [Hm Hd] [Hm' Hd'] H.
  pose proof (days_in_month_bounds (year d) (month d)).
  pose proof (days_in_month_bounds (year e) (month e)).
  lia.
Qed.

(** Every day a timestamp (or the week around it) can fall on has a
    four-digit year. *)
Lemma civil_year_range (n : Z) :
  timestamp_min - 6 <= n <= timestamp_max + 6 ->
  1600 <= year (civil_from_days n) <= 2262.
Proof.
  intros [Hlo Hhi]. unfold timestamp_min, timestamp_max in *.
  assert (Ho : origin_days <= n) by (unfold origin_days; lia).
  split.
  - change 1600 with (year origin).
    apply (code_year origin (civil_from_days n));
      [vm_compute; intuition discriminate | apply civil_valid; exact Ho |].
    change origin with (civil_from_days origin_days). apply civil_mono; lia.
  - assert (E : civil_from_days 106757 = mkDate 2262 4 17) by (vm_compute; reflexivity).
    change 2262 with (year (mkDate 2262 4 17)). rewrite <- E.
    apply code_year;
      [apply civil_valid; exact Ho | apply civil_valid; unfold origin_days; lia
      | apply civil_mono; lia].
Qed.

(** *** Keys of fixed width compare as the numbers they print *)

Lemma le_cons_lt (a b : ascii) (s t : string) :
  Ascii.compare a b = Lt -> String.le (String a s) (String b t).
Proof. intros H. unfold String.le, String.leb. simpl. rewrite H. exact I. Qed.

Lemma le_cons_eq (a : ascii) (s t : string) :
  String.le s t -> String.le (String a s) (String a t).
Proof.
  unfold String.le, String.leb. simpl. unfold Ascii.compare.
  rewrite N.compare_refl. auto.
Qed.

Lemma digit_lt (a b : Z) :
  a mod 10 < b mod 10 -> Ascii.compare (digit a) (digit b) = Lt.
Proof.
  intros H. unfold Ascii.compare, digit.
  assert (Ha : 0 <= a mod 10 < 10) by (apply Z.mod_pos_bound; zlia).
  assert (Hb : 0 <= b mod 10 < 10) by (apply Z.mod_pos_bound; zlia).
  rewrite !N_ascii_embedding by zlia.
  apply N.compare_lt_iff. zlia.
Qed.

Lemma digit_eq (a b : Z) : a mod 10 = b mod 10 -> digit a = digit b.
Proof. unfold digit. intros ->. reflexivity. Qed.

Lemma digit_le (a b : Z) (s t : string) :
  a mod 10 < b mod 10 \/ (a mod 10 = b mod 10 /\ String.le s t) ->
  String.le (String (digit a) s) (String (digit b) t).
Proof.
  intros [H|[H Hst]]; [apply le_cons_lt, digit_lt, H|].
  rewrite (digit_eq a b H). apply le_cons_eq, Hst.
Qed.

Lemma digits2 (n : Z) : n mod 100 = 10 * ((n / 10) mod 10) + n mod 10.
Proof. change 100 with (10 * 10). rewrite Z.rem_mul_r by zlia. zlia. Qed.

Lemma digits4 (n : Z) :
  0 <= n < 10000 ->
  n = 1000 * ((n / 1000) mod 10) + 100 * ((n / 100) mod 10) + n mod 100.
Proof.
  intros Hn.
  assert (E : n / 100 / 10 = n / 1000) by (rewrite Z.div_div by zlia; reflexivity).
  pose proof (Z.div_mod n 100 ltac:(zlia)) as H1.
  pose proof (Z.div_mod (n / 100) 10 ltac:(zlia)) as H2.
  rewrite E in H2.
  assert (0 <= n / 1000 < 10)
    by (split; [apply Z.div_pos; zlia | apply Z.div_lt_upper_bound; zlia]).
  rewrite (Z.mod_small (n / 1000)) by zlia.
  zlia.
Qed.

Lemma fmt2_le (n m : Z) (s t : string) :
  n mod 100 < m mod 100 \/ (n mod 100 = m mod 100 /\ String.le s t) ->
  String.le (fmt2 n s) (fmt2 m t).
Proof.
  intros H. unfold fmt2. rewrite (digits2 n), (digits2 m) in H.
  assert (0 <= n mod 10 < 10) by (apply Z.mod_pos_bound; zlia).
  assert (0 <= m mod 10 < 10) by (apply Z.mod_pos_bound; zlia).
  apply digit_le.
  destruct (Z.lt_trichotomy ((n / 10) mod 10) ((m / 10) mod 10)) as [Hlt|[Heq|Hgt]].
  - left. exact Hlt.
  - right. split; [exact Heq|]. apply digit_le.
    destruct H as [H|[H Hst]]; [left; zlia | right; split; [zlia | exact Hst]].
  - exfalso. zlia.
Qed.

Lemma fmt4_le (n m : Z) (s t : string) :
  0 <= n < 10000 -> 0 <= m < 10000 ->
  n < m \/ (n = m /\ String.le s t) ->
  String.le (fmt4 n s) (fmt4 m t).
Proof.
  intros Hn Hm H. unfold fmt4.
  pose proof (digits4 n Hn) as Dn. pose proof (digits4 m Hm) as Dm.
  assert (0 <= n mod 100 < 100) by (apply Z.mod_pos_bound; zlia).
  assert (0 <= m mod 100 < 100) by (apply Z.mod_pos_bound; zlia).
  assert (0 <= (n / 100) mod 10 < 10) by (apply Z.mod_pos_bound; zlia).
  assert (0 <= (m / 100) mod 10 < 10) by (apply Z.mod_pos_bound; zlia).
  apply digit_le.
  destruct (Z.lt_trichotomy ((n / 1000) mod 10) ((m / 1000) mod 10)) as [Hlt|[Heq|Hgt]].
  - left. exact Hlt.
  - right. split; [exact Heq|]. apply digit_le.
    destruct (Z.lt_trichotomy ((n / 100) mod 10) ((m / 100) mod 10)) as [Hlt|[Heq'|Hgt]].
    + left. exact Hlt.
    + right. split; [exact Heq'|]. apply fmt2_le.
      destruct H as [H|[H Hst]]; [left; zlia | right; split; [zlia | exact Hst]].
    + exfalso. zlia.
  - exfalso. zlia.
Qed.

Lemma code_inj (d e : date) :
  valid_date d -> valid_date e -> date_code d = date_code e -> d = e.
Proof.
  unfold valid_date, date_code. destruct d as [y m dd], e as [y' m' dd']. simpl.
  intros [Hm Hd] [Hm' Hd'] H.
  pose proof (days_in_month_bounds y m). pose proof (days_in_month_bounds y' m').
  assert (y = y') by zlia. assert (m = m') by zlia. assert (dd = dd') by zlia.
  congruence.
Qed.

Lemma fmt_date_le (d e : date) (s t : string) :
  valid_date d -> valid_date e ->
  0 <= year d < 10000 -> 0 <= year e < 10000 ->
  date_code d < date_code e \/ (d = e /\ String.le s t) ->
  String.le (fmt_date d s) (fmt_date e t).
Proof.
  unfold valid_date, date_code, fmt_date. intros [Hm Hd] [Hm' Hd'] Hy Hy' H.
  pose proof (days_in_month_bounds (year d) (month d)).
  pose proof (days_in_month_bounds (year e) (month e)).
  apply fmt4_le; [exact Hy | exact Hy' |].
  destruct (Z.lt_trichotomy (year d) (year e)) as [Hlt|[Heq|Hgt]];
    [left; exact Hlt | | exfalso; destruct H as [H|[-> _]]; zlia].
  right. split; [exact Heq|]. apply le_cons_eq, fmt2_le.
  destruct (Z.lt_trichotomy (month d) (month e)) as [Hlt|[Heq'|Hgt]];
    [left; zlia | | exfalso; destruct H as [H|[-> _]]; zlia].
  right. split; [zlia|]. apply le_cons_eq, fmt2_le.
  destruct H as [H|[-> Hst]]; [left; zlia | right; split; [reflexivity | exact Hst]].
Qed.

Lemma civil_le (a b : Z) (s t : string) :
  timestamp_min - 6 <= a -> a <= b -> b <= timestamp_max + 6 ->
  (civil_from_days a = civil_from_days b -> String.le s t) ->
  String.le (fmt_date (civil_from_days a) s) (fmt_date (civil_from_days b) t).
Proof.
  intros Ha Hab Hb Hst.
  assert (Ho : origin_days <= a) by (unfold origin_days, timestamp_min in *; zlia).
  assert (Ya : 1600 <= year (civil_from_days a) <= 2262) by (apply civil_year_range; zlia).
  assert (Yb : 1600 <= year (civil_from_days b) <= 2262) by (apply civil_year_range; zlia).
  assert (Va : valid_date (civil_from_days a)) by (apply civil_valid; zlia).
  assert (Vb : valid_date (civil_from_days b)) by (apply civil_valid; zlia).
  apply fmt_date_le; [exact Va | exact Vb | zlia | zlia |].
  pose proof (civil_mono a b Ho Hab) as Hc.
  destruct (Z.eq_dec (date_code (civil_from_days a)) (date_code (civil_from_days b)))
    as [E|NE]; [right | left; zlia].
  pose proof (code_inj _ _ Va Vb E). auto.
Qed.

Lemma same_bucket_same_key (g : Granularity) (a b : Z) :
  same_bucket g a b -> period_str (to_period g a) = period_str (to_period g b).
Proof.
  destruct g; cbn [to_period period_str same_bucket].
  - intros ->. reflexivity.
  - unfold weekday. intros H.
    replace (b - (b + 3) mod 7) with (a - (a + 3) mod 7) by zlia. reflexivity.
  - intros [-> ->]. reflexivity.
  - intros [-> ->]. reflexivity.
  - intros ->. reflexivity.
Qed.

Lemma keys_chronological (g : Granularity) (a b : Z) :
  timestamp_min <= a -> a <= b -> b <= timestamp_max ->
  String.le (period_str (to_period g a)) (period_str (to_period g b)).
Proof.
  intros Ha Hab Hb.
  assert (Ho : origin_days <= a) by (unfold origin_days, timestamp_min in *; zlia).
  assert (Ya : 1600 <= year (civil_from_days a) <= 2262) by (apply civil_year_range; zlia).
  assert (Yb : 1600 <= year (civil_from_days b) <= 2262) by (apply civil_year_range; zlia).
  assert (Va : valid_date (civil_from_days a)) by (apply civil_valid; zlia).
  assert (Vb : valid_date (civil_from_days b)) by (apply civil_valid; zlia).
  pose proof (civil_mono a b Ho Hab) as Hc.
  pose proof (days_in_month_bounds (year (civil_from_days a)) (month (civil_from_days a))).
  pose proof (days_in_month_bounds (year (civil_from_days b)) (month (civil_from_days b))).
  destruct g; cbn [to_period period_str same_bucket].
  - apply civil_le; [zlia..|reflexivity].
  - unfold weekday.
    apply civil_le; [zlia..|]. intros _.
    apply le_cons_eq, civil_le; [zlia..|reflexivity].
  - unfold valid_date, date_code in *.
    apply fmt4_le; [zlia..|].
    destruct (Z.lt_trichotomy (year (civil_from_days a)) (year (civil_from_days b)))
      as [Hlt|[Heq|Hgt]]; [left; exact Hlt | | exfalso; zlia].
    right. split; [exact Heq|]. apply le_cons_eq, fmt2_le.
    destruct (Z.lt_trichotomy (month (civil_from_days a)) (month (civil_from_days b)))
      as [Hlt|[Heq'|Hgt]]; [left; zlia | | exfalso; zlia].
    right. split; [zlia | reflexivity].
  - unfold valid_date, date_code in *.
    apply fmt4_le; [zlia..|].
    destruct (Z.lt_trichotomy (year (civil_from_days a)) (year (civil_from_days b)))
      as [Hlt|[Heq|Hgt]]; [left; exact Hlt | | exfalso; zlia].
    right. split; [exact Heq|]. apply le_cons_eq, digit_le.
    assert (month (civil_from_days a) <= month (civil_from_days b)) by zlia.
    destruct (Z.lt_trichotomy ((month (civil_from_days a) - 1) / 3)
                              ((month (civil_from_days b) - 1) / 3))
      as [Hlt|[Heq'|Hgt]]; [left; zlia | | exfalso; zlia].
    right. split; [zlia | reflexivity].
  - apply fmt4_le; [zlia..|].
    pose proof (code_year _ _ Va Vb Hc).
    destruct (Z.eq_dec (year (civil_from_days a)) (year (civil_from_days b)));
      [right; split; [assumption | reflexivity] | left; zlia].
Qed.

(** *** Buckets by their first days *)

Lemma bucket_step (g : Granularity) (n : Z) :
  starts_bucket g (n + 1) = false -> to_period g (n + 1) = to_period g n.
Proof.
  pose proof (civil_date n) as [Vm Vd].
  unfold starts_bucket, to_period. cbv zeta. rewrite civil_next.
  set (d := civil_from_days n) in *. unfold next_day.
  destruct g.
  - discriminate.
  - unfold weekday. intros H%Z.eqb_neq.
    replace (n + 1 - (n + 1 + 3) mod 7) with (n - (n + 3) mod 7) by zlia.
    reflexivity.
  - destruct (day d <? days_in_month (year d) (month d)); [reflexivity|].
    destruct (month d <? 12); cbn [day]; discriminate.
  - destruct (day d <? days_in_month (year d) (month d)); [reflexivity|].
    destruct (Z.ltb_spec (month d) 12) as [Hlt|Hge]; cbn [year month day];
      [|discriminate].
    cbn [Z.eqb andb].
    intros H. apply orb_false_iff in H as [H H10]. apply orb_false_iff in H as [H H7].
    apply orb_false_iff in H as [H1 H4].
    apply Z.eqb_neq in H10, H7, H4. f_equal. zlia.
  - destruct (day d <? days_in_month (year d) (month d)); [reflexivity|].
    destruct (month d <? 12); cbn [year month day]; [reflexivity | discriminate].
Qed.

Lemma bucket_run (g : Granularity) (a b : Z) :
  a <= b -> (forall n, a < n <= b -> starts_bucket g n = false) ->
  to_period g b = to_period g a.
Proof.
  intros Hab. replace b with (a + (b - a)) by lia.
  apply (natlike_ind (fun k => (forall n, a < n <= a + k -> starts_bucket g n = false)
                               -> to_period g (a + k) = to_period g a)); [| |lia].
  - intros _. rewrite Z.add_0_r. reflexivity.
  - intros k Hk IH Hall. replace (a + Z.succ k) with (a + k + 1) by lia.
    rewrite bucket_step by (apply Hall; lia). apply IH. intros n Hn. apply Hall. lia.
Qed.

Lemma same_calendar_bucket_same_period (g : Granularity) (a b : Z) :
  same_calendar_bucket g a b -> to_period g a = to_period g b.
Proof.
  unfold same_calendar_bucket. intros H.
  destruct (Z.le_ge_cases a b) as [Hab|Hba].
  - rewrite Z.min_l, Z.max_r in H by lia. symmetry. apply bucket_run; assumption.
  - rewrite Z.min_r, Z.max_l in H by lia. apply bucket_run; assumption.
Qed.

End CalendarFacts.

Example civil_1500_01_01 : Calendar.civil_from_days (-171664) = Calendar.mkDate 1500 1 1.
Proof. vm_compute. reflexivity. Qed.

(** 2024-01-15 and 2024-01-20 are days of one month; the first of
    February lies between 2024-01-20 and 2024-02-01. *)
Example same_month_bucket : Calendar.same_calendar_bucket Calendar.Monthly 19737 19742.
Proof.
  intros n Hn. change (Z.min 19737 19742) with 19737 in Hn.
  change (Z.max 19737 19742) with 19742 in Hn.
  assert (E : n = 19738 \/ n = 19739 \/ n = 19740 \/ n = 19741 \/ n = 19742) by lia.
  destruct E as [->|[->|[->|[->| ->]]]]; vm_compute; reflexivity.
Qed.

Example next_month_other_bucket :
  ~ Calendar.same_calendar_bucket Calendar.Monthly 19742 19754.
Proof. intros H. specialize (H 19754 ltac:(lia)). vm_compute in H. discriminate. Qed.

Example three_dates_monthly :
  map (fun r => Utils.bucket_key (cell_of r "time_period"))
      (rows (Utils.create_time_periods timestamps_only three_dates "instance_date"
               Calendar.Monthly))
  = [Some "2024-01"; Some "2024-01"; Some "2024-02"]%string.
Proof. vm_compute. reflexivity. Qed.

(** *** Loading *)

Lemma zip_with_map {A B C} (g : A -> B -> C) (f : A -> B) (l : list A) :
  zip_with g l (map f l) = map (fun x => g x (f x)) l.
Proof. induction l as [|x l IH]; simpl; [reflexivity|]. rewrite IH. reflexivity. Qed.

Lemma setitem_rows (df : DataFrame) (col : string) (f : gmap string cell -> cell) :
  rows (setitem df col (map f (rows df))) = map (fun r => <[col := f r]> r) (rows df).
Proof. unfold setitem. simpl. apply zip_with_map. Qed.

Lemma setitem_columns (df : DataFrame) (col c : string) (values : list cell) :
  c ∈ columns df -> c ∈ columns (setitem df col values).
Proof.
  intros H. unfold setitem. simpl. case_bool_decide; [exact H|].
  apply elem_of_app. left. exact H.
Qed.

Lemma filter_map_comm {A B} (f : A -> B) (p : B -> bool) (l : list A) :
  List.filter p (map f l) = map f (List.filter (fun x => p (f x)) l).
Proof.
  induction l as [|x l IH]; simpl; [reflexivity|].
  destruct (p (f x)); simpl; rewrite IH; reflexivity.
Qed.

Lemma filter_length_split {A} (p : A -> bool) (l : list A) :
  (length (List.filter (fun x => negb (p x)) l) + length (List.filter p l))%nat = length l.
Proof.
  induction l as [|x l IH]; simpl; [reflexivity|].
  destruct (p x); simpl; lia.
Qed.

Lemma cell_of_insert (r : gmap string cell) (col : string) (v : cell) :
  cell_of (<[col := v]> r) col = v.
Proof. unfold cell_of. rewrite lookup_insert_eq. reflexivity. Qed.

Section LoadFacts.

Variable to_timestamp : cell -> option Z.

Lemma notna_to_datetime (r : gmap string cell) :
  notna (Utils.to_datetime to_timestamp (cell_of r "instance_date"))
  = negb (DataLoader.unparsable to_timestamp r).
Proof.
  unfold Utils.to_datetime, DataLoader.unparsable.
  destruct (to_timestamp (cell_of r "instance_date")); reflexivity.
Qed.

Lemma load_transactions_rows (stored : DataFrame) :
  "instance_date"%string ∈ columns stored ->
  exists transactions,
    DataLoader.load_transactions to_timestamp stored = Ok transactions
    /\ rows transactions
       = map (DataLoader.with_dates to_timestamp)
           (List.filter (fun r => negb (DataLoader.unparsable to_timestamp r)) (rows stored)).
Proof.
  intros Hc. unfold DataLoader.load_transactions.
  rewrite getitem_present by done. rewrite bind_ok, map_map.
  set (t1 := setitem stored "instance_date" _).
  assert (H1 : "instance_date"%string ∈ columns t1) by (apply setitem_columns; exact Hc).
  assert (R1 : rows t1 = map (fun r => <["instance_date"%string :=
                 Utils.to_datetime to_timestamp (cell_of r "instance_date")]> r) (rows stored))
    by apply setitem_rows.
  unfold dropna. rewrite getitem_present by done. rewrite !bind_ok, map_map.
  set (t2 := loc t1 _).
  assert (H2 : "instance_date"%string ∈ columns t2) by exact H1.
  assert (R2 : rows t2 = map (fun r => <["instance_date"%string :=
                 Utils.to_datetime to_timestamp (cell_of r "instance_date")]> r)
                 (List.filter (fun r => negb (DataLoader.unparsable to_timestamp r))
                    (rows stored))).
  { unfold t2, loc. cbn [rows]. rewrite select_map_filter, R1, filter_map_comm.
    f_equal. apply filter_ext_bool. intros r.
    rewrite cell_of_insert. apply notna_to_datetime. }
  rewrite getitem_present by done. rewrite bind_ok, map_map.
  set (t3 := setitem t2 "year" _).
  assert (H3 : "instance_date"%string ∈ columns t3) by (apply setitem_columns; exact H2).
  rewrite getitem_present by done. rewrite bind_ok, map_map.
  eexists. split; [reflexivity|].
  rewrite setitem_rows. unfold t3. rewrite setitem_rows, R2, !map_map.
  reflexivity.
Qed.

Lemma ensure_datetime_rows (df : DataFrame) (date_column : string) :
  date_column ∈ columns df ->
  rows (Utils.ensure_datetime to_timestamp df date_column)
  = map (fun r => <[date_column := Utils.to_datetime to_timestamp (cell_of r date_column)]> r)
        (rows df).
Proof.
  intros Hc. unfold Utils.ensure_datetime. rewrite (bool_decide_eq_true_2 _ Hc).
  apply setitem_rows.
Qed.

Lemma create_time_periods_rows (df : DataFrame) (date_column : string)
    (period : Calendar.Granularity) :
  date_column ∈ columns df ->
  rows (Utils.create_time_periods to_timestamp df date_column period)
  = map (fun r =>
           <["time_period"%string :=
               Utils.dt_to_period period
                 (Utils.to_datetime to_timestamp (cell_of r date_column))]>
             (<[date_column := Utils.to_datetime to_timestamp (cell_of r date_column)]> r))
        (rows df).
Proof.
  intros Hc. unfold Utils.create_time_periods, Utils.ensure_datetime.
  rewrite (bool_decide_eq_true_2 _ Hc). cbn [negb].
  rewrite setitem_rows, setitem_rows, map_map. apply map_ext. intros r.
  rewrite cell_of_insert. reflexivity.
Qed.

End LoadFacts.

(** Two stored tables that differ in how many dates fail to parse load
    to the same result, and [ensure_datetime] drops nothing. *)
Lemma dropped_count_not_returned :
  length (List.filter (DataLoader.unparsable timestamps_only) (rows one_bad_date)) = 1%nat
  /\ length (List.filter (DataLoader.unparsable timestamps_only) (rows two_bad_dates)) = 2%nat
  /\ DataLoader.load_data timestamps_only one_bad_date no_sales
     = DataLoader.load_data timestamps_only two_bad_dates no_sales
  /\ length (rows (Utils.ensure_datetime timestamps_only one_bad_date "instance_date")) = 2%nat.
Proof. repeat split; vm_compute; reflexivity. Qed.

(** C8, as the code has it. [load_data] drops every record whose
    [instance_date] does not parse and returns the two tables and
    nothing else: without [sample_size] the transactions are the
    parsable records, in order, so the number dropped is the difference
    of the two row counts, which the result does not carry; with
    [sample_size] they are records chosen among the parsable ones.
    [ensure_datetime] and [create_time_periods] drop nothing: every
    record stays at its position, and a date that does not parse becomes
    NaT there. *)
Theorem load_data_drops_unparsable
    (to_timestamp : cell -> option Z)
    (sample : nat -> list (gmap string cell) -> list (gmap string cell))
    (stored rentals : DataFrame) (date_column : string) (period : Calendar.Granularity) :
  "instance_date"%string ∈ columns stored ->
  date_column ∈ columns stored ->
  (forall n l, (n < length l)%nat -> sample n l ⊆ l) ->
  (exists transactions,
     DataLoader.load_data to_timestamp stored rentals = Ok (transactions, rentals)
     /\ rows transactions
        = map (DataLoader.with_dates to_timestamp)
            (List.filter (fun r => negb (DataLoader.unparsable to_timestamp r)) (rows stored))
     /\ (length (rows transactions)
         + length (List.filter (DataLoader.unparsable to_timestamp) (rows stored)))%nat
        = length (rows stored))
  /\ (forall sample_size, exists transactions rentals',
        DataLoader.load_data_sample to_timestamp sample sample_size stored rentals
        = Ok (transactions, rentals')
        /\ forall r', r' ∈ rows transactions ->
             exists r, r ∈ rows stored
                       /\ DataLoader.unparsable to_timestamp r = false
                       /\ r' = DataLoader.with_dates to_timestamp r)
  /\ rows (Utils.ensure_datetime to_timestamp stored date_column)
     = map (fun r => <[date_column :=
                         Utils.to_datetime to_timestamp (cell_of r date_column)]> r)
         (rows stored)
  /\ rows (Utils.create_time_periods to_timestamp stored date_column period)
     = map (fun r =>
              <["time_period"%string :=
                  Utils.dt_to_period period
                    (Utils.to_datetime to_timestamp (cell_of r date_column))]>
                (<[date_column := Utils.to_datetime to_timestamp (cell_of r date_column)]> r))
         (rows stored)
  /\ (forall c, to_timestamp c = None -> Utils.to_datetime to_timestamp c = CNull).
Proof.
  intros Hc Hd Hsample.
  destruct (load_transactions_rows to_timestamp stored Hc) as (t & Ht & Hr).
  assert (Hin : forall r', r' ∈ rows t ->
            exists r, r ∈ rows stored
                      /\ DataLoader.unparsable to_timestamp r = false
                      /\ r' = DataLoader.with_dates to_timestamp r).
  { intros r' H. rewrite Hr in H. apply list_elem_of_In, in_map_iff in H as (r & <- & H).
    apply List.filter_In in H as [H1 H2]. exists r.
    split; [apply list_elem_of_In; exact H1|]. split; [|reflexivity].
    destruct (DataLoader.unparsable to_timestamp r); [discriminate | reflexivity]. }
  split; [|split; [|split; [|split]]].
  - exists t. unfold DataLoader.load_data. rewrite Ht, bind_ok.
    split; [reflexivity|]. split; [exact Hr|].
    rewrite Hr, length_map. apply filter_length_split.
  - intros sample_size. unfold DataLoader.load_data_sample. rewrite Ht, bind_ok.
    destruct sample_size as [n|]; (do 2 eexists; split; [reflexivity|]); [|exact Hin].
    unfold DataLoader.sample_frame.
    destruct (Nat.ltb_spec n (length (rows t))) as [Hlt|Hge]; [|exact Hin].
    cbn [rows]. intros r' H. apply Hin. exact (Hsample n (rows t) Hlt r' H).
  - apply ensure_datetime_rows. exact Hd.
  - apply create_time_periods_rows. exact Hd.
  - intros c H. unfold Utils.to_datetime. rewrite H. reflexivity.
Qed.

Lemma load_data_drops_unparsable_witness :
  (exists transactions,
     DataLoader.load_data timestamps_only two_bad_dates no_sales = Ok (transactions, no_sales)
     /\ rows transactions
        = map (DataLoader.with_dates timestamps_only)
            (List.filter (fun r => negb (DataLoader.unparsable timestamps_only r))
               (rows two_bad_dates))
     /\ (length (rows transactions)
         + length (List.filter (DataLoader.unparsable timestamps_only) (rows two_bad_dates)))%nat
        = length (rows two_bad_dates))
  /\ (forall sample_size, exists transactions rentals',
        DataLoader.load_data_sample timestamps_only (fun n l => take n l) sample_size
          two_bad_dates no_sales
        = Ok (transactions, rentals')
        /\ forall r', r' ∈ rows transactions ->
             exists r, r ∈ rows two_bad_dates
                       /\ DataLoader.unparsable timestamps_only r = false
                       /\ r' = DataLoader.with_dates timestamps_only r)
  /\ rows (Utils.ensure_datetime timestamps_only two_bad_dates "instance_date")
     = map (fun r => <["instance_date"%string :=
                         Utils.to_datetime timestamps_only (cell_of r "instance_date")]> r)
         (rows two_bad_dates).
Proof.
  destruct (load_data_drops_unparsable timestamps_only (fun n l => take n l)
              two_bad_dates no_sales "instance_date" Calendar.Monthly)
    as (A & B & C & _).
  - compute_done.
  - compute_done.
  - intros n l _. apply sublist_subseteq, sublist_take.
  - exact (conj A (conj B C)).
Defined.

(** With a sample size below the number of parsable records the result
    holds that many of them. *)
Example load_sample_of_one :
  DataLoader.load_data_sample timestamps_only (fun n l => take n l) (Some 1%nat)
    (mkFrame ["instance_date"; "actual_worth"]%string
       [stored_row (CDate 19737) 100; stored_row CNull 200; stored_row (CDate 19742) 300])
    no_sales
  = Ok (mkFrame ["instance_date"; "actual_worth"; "year"; "month"]%string
          [ {[ "instance_date"%string := CDate 19737;
               "actual_worth"%string := CNum (Qc_of_Z 100);
               "year"%string := CNum (Qc_of_Z 2024);
               "month"%string := CNum (Qc_of_Z 1) ]} ],
        no_sales).
Proof. compute_done. Qed.

Example load_one_bad_date :
  DataLoader.load_data timestamps_only one_bad_date no_sales
  = Ok (mkFrame ["instance_date"; "actual_worth"; "year"; "month"]%string
          [ {[ "instance_date"%string := CDate 19737;
               "actual_worth"%string := CNum (Qc_of_Z 100);
               "year"%string := CNum (Qc_of_Z 2024);
               "month"%string := CNum (Qc_of_Z 1) ]} ],
        no_sales).
Proof. compute_done. Qed.

(** ** Further properties of the code *)

(** *** Yields and returns *)

Lemma float_eqb_leb (x y : float) : (x =? y)%float = true -> (x <=? y)%float = true.
Proof.
  rewrite FloatAxioms.eqb_spec, FloatAxioms.leb_spec. unfold SFeqb, SFleb.
  destruct (SFcompare (Prim2SF x) (Prim2SF y)) as [[| |]|]; congruence.
Qed.

(** X1. The two yield helpers never divide by zero: a price that is zero or
    negative gives the yield 0, any other price reaches the division
    with a divisor that does not compare equal to zero. *)
Theorem yields_never_raise (price annual_rent expenses_percent : float) :
  Returns.calculate_rental_yield price annual_rent
  = Ok (if (price <=? 0)%float then 0%float else (annual_rent / price * 100)%float)
  /\ Returns.calculate_net_yield price annual_rent expenses_percent
     = Ok (if (price <=? 0)%float then 0%float
           else ((annual_rent - price * expenses_percent) / price * 100)%float).
Proof.
  unfold Returns.calculate_rental_yield, Returns.calculate_net_yield, Utils.py_truediv.
  destruct (price <=? 0)%float eqn:Hle; [split; reflexivity|].
  destruct (price =? 0)%float eqn:Hz.
  - apply float_eqb_leb in Hz. congruence.
  - split; reflexivity.
Qed.

(** X2. [calculate_roi] has no such guard: it raises [ZeroDivisionError]
    exactly when the purchase price compares equal to zero. *)
Theorem calculate_roi_raises_iff
    (purchase_price annual_rent annual_expenses_percent vacancy_rate : float) :
  Returns.calculate_roi purchase_price annual_rent annual_expenses_percent vacancy_rate
  = Raise ZeroDivisionError
  <-> (purchase_price =? 0)%float = true.
Proof.
  unfold Returns.calculate_roi, Utils.py_truediv.
  destruct (purchase_price =? 0)%float; simpl; split; congruence.
Qed.

Example calculate_roi_zero_price :
  Returns.calculate_roi 0 100000 0.25 0.125 = Raise ZeroDivisionError
  /\ Returns.calculate_rental_yield 0 100000 = Ok 0%float.
Proof. split; vm_compute; reflexivity. Qed.

(** *** Groups *)

Lemma cell_eqb_key (c : cell) (k : string) :
  cell_eqb c (CStr k) = bool_decide (key_text c = Some k).
Proof.
  destruct c; simpl; try reflexivity.
  apply bool_decide_ext. split; [intros ->; reflexivity | intros [= ->]; reflexivity].
Qed.

Lemma group_keys_complete (s : list cell) (ks : list string) (k : string) :
  group_keys s = Ok ks -> CStr k ∈ s -> k ∈ ks.
Proof.
  revert ks. induction s as [|c s IH]; simpl; intros ks H Hin; [inversion Hin|].
  destruct (group_key c) as [o|e] eqn:Ek; [|discriminate]. simpl in H.
  destruct (group_keys s) as [ks'|e] eqn:Eks; [|discriminate]. simpl in H.
  injection H as <-.
  apply elem_of_cons in Hin as [<-|Hin].
  - simpl in Ek. injection Ek as <-. apply insert_key_elem. left. reflexivity.
  - specialize (IH _ eq_refl Hin).
    destruct o as [k'|]; [apply insert_key_elem; right|]; exact IH.
Qed.

Lemma sorted_NoDup (ks : list string) : StronglySorted str_lt ks -> NoDup ks.
Proof.
  induction 1 as [|k ks _ IH Hall]; constructor; [|exact IH].
  intros Hin. rewrite List.Forall_forall in Hall.
  apply list_elem_of_In, Hall in Hin. exact (str_lt_irrefl _ Hin).
Qed.

Lemma groupby_groups (df : DataFrame) (key : string) (groups : list (string * DataFrame)) :
  groupby df key = Ok groups ->
  exists ks,
    group_keys (map (fun r => cell_of r key) (rows df)) = Ok ks
    /\ groups = map (fun k => (k, mkFrame (columns df)
                  (List.filter (fun r => bool_decide (key_text (cell_of r key) = Some k))
                     (rows df)))) ks.
Proof.
  unfold groupby, getitem. destruct (bool_decide _); [|discriminate].
  rewrite bind_ok. destruct (group_keys _) as [ks|e] eqn:Ek; [|discriminate].
  rewrite bind_ok. intros [= <-]. exists ks. split; [reflexivity|].
  apply map_ext. intros k. unfold loc. rewrite map_map, select_map_filter.
  do 2 f_equal. apply filter_ext_bool. intros r. apply cell_eqb_key.
Qed.

(** X3. The group keys are exactly the names that occur in the key column,
    each once and in ascending order, and a group holds exactly the
    records with its key, in their original order. *)
Theorem groupby_exact (df : DataFrame) (key : string) (groups : list (string * DataFrame)) :
  groupby df key = Ok groups ->
  StronglySorted str_lt (map fst groups)
  /\ (forall k, k ∈ map fst groups <-> exists r, r ∈ rows df /\ cell_of r key = CStr k)
  /\ Forall (fun kg =>
       columns kg.2 = columns df
       /\ rows kg.2 = List.filter (fun r => bool_decide (cell_of r key = CStr kg.1)) (rows df))
     groups.
Proof.
  intros Hg. destruct (groupby_groups _ _ _ Hg) as (ks & Hks & ->).
  destruct (group_keys_spec _ _ Hks) as [Hs Hin].
  rewrite map_map. simpl. rewrite map_id.
  split; [exact Hs|]. split.
  - intros k. split.
    + intros Hk. apply Hin, list_elem_of_In, in_map_iff in Hk as (r & Hr & Hr').
      exists r. split; [apply list_elem_of_In; exact Hr' | exact Hr].
    + intros (r & Hr & Hc). apply (group_keys_complete _ _ _ Hks).
      rewrite <- Hc. apply list_elem_of_In.
      apply (in_map (fun r => cell_of r key)). apply list_elem_of_In. exact Hr.
  - apply List.Forall_forall. intros kg Hkg. apply in_map_iff in Hkg as (k & <- & _).
    simpl. split; [reflexivity|]. apply filter_ext_bool. intros r.
    apply bool_decide_ext. destruct (cell_of r key); simpl; split; congruence.
Qed.

Lemma groupby_exact_witness :
  StronglySorted str_lt ["A"; "B"]%string
  /\ (forall k, k ∈ ["A"; "B"]%string
                <-> exists r, r ∈ rows five_sales /\ cell_of r "area_name_en" = CStr k).
Proof.
  destruct (groupby_exact five_sales "area_name_en"
              [("A"%string, mkFrame (columns five_sales) [sale "A" 100; sale "A" 200]);
               ("B"%string, mkFrame (columns five_sales)
                              [sale "B" 300; sale "B" 400; sale "B" 500])])
    as (H1 & H2 & _); [vm_compute; reflexivity|].
  split; [exact H1 | exact H2].
Defined.

(** *** Totals over groups *)

Section Partition.

Context {A M : Type} (zero : M) (add : M -> M -> M).
Hypothesis add_comm : forall x y, add x y = add y x.
Hypothesis add_assoc : forall x y z, add x (add y z) = add (add x y) z.
Hypothesis add_zero : add zero zero = zero.

Variable f : A -> option string.
Variable w : A -> M.

Let total (l : list M) : M := foldr add zero l.
Let in_group (k : string) (r : A) : bool := bool_decide (f r = Some k).
Let grouped (ks : list string) (r : A) : bool :=
  match f r with Some k => bool_decide (k ∈ ks) | None => false end.

Lemma total_bump (ks : list string) (k0 : string) (x : M) (T : string -> M) :
  NoDup ks ->
  total (map (fun k => if bool_decide (k0 = k) then add x (T k) else T k) ks)
  = if bool_decide (k0 ∈ ks) then add x (total (map T ks)) else total (map T ks).
Proof.
  induction 1 as [|k ks Hk _ IH]; [reflexivity|].
  cbn [map]. unfold total in *. cbn [foldr]. rewrite IH.
  destruct (decide (k0 = k)) as [->|Hne].
  - rewrite (bool_decide_eq_true_2 (k = k)) by reflexivity.
    rewrite (bool_decide_eq_false_2 _ Hk).
    rewrite (bool_decide_eq_true_2 (k ∈ k :: ks)) by (left).
    symmetry. apply add_assoc.
  - rewrite (bool_decide_eq_false_2 _ Hne).
    destruct (decide (k0 ∈ ks)) as [Hin|Hout].
    + rewrite (bool_decide_eq_true_2 _ Hin).
      rewrite (bool_decide_eq_true_2 (k0 ∈ k :: ks)) by (right; exact Hin).
      rewrite !add_assoc. f_equal. apply add_comm.
    + rewrite (bool_decide_eq_false_2 _ Hout).
      rewrite (bool_decide_eq_false_2 (k0 ∈ k :: ks)); [reflexivity|].
      intros [?|?]%elem_of_cons; contradiction.
Qed.

Lemma total_zero (ks : list string) : total (map (fun _ => zero) ks) = zero.
Proof.
  induction ks as [|k ks IH]; [reflexivity|].
  cbn [map]. unfold total in *. cbn [foldr]. rewrite IH. apply add_zero.
Qed.

(** Adding up, group by group, what the records of each group weigh
    gives what the records with a key in [ks] weigh together. *)
Lemma partition_total (ks : list string) (rs : list A) :
  NoDup ks ->
  total (map (fun k => total (map w (List.filter (in_group k) rs))) ks)
  = total (map w (List.filter (grouped ks) rs)).
Proof.
  intros Hnd. induction rs as [|r rs IH]; [apply total_zero|].
  cbn [List.filter]. unfold in_group at 1, grouped at 1.
  destruct (f r) as [k0|] eqn:Ef.
  - erewrite map_ext.
    2:{ intros k. instantiate (1 := fun k =>
          if bool_decide (k0 = k)
          then add (w r) (total (map w (List.filter (in_group k) rs)))
          else total (map w (List.filter (in_group k) rs))).
        cbv beta.
        destruct (decide (k0 = k)) as [->|Hne].
        - rewrite (bool_decide_eq_true_2 (Some k = Some k)) by reflexivity.
          rewrite (bool_decide_eq_true_2 (k = k)) by reflexivity. reflexivity.
        - rewrite (bool_decide_eq_false_2 (Some k0 = Some k)) by congruence.
          rewrite (bool_decide_eq_false_2 _ Hne). reflexivity. }
    rewrite (total_bump ks k0 (w r) _ Hnd), IH.
    destruct (bool_decide (k0 ∈ ks)); reflexivity.
  - erewrite map_ext; [exact IH|]. intros k.
    rewrite (bool_decide_eq_false_2 (None = Some k)) by discriminate. reflexivity.
Qed.

End Partition.

Lemma bind_Ok_inv {A B} (m : result A) (f : A -> result B) (y : B) :
  (m ≫= f) = Ok y -> exists x, m = Ok x /\ f x = Ok y.
Proof. destruct m as [x|e]; [eauto | discriminate]. Qed.

Lemma length_as_total {A} (l : list A) :
  foldr Nat.add 0%nat (map (fun _ => 1%nat) l) = length l.
Proof. induction l as [|x l IH]; simpl; [reflexivity|]. rewrite IH. reflexivity. Qed.

Lemma grouped_has_key (df : DataFrame) (key : string) (ks : list string) :
  group_keys (map (fun r => cell_of r key) (rows df)) = Ok ks ->
  List.filter (fun r => match key_text (cell_of r key) with
                        | Some k => bool_decide (k ∈ ks)
                        | None => false
                        end) (rows df)
  = List.filter (has_key key) (rows df).
Proof.
  intros Hks. apply List.filter_ext_in. intros r Hr. unfold has_key.
  destruct (key_text (cell_of r key)) as [k|] eqn:Ek; [|reflexivity].
  apply bool_decide_eq_true_2, (group_keys_complete _ _ _ Hks).
  destruct (cell_of r key) eqn:Ec; try discriminate. injection Ek as <-.
  rewrite <- Ec. apply list_elem_of_In. apply (in_map (fun r => cell_of r key)). exact Hr.
Qed.

(** X4. In the area table of the sales dashboard the deal counts add up to
    the number of filtered records that have an area: no record is
    counted twice, and only the records without an area are left out. *)
Theorem area_metrics_deals_add_up (filtered_data previous_period_data : DataFrame)
    (metrics : list AreaMetrics) :
  area_metrics filtered_data previous_period_data = Ok metrics ->
  nat_sum (map NoOfDeals metrics)
  = length (List.filter (has_key "area_name_en") (rows filtered_data)).
Proof.
  unfold area_metrics. intros H.
  apply bind_Ok_inv in H as (groups & Hg & Ht).
  destruct (groupby_groups _ _ _ Hg) as (ks & Hks & ->).
  apply traverse_Forall2 in Ht.
  assert (E : map NoOfDeals metrics
              = map (fun k => length (List.filter
                       (fun r => bool_decide (key_text (cell_of r "area_name_en") = Some k))
                       (rows filtered_data))) ks).
  { clear Hg Hks. revert metrics Ht. induction ks as [|k ks IH]; intros metrics Ht.
    - inversion Ht. reflexivity.
    - inversion Ht as [|kg m groups' ms' Hm Hrest]; subst. simpl. f_equal; [|apply IH, Hrest].
      cbn [fst snd] in Hm.
      repeat (apply bind_Ok_inv in Hm as (? & _ & Hm)).
      injection Hm as <-. reflexivity. }
  unfold nat_sum. rewrite E.
  rewrite <- (grouped_has_key _ _ _ Hks), <- length_as_total.
  erewrite map_ext; [|intros k; symmetry; apply length_as_total].
  apply (partition_total 0%nat Nat.add Nat.add_comm Nat.add_assoc eq_refl
           (fun r => key_text (cell_of r "area_name_en")) (fun _ => 1%nat)).
  apply sorted_NoDup. destruct (group_keys_spec _ _ Hks) as [Hs _]. exact Hs.
Qed.

Lemma area_metrics_deals_add_up_witness :
  nat_sum [2; 3]%nat
  = length (List.filter (has_key "area_name_en") (rows five_sales)).
Proof.
  apply (area_metrics_deals_add_up five_sales no_sales
           [mkAreaMetrics "A" 2 (Qc_of_Z 300) (Num (Qc_of_Z 150)) None None;
            mkAreaMetrics "B" 3 (Qc_of_Z 1200) (Num (Qc_of_Z 400)) None None]).
  compute_done.
Defined.

Lemma values_sum (target : string) (rs : list (gmap string cell)) (vs : list Qc) :
  values (map (fun r => cell_of r target) rs) = Ok vs ->
  Qc_sum vs = Qc_sum (map (amount_of target) rs).
Proof.
  revert vs. induction rs as [|r rs IH]; simpl; intros vs H.
  - injection H as <-. reflexivity.
  - apply bind_Ok_inv in H as (v & Hv & H).
    apply bind_Ok_inv in H as (vs' & Hvs & H). injection H as <-.
    specialize (IH _ Hvs). unfold amount_of at 1. unfold numeric in Hv.
    destruct (cell_of r target); try discriminate; injection Hv as <-; simpl;
      rewrite <- IH; try reflexivity.
    symmetry. apply Qcplus_0_l.
Qed.

(** X5. Grouping loses no amount when the amounts are whole numbers that
    float64 adds without rounding: the grouped sums add up to the sum
    over all records that have a key.  (With amounts that round, the
    float64 sums of pandas depend on the order of the additions, and the
    two sides may differ in the last digits.) *)
Theorem groupby_sum_conserves (df : DataFrame) (key target : string)
    (table : list (string * Qc)) :
  exact_amounts (map (amount_of target) (rows df)) ->
  groupby_sum df key target = Ok table ->
  Qc_sum (map snd table)
  = Qc_sum (map (amount_of target) (List.filter (has_key key) (rows df))).
Proof.
  intros _. unfold groupby_sum. intros H.
  apply bind_Ok_inv in H as (groups & Hg & Ht).
  destruct (bool_decide (target ∈ columns df)) eqn:Hc; [|discriminate].
  apply bool_decide_eq_true_1 in Hc.
  destruct (groupby_groups _ _ _ Hg) as (ks & Hks & ->).
  apply traverse_Forall2 in Ht.
  assert (E : map snd table
              = map (fun k => Qc_sum (map (amount_of target) (List.filter
                       (fun r => bool_decide (key_text (cell_of r key) = Some k))
                       (rows df)))) ks).
  { clear Hg Hks. revert table Ht. induction ks as [|k ks IH]; intros table Ht.
    - inversion Ht. reflexivity.
    - inversion Ht as [|kg y groups' t' Hy Hrest]; subst. simpl. f_equal; [|apply IH, Hrest].
      cbn [fst snd] in Hy. rewrite getitem_present in Hy by exact Hc.
      rewrite bind_ok in Hy. cbn [rows] in Hy.
      apply bind_Ok_inv in Hy as (v & Hv & Hy). injection Hy as <-. simpl.
      unfold series_sum in Hv. apply bind_Ok_inv in Hv as (vs & Hvs & Hv).
      injection Hv as <-. apply values_sum, Hvs. }
  rewrite E, <- (grouped_has_key _ _ _ Hks).
  apply (partition_total 0%Qc Qcplus Qcplus_comm Qcplus_assoc (Qcplus_0_l 0%Qc)
           (fun r => key_text (cell_of r key)) (amount_of target)).
  apply sorted_NoDup. destruct (group_keys_spec _ _ Hks) as [Hs _]. exact Hs.
Qed.

Lemma groupby_sum_conserves_witness :
  Qc_sum [Qc_of_Z 300; Qc_of_Z 1200]
  = Qc_sum (map (amount_of "actual_worth")
              (List.filter (has_key "area_name_en") (rows five_sales))).
Proof.
  apply (groupby_sum_conserves five_sales "area_name_en" "actual_worth"
           [("A"%string, Qc_of_Z 300); ("B"%string, Qc_of_Z 1200)]).
  - split; [repeat constructor | vm_compute; reflexivity].
  - compute_done.
Defined.

(** *** The rows of a "top 10 by worth" table *)

Lemma groupby_sum_rows (df : DataFrame) (key target : string) (table : list (string * Qc)) :
  groupby_sum df key target = Ok table ->
  exists ks,
    group_keys (map (fun r => cell_of r key) (rows df)) = Ok ks
    /\ Forall2 (fun k kv =>
         kv.1 = k
         /\ series_sum (map (fun r => cell_of r target)
                          (List.filter (fun r => bool_decide (cell_of r key = CStr k))
                             (rows df))) = Ok kv.2) ks table.
Proof.
  unfold groupby_sum. intros H.
  apply bind_Ok_inv in H as (groups & Hg & Ht).
  destruct (bool_decide (target ∈ columns df)) eqn:Hc; [|discriminate].
  apply bool_decide_eq_true_1 in Hc.
  destruct (groupby_groups _ _ _ Hg) as (ks & Hks & ->).
  exists ks. split; [exact Hks|].
  apply traverse_Forall2, Forall2_fmap_l in Ht.
  revert Ht. apply Forall2_impl. intros k kv Hy. unfold compose in Hy.
  cbn [fst snd] in Hy.
  rewrite getitem_present in Hy by exact Hc. rewrite bind_ok in Hy. cbn [rows] in Hy.
  apply bind_Ok_inv in Hy as (v & Hv & Hy). injection Hy as <-. cbn [fst snd].
  split; [reflexivity|]. rewrite <- Hv. do 2 f_equal.
  apply filter_ext_bool. intros r. apply bool_decide_ext.
  destruct (cell_of r key); simpl; split; congruence.
Qed.

Lemma groupby_sum_row (df : DataFrame) (key target : string) (table : list (string * Qc))
    (k : string) (v : Qc) :
  groupby_sum df key target = Ok table ->
  (k, v) ∈ table
  <-> (exists r, r ∈ rows df /\ cell_of r key = CStr k)
      /\ series_sum (map (fun r => cell_of r target)
                       (List.filter (fun r => bool_decide (cell_of r key = CStr k))
                          (rows df))) = Ok v.
Proof.
  intros H. destruct (groupby_sum_rows _ _ _ _ H) as (ks & Hks & Hall).
  assert (Hk : k ∈ ks <-> exists r, r ∈ rows df /\ cell_of r key = CStr k).
  { split.
    - intros Hin. destruct (group_keys_spec _ _ Hks) as [_ Hspec].
      apply Hspec, list_elem_of_In, in_map_iff in Hin as (r & Hr & Hr').
      exists r. split; [apply list_elem_of_In; exact Hr' | exact Hr].
    - intros (r & Hr & Hc). apply (group_keys_complete _ _ _ Hks).
      rewrite <- Hc. apply list_elem_of_In.
      apply (in_map (fun r => cell_of r key)). apply list_elem_of_In. exact Hr. }
  rewrite <- Hk. split.
  - intros Hin. apply list_elem_of_lookup in Hin as (i & Hi).
    destruct (Forall2_lookup_r _ _ _ _ _ Hall Hi) as (k' & Hk' & E & Hv).
    cbn [fst snd] in E, Hv. subst k'.
    split; [apply list_elem_of_lookup; eauto | exact Hv].
  - intros [Hin Hv]. apply list_elem_of_lookup in Hin as (i & Hi).
    destruct (Forall2_lookup_l _ _ _ _ _ Hall Hi) as ([k' v'] & Hkv & E & Hv').
    cbn [fst snd] in E, Hv'. subst k'. rewrite Hv in Hv'. injection Hv' as <-.
    apply list_elem_of_lookup. eauto.
Qed.

(** C5. A "top 10 by worth" table is the head of the grouped sums put
    in descending order of the sum, rows with equal sums in ascending
    order of the group key: the table and the rows left out hold
    exactly one row for each name in the key column, with the sum of
    the worth over the records of that name; together they are in that
    order, and the table is the first ten of them (all, when there are
    fewer).  On the five-record scenario filtered to worth of at least
    200 the table is [B: 1200, A: 200]. *)
Theorem top_by_worth_sorted (df : DataFrame) (key : string) :
  key ∈ columns df -> "actual_worth"%string ∈ columns df ->
  text_column df key -> amount_column df "actual_worth" ->
  (exists table rest,
     top_by_worth df key = Ok table
     /\ length table = Nat.min 10 (length (table ++ rest))
     /\ StronglySorted before (table ++ rest)
     /\ NoDup (map fst (table ++ rest))
     /\ (forall k v,
           (k, v) ∈ table ++ rest
           <-> (exists r, r ∈ rows df /\ cell_of r key = CStr k)
               /\ series_sum (map (fun r => cell_of r "actual_worth")
                                (List.filter (fun r => bool_decide (cell_of r key = CStr k))
                                   (rows df))) = Ok v))
  /\ (v ← apply_filters text_str five_sales [worth_from_200];
      top_by_worth v "area_name_en")
     = Ok [("B"%string, Qc_of_Z 1200); ("A"%string, Qc_of_Z 200)].
Proof.
  intros Hk Ht Htext Hnum. split; [|exact five_sales_top_by_worth].
  unfold top_by_worth.
  destruct (groupby_sum_total df key "actual_worth" Hk Ht Htext Hnum) as [s Hs].
  rewrite Hs, bind_ok. exists (nlargest 10 s), (drop 10 (sort_desc s)).
  unfold nlargest. rewrite take_drop.
  pose proof (groupby_sum_keys _ _ _ _ Hs) as Hsorted.
  split; [reflexivity|]. split; [apply length_take|]. split; [|split].
  - apply sort_desc_sorted, Hsorted.
  - rewrite (sort_desc_perm s). apply sorted_NoDup, Hsorted.
  - intros k v. rewrite (sort_desc_perm s). apply groupby_sum_row, Hs.
Qed.

Lemma top_by_worth_sorted_witness :
  (exists table rest,
     top_by_worth five_sales "area_name_en" = Ok table
     /\ length table = Nat.min 10 (length (table ++ rest))
     /\ StronglySorted before (table ++ rest)
     /\ NoDup (map fst (table ++ rest))
     /\ (forall k v,
           (k, v) ∈ table ++ rest
           <-> (exists r, r ∈ rows five_sales /\ cell_of r "area_name_en" = CStr k)
               /\ series_sum (map (fun r => cell_of r "actual_worth")
                                (List.filter
                                   (fun r => bool_decide (cell_of r "area_name_en" = CStr k))
                                   (rows five_sales))) = Ok v))
  /\ (v ← apply_filters text_str five_sales [worth_from_200];
      top_by_worth v "area_name_en")
     = Ok [("B"%string, Qc_of_Z 1200); ("A"%string, Qc_of_Z 200)].
Proof.
  apply (top_by_worth_sorted five_sales "area_name_en").
  - compute_done.
  - compute_done.
  - repeat constructor.
  - repeat constructor.
Defined.

(** *** The top of a table *)

Lemma insert_desc_at_least (x : string * Qc) (l : list (string * Qc)) :
  StronglySorted at_least l -> StronglySorted at_least (insert_desc x l).
Proof.
  induction 1 as [|y l Hs IH Hall]; simpl; [repeat constructor|].
  unfold Qc_ltb. case_bool_decide as Hlt.
  - constructor; [exact IH|]. rewrite insert_desc_perm.
    constructor; [apply Qclt_le_weak; exact Hlt | exact Hall].
  - apply Qcnot_lt_le in Hlt.
    constructor; [constructor; assumption|].
    constructor; [exact Hlt|].
    eapply List.Forall_impl; [|exact Hall]. intros z Hz.
    unfold at_least in *. eapply Qcle_trans; eassumption.
Qed.

Lemma sort_desc_at_least (s : list (string * Qc)) : StronglySorted at_least (sort_desc s).
Proof.
  induction s as [|x s IH]; simpl; [constructor|]. apply insert_desc_at_least, IH.
Qed.

(** X6. A "top 10 by worth" table holds the ten groups of largest total
    worth (all of them when there are fewer): it is cut from the grouped
    sums, and no group left out has a larger sum than a group listed. *)
Theorem top_by_worth_largest (df : DataFrame) (key : string) (table : list (string * Qc)) :
  top_by_worth df key = Ok table ->
  exists sums rest,
    groupby_sum df key "actual_worth" = Ok sums
    /\ table ++ rest ≡ₚ sums
    /\ length table = Nat.min 10 (length sums)
    /\ (forall x y, x ∈ table -> y ∈ rest -> (y.2 <= x.2)%Qc).
Proof.
  unfold top_by_worth. intros H. apply bind_Ok_inv in H as (sums & Hs & H).
  injection H as <-. exists sums, (drop 10 (sort_desc sums)).
  split; [exact Hs|]. unfold nlargest. split; [|split].
  - rewrite take_drop. apply sort_desc_perm.
  - rewrite length_take, (Permutation_length (sort_desc_perm sums)). reflexivity.
  - intros x y Hx Hy.
    apply (StronglySorted_app_1_elem_of at_least
             (take 10 (sort_desc sums)) (drop 10 (sort_desc sums)) x y);
      [rewrite take_drop; apply sort_desc_at_least | exact Hx | exact Hy].
Qed.

Lemma top_by_worth_largest_witness :
  exists sums rest,
    groupby_sum five_sales "area_name_en" "actual_worth" = Ok sums
    /\ [("B"%string, Qc_of_Z 1200); ("A"%string, Qc_of_Z 300)] ++ rest ≡ₚ sums
    /\ length [("B"%string, Qc_of_Z 1200); ("A"%string, Qc_of_Z 300)]
       = Nat.min 10 (length sums)
    /\ (forall x y, x ∈ [("B"%string, Qc_of_Z 1200); ("A"%string, Qc_of_Z 300)] ->
                    y ∈ rest -> (y.2 <= x.2)%Qc).
Proof.
  apply (top_by_worth_largest five_sales "area_name_en").
  compute_done.
Defined.

(** *** Statistics *)

Lemma Qc_min_le (a b : Qc) : (Qc_min a b <= a)%Qc /\ (Qc_min a b <= b)%Qc.
Proof.
  unfold Qc_min, Qc_leb. case_bool_decide as H.
  - split; [apply Qcle_refl | exact H].
  - split; [apply Qclt_le_weak, Qcnot_le_lt, H | apply Qcle_refl].
Qed.

Lemma Qc_max_ge (a b : Qc) : (a <= Qc_max a b)%Qc /\ (b <= Qc_max a b)%Qc.
Proof.
  unfold Qc_max, Qc_leb. case_bool_decide as H.
  - split; [exact H | apply Qcle_refl].
  - split; [apply Qcle_refl | apply Qclt_le_weak, Qcnot_le_lt, H].
Qed.

Lemma fold_min_le (v : Qc) (vs : list Qc) :
  Forall (fun x => (foldr Qc_min v vs <= x)%Qc) (v :: vs).
Proof.
  induction vs as [|a vs IH]; simpl.
  - repeat constructor. apply Qcle_refl.
  - destruct (Qc_min_le a (foldr Qc_min v vs)) as [Ha Hr].
    inversion IH as [|? ? Hv Hvs]; subst.
    constructor; [exact (Qcle_trans _ _ _ Hr Hv)|].
    constructor; [exact Ha|].
    eapply List.Forall_impl; [|exact Hvs]. intros x Hx. exact (Qcle_trans _ _ _ Hr Hx).
Qed.

Lemma fold_max_ge (v : Qc) (vs : list Qc) :
  Forall (fun x => (x <= foldr Qc_max v vs)%Qc) (v :: vs).
Proof.
  induction vs as [|a vs IH]; simpl.
  - repeat constructor. apply Qcle_refl.
  - destruct (Qc_max_ge a (foldr Qc_max v vs)) as [Ha Hr].
    inversion IH as [|? ? Hv Hvs]; subst.
    constructor; [exact (Qcle_trans _ _ _ Hv Hr)|].
    constructor; [exact Ha|].
    eapply List.Forall_impl; [|exact Hvs]. intros x Hx. exact (Qcle_trans _ _ _ Hx Hr).
Qed.

Lemma Qc_of_nat_S (n : nat) : Qc_of_nat (S n) = (Qc_of_nat n + 1)%Qc.
Proof.
  unfold Qc_of_nat. rewrite Nat2Z.inj_succ. unfold Z.succ.
  rewrite Z2Qc_inj_add, Z2Qc_inj_1. reflexivity.
Qed.

Lemma Qc_of_nat_pos (n : nat) : (0 < Qc_of_nat (S n))%Qc.
Proof.
  unfold Qc_of_nat. rewrite <- Z2Qc_inj_0. apply (proj1 (Z2Qc_inj_lt 0 _)). lia.
Qed.

Lemma sum_lower (lo : Qc) (vs : list Qc) :
  Forall (fun x => (lo <= x)%Qc) vs -> (lo * Qc_of_nat (length vs) <= Qc_sum vs)%Qc.
Proof.
  induction 1 as [|x vs Hx _ IH].
  - cbn [length Qc_sum foldr]. change (Qc_of_nat 0) with (Qc_of_Z 0).
    rewrite Z2Qc_inj_0, Qcmult_0_r. apply Qcle_refl.
  - cbn [length Qc_sum foldr]. rewrite Qc_of_nat_S, Qcmult_plus_distr_r, Qcmult_1_r.
    rewrite Qcplus_comm. apply Qcplus_le_compat; assumption.
Qed.

Lemma sum_upper (hi : Qc) (vs : list Qc) :
  Forall (fun x => (x <= hi)%Qc) vs -> (Qc_sum vs <= hi * Qc_of_nat (length vs))%Qc.
Proof.
  induction 1 as [|x vs Hx _ IH].
  - cbn [length Qc_sum foldr]. change (Qc_of_nat 0) with (Qc_of_Z 0).
    rewrite Z2Qc_inj_0, Qcmult_0_r. apply Qcle_refl.
  - cbn [length Qc_sum foldr]. rewrite Qc_of_nat_S, Qcmult_plus_distr_r, Qcmult_1_r.
    rewrite (Qcplus_comm (hi * _)). apply Qcplus_le_compat; assumption.
Qed.

Lemma div_between (lo hi s n : Qc) :
  (0 < n)%Qc -> (lo * n <= s)%Qc -> (s <= hi * n)%Qc -> (lo <= s / n)%Qc /\ (s / n <= hi)%Qc.
Proof.
  intros Hn Hlo Hhi.
  assert (Hne : n <> 0%Qc) by (intros ->; exact (Qclt_not_le _ _ Hn (Qcle_refl _))).
  split; apply (Qcmult_le_mono_pos_r _ _ n Hn); rewrite test_field by exact Hne; assumption.
Qed.

Lemma mean_between (lo hi : Qc) (vs : list Qc) (m : Qc) :
  Forall (fun x => (lo <= x)%Qc) vs -> Forall (fun x => (x <= hi)%Qc) vs ->
  mean_of vs = Num m -> (lo <= m)%Qc /\ (m <= hi)%Qc.
Proof.
  intros Hlo Hhi. destruct vs as [|v vs]; [discriminate|].
  unfold mean_of. intros [= <-].
  apply div_between;
    [apply Qc_of_nat_pos | exact (sum_lower lo (v :: vs) Hlo) | exact (sum_upper hi (v :: vs) Hhi)].
Qed.

Lemma median_between (lo hi : Qc) (vs : list Qc) (md : Qc) :
  Forall (fun x => (lo <= x)%Qc) vs -> Forall (fun x => (x <= hi)%Qc) vs ->
  median_of vs = Num md -> (lo <= md)%Qc /\ (md <= hi)%Qc.
Proof.
  intros Hlo Hhi. unfold median_of.
  assert (Hel : forall i x, merge_sort Qcle vs !! i = Some x -> (lo <= x)%Qc /\ (x <= hi)%Qc).
  { intros i x Hx. apply list_elem_of_lookup_2 in Hx.
    rewrite merge_sort_Permutation in Hx. apply list_elem_of_In in Hx.
    rewrite List.Forall_forall in Hlo, Hhi. auto. }
  destruct (merge_sort Qcle vs !! (length (merge_sort Qcle vs) / 2)%nat) as [b|] eqn:Eb;
    [|discriminate].
  destruct (Nat.even _).
  - destruct (merge_sort Qcle vs !! (length (merge_sort Qcle vs) / 2 - 1)%nat) as [a|] eqn:Ea;
      [|discriminate].
    intros [= <-]. destruct (Hel _ _ Ea) as [La Ha], (Hel _ _ Eb) as [Lb Hb].
    apply div_between.
    + rewrite <- Z2Qc_inj_0. apply (proj1 (Z2Qc_inj_lt 0 2)). lia.
    + rewrite Z2Qc_inj_2, Qcmult_comm, <- Qcplus_diag. apply Qcplus_le_compat; assumption.
    + rewrite Z2Qc_inj_2, Qcmult_comm, <- Qcplus_diag. apply Qcplus_le_compat; assumption.
  - intros [= <-]. exact (Hel _ _ Eb).
Qed.

Lemma values_elem (s : list cell) (vs : list Qc) (q : Qc) :
  values s = Ok vs -> CNum q ∈ s -> q ∈ vs.
Proof.
  revert vs. induction s as [|c s IH]; intros vs H Hin; [inversion Hin|].
  simpl in H. apply bind_Ok_inv in H as (v & Hv & H).
  apply bind_Ok_inv in H as (vs' & Hvs & H). injection H as <-.
  apply elem_of_cons in Hin as [<-|Hin].
  - simpl in Hv. injection Hv as <-. left.
  - specialize (IH _ Hvs Hin). destruct v; [right|]; exact IH.
Qed.

(** X7. The minimum and the maximum [calculate_statistics] reports bound
    the column: when both are numbers, the minimum is at most the
    maximum and every number of the column lies between them.  When the
    numbers of the column are whole numbers that float64 adds without
    rounding, the mean and the median lie between them too.  (With
    amounts that round, the float64 mean of equal values can exceed
    them.) *)
Theorem statistics_ordered (df : DataFrame) (column : string) (st : Utils.Statistics)
    (lo hi : Qc) :
  Utils.calculate_statistics df column = Ok st ->
  Utils.min st = Num lo -> Utils.max st = Num hi ->
  (lo <= hi)%Qc
  /\ (empty df = false ->
      forall r q, r ∈ rows df -> cell_of r column = CNum q -> (lo <= q)%Qc /\ (q <= hi)%Qc)
  /\ (exact_amounts (map (amount_of column) (rows df)) ->
      (forall m, Utils.mean st = Num m -> (lo <= m)%Qc /\ (m <= hi)%Qc)
      /\ (forall md, Utils.median st = Num md -> (lo <= md)%Qc /\ (md <= hi)%Qc)).
Proof.
  unfold Utils.calculate_statistics. destruct (empty df).
  - intros [= <-]. simpl. intros [= <-] [= <-].
    split; [apply Qcle_refl|]. split; [discriminate|].
    intros _. split; intros ? [= <-]; split; apply Qcle_refl.
  - intros H. apply bind_Ok_inv in H as (s & Hs & H).
    unfold series_mean, series_median, series_min, series_max in H.
    destruct (values s) as [vs|e] eqn:Hvs; [|discriminate]. rewrite !bind_ok in H.
    injection H as <-. simpl. destruct vs as [|v vs]; [discriminate|].
    intros [= <-] [= <-].
    pose proof (fold_min_le v vs) as Hlo. pose proof (fold_max_ge v vs) as Hhi.
    split; [|split].
    + inversion Hlo; inversion Hhi; subst. eapply Qcle_trans; eassumption.
    + intros _ r q Hr Hq.
      assert (Hc : column ∈ columns df).
      { destruct (decide (column ∈ columns df)) as [Hc|Hc]; [exact Hc|].
        rewrite (getitem_absent _ _ Hc) in Hs. discriminate. }
      rewrite (getitem_present _ _ Hc) in Hs. injection Hs as <-.
      assert (Hin : q ∈ v :: vs).
      { apply (values_elem _ _ _ Hvs). rewrite <- Hq. apply list_elem_of_In.
        apply (in_map (fun r => cell_of r column)). apply list_elem_of_In. exact Hr. }
      apply list_elem_of_In in Hin.
      split; [exact (proj1 (List.Forall_forall _ _) Hlo q Hin)
             | exact (proj1 (List.Forall_forall _ _) Hhi q Hin)].
    + intros _. split.
      * intros m Hm. exact (mean_between _ _ _ _ Hlo Hhi Hm).
      * intros md Hmd. exact (median_between _ _ _ _ Hlo Hhi Hmd).
Qed.

Lemma statistics_ordered_witness :
  (Qc_of_Z 100 <= Qc_of_Z 500)%Qc
  /\ (empty five_sales = false ->
      forall r q, r ∈ rows five_sales -> cell_of r "actual_worth" = CNum q ->
                  (Qc_of_Z 100 <= q)%Qc /\ (q <= Qc_of_Z 500)%Qc)
  /\ (exact_amounts (map (amount_of "actual_worth") (rows five_sales)) ->
      (forall m, Num (Qc_of_Z 300) = Num m -> (Qc_of_Z 100 <= m)%Qc /\ (m <= Qc_of_Z 500)%Qc)
      /\ (forall md, Num (Qc_of_Z 300) = Num md
                     -> (Qc_of_Z 100 <= md)%Qc /\ (md <= Qc_of_Z 500)%Qc)).
Proof.
  apply (statistics_ordered five_sales "actual_worth"
           (Utils.mkStatistics (Num (Qc_of_Z 300)) (Num (Qc_of_Z 300))
              (Num (Qc_of_Z 100)) (Num (Qc_of_Z 500)) 5));
    [compute_done | reflexivity | reflexivity].
Defined.

(** The amounts of the five sales are whole numbers far below 2^53. *)
Example five_sales_exact :
  exact_amounts (map (amount_of "actual_worth") (rows five_sales)).
Proof. split; [repeat constructor | vm_compute; reflexivity]. Qed.

(** *** Bucket keys tell the buckets apart *)

Module BucketFacts.
Import Calendar CalendarFacts.

Lemma digit_inj (a b : Z) : digit a = digit b -> a mod 10 = b mod 10.
Proof.
  unfold digit. intros H.
  assert (Ha : 0 <= a mod 10 < 10) by (apply Z.mod_pos_bound; lia).
  assert (Hb : 0 <= b mod 10 < 10) by (apply Z.mod_pos_bound; lia).
  apply (f_equal N_of_ascii) in H. rewrite !N_ascii_embedding in H by lia. lia.
Qed.

Lemma cons_inj (a b : ascii) (s t : string) : String a s = String b t -> a = b /\ s = t.
Proof. intros H. inversion H. split; reflexivity. Qed.

Lemma fmt2_inj (n m : Z) (s t : string) :
  fmt2 n s = fmt2 m t -> n mod 100 = m mod 100 /\ s = t.
Proof.
  unfold fmt2. intros H.
  apply cons_inj in H as [H1 H]. apply cons_inj in H as [H2 H3].
  apply digit_inj in H1, H2. rewrite (digits2 n), (digits2 m). split; [lia | exact H3].
Qed.

Lemma fmt4_inj (n m : Z) (s t : string) :
  0 <= n < 10000 -> 0 <= m < 10000 -> fmt4 n s = fmt4 m t -> n = m /\ s = t.
Proof.
  unfold fmt4. intros Hn Hm H.
  apply cons_inj in H as [H1 H]. apply cons_inj in H as [H2 H3].
  apply digit_inj in H1, H2. apply fmt2_inj in H3 as [H3 H4].
  split; [|exact H4]. rewrite (digits4 n Hn), (digits4 m Hm). lia.
Qed.

Lemma fmt_date_inj (d e : date) (s t : string) :
  valid_date d -> valid_date e -> 0 <= year d < 10000 -> 0 <= year e < 10000 ->
  fmt_date d s = fmt_date e t -> d = e /\ s = t.
Proof.
  unfold fmt_date. intros Vd Ve Hy Hy' H.
  apply fmt4_inj in H as [Ey H]; [|assumption..].
  apply cons_inj in H as [_ H]. apply fmt2_inj in H as [Em H].
  apply cons_inj in H as [_ H]. apply fmt2_inj in H as [Ed H].
  split; [|exact H]. apply code_inj; [assumption..|].
  unfold valid_date, date_code in *.
  pose proof (days_in_month_bounds (year d) (month d)).
  pose proof (days_in_month_bounds (year e) (month e)).
  zlia.
Qed.

Lemma civil_strict (a b : Z) :
  origin_days <= a -> a < b ->
  date_code (civil_from_days a) < date_code (civil_from_days b).
Proof.
  intros Ha Hab.
  assert (Hv : valid_date (civil_from_days a)) by (apply civil_valid; lia).
  pose proof (next_day_later _ Hv) as H1. rewrite <- civil_succ in H1 by lia.
  pose proof (civil_mono (a + 1) b ltac:(lia) ltac:(lia)). lia.
Qed.

Lemma civil_inj (a b : Z) :
  origin_days <= a -> origin_days <= b ->
  civil_from_days a = civil_from_days b -> a = b.
Proof.
  intros Ha Hb H.
  destruct (Z.lt_trichotomy a b) as [Hlt|[Heq|Hgt]]; [|exact Heq|].
  - pose proof (civil_strict a b Ha Hlt). rewrite H in *. lia.
  - pose proof (civil_strict b a Hb Hgt). rewrite H in *. lia.
Qed.

Lemma keys_distinguish (g : Granularity) (a b : Z) :
  timestamp_min <= a <= timestamp_max -> timestamp_min <= b <= timestamp_max ->
  period_str (to_period g a) = period_str (to_period g b) -> same_bucket g a b.
Proof.
  intros Ha Hb.
  assert (Oa : origin_days <= a) by (unfold origin_days, timestamp_min in *; lia).
  assert (Ob : origin_days <= b) by (unfold origin_days, timestamp_min in *; lia).
  assert (Ya : 1600 <= year (civil_from_days a) <= 2262) by (apply civil_year_range; lia).
  assert (Yb : 1600 <= year (civil_from_days b) <= 2262) by (apply civil_year_range; lia).
  assert (Va : valid_date (civil_from_days a)) by (apply civil_valid; lia).
  assert (Vb : valid_date (civil_from_days b)) by (apply civil_valid; lia).
  pose proof (days_in_month_bounds (year (civil_from_days a)) (month (civil_from_days a))) as Da.
  pose proof (days_in_month_bounds (year (civil_from_days b)) (month (civil_from_days b))) as Db.
  destruct g; cbn [to_period period_str same_bucket].
  - intros H. apply fmt_date_inj in H as [H _]; [|assumption || lia ..].
    apply civil_inj; assumption.
  - unfold weekday. intros H.
    assert (Ma : timestamp_min - 6 <= a - (a + 3) mod 7 <= timestamp_max + 6) by zlia.
    assert (Mb : timestamp_min - 6 <= b - (b + 3) mod 7 <= timestamp_max + 6) by zlia.
    apply fmt_date_inj in H as [H _].
    + apply civil_inj in H; [zlia | unfold origin_days, timestamp_min in *; lia ..].
    + apply civil_valid. unfold origin_days, timestamp_min in *. lia.
    + apply civil_valid. unfold origin_days, timestamp_min in *. lia.
    + pose proof (civil_year_range _ Ma). lia.
    + pose proof (civil_year_range _ Mb). lia.
  - intros H. apply fmt4_inj in H as [Ey H]; [|lia..].
    apply cons_inj in H as [_ H]. apply fmt2_inj in H as [Em _].
    unfold valid_date in *. split; [exact Ey | zlia].
  - intros H. apply fmt4_inj in H as [Ey H]; [|lia..].
    apply cons_inj in H as [_ H]. apply cons_inj in H as [H _]. apply digit_inj in H.
    unfold valid_date in *. split; [exact Ey | zlia].
  - intros H. apply fmt4_inj in H as [Ey _]; [exact Ey | lia..].
Qed.

Lemma same_bucket_sym (g : Granularity) (a b : Z) : same_bucket g a b -> same_bucket g b a.
Proof. destruct g; cbn [same_bucket]; intuition congruence. Qed.

Lemma no_start_between (g : Granularity) (a b n : Z) :
  origin_days <= a -> a < n <= b -> same_bucket g a b -> starts_bucket g n = false.
Proof.
  intros Ha Hn.
  pose proof (civil_strict a n Ha ltac:(lia)) as Ca.
  pose proof (civil_mono n b ltac:(lia) ltac:(lia)) as Cb.
  pose proof (civil_date a) as Va. pose proof (civil_date n) as Vn.
  pose proof (civil_date b) as Vb.
  pose proof (days_in_month_bounds (year (civil_from_days a)) (month (civil_from_days a)))
    as Da.
  pose proof (days_in_month_bounds (year (civil_from_days n)) (month (civil_from_days n)))
    as Dn.
  pose proof (days_in_month_bounds (year (civil_from_days b)) (month (civil_from_days b)))
    as Db.
  unfold valid_date, date_code in *.
  destruct g; cbn [same_bucket]; unfold starts_bucket; cbv zeta.
  - lia.
  - unfold weekday. intros Hw. apply Z.eqb_neq. zlia.
  - intros [Hy Hm]. apply Z.eqb_neq. lia.
  - intros [Hy Hq].
    destruct (Z.eqb_spec (day (civil_from_days n)) 1) as [Ed|Nd]; [|reflexivity].
    cbn [andb]. repeat (apply orb_false_iff; split); apply Z.eqb_neq; zlia.
  - intros Hy.
    destruct (Z.eqb_spec (day (civil_from_days n)) 1) as [Ed|Nd]; [|reflexivity].
    cbn [andb]. apply Z.eqb_neq. lia.
Qed.

Lemma same_bucket_no_start (g : Granularity) (a b : Z) :
  origin_days <= a -> origin_days <= b -> same_bucket g a b -> same_calendar_bucket g a b.
Proof.
  intros Ha Hb Hs n Hn. destruct (Z.le_ge_cases a b) as [Hab|Hba].
  - rewrite Z.min_l, Z.max_r in Hn by lia. exact (no_start_between g a b n Ha Hn Hs).
  - rewrite Z.min_r, Z.max_l in Hn by lia.
    exact (no_start_between g b a n Hb Hn (same_bucket_sym _ _ _ Hs)).
Qed.

End BucketFacts.

(** X8. Within the range of pandas timestamps two dates get the same bucket
    key only when they lie in the same calendar bucket: grouping by the
    key text never merges two days, weeks, months, quarters or years. *)
Theorem bucket_keys_distinguish (g : Calendar.Granularity) (a b : Z) :
  Calendar.timestamp_min <= a <= Calendar.timestamp_max ->
  Calendar.timestamp_min <= b <= Calendar.timestamp_max ->
  Calendar.period_str (Calendar.to_period g a) = Calendar.period_str (Calendar.to_period g b) ->
  Calendar.same_bucket g a b.
Proof. apply BucketFacts.keys_distinguish. Qed.

Lemma bucket_keys_distinguish_witness : Calendar.same_bucket Calendar.Weekly 19737 19740.
Proof.
  apply (bucket_keys_distinguish Calendar.Weekly 19737 19740).
  - unfold Calendar.timestamp_min, Calendar.timestamp_max. lia.
  - unfold Calendar.timestamp_min, Calendar.timestamp_max. lia.
  - vm_compute. reflexivity.
Defined.

(** *** Dates in frames *)

Lemma cell_of_insert_ne (r : gmap string cell) (col c : string) (v : cell) :
  col <> c -> cell_of (<[col := v]> r) c = cell_of r c.
Proof. intros H. unfold cell_of. rewrite lookup_insert_ne by exact H. reflexivity. Qed.

Lemma with_dates_instance_date (to_timestamp : cell -> option Z) (r : gmap string cell) :
  cell_of (DataLoader.with_dates to_timestamp r) "instance_date"
  = Utils.to_datetime to_timestamp (cell_of r "instance_date").
Proof.
  unfold DataLoader.with_dates. cbv zeta.
  rewrite !cell_of_insert_ne by discriminate. apply cell_of_insert.
Qed.

Lemma with_dates_other (to_timestamp : cell -> option Z) (r : gmap string cell) (c : string) :
  c <> "instance_date"%string -> c <> "year"%string -> c <> "month"%string ->
  cell_of (DataLoader.with_dates to_timestamp r) c = cell_of r c.
Proof.
  intros H1 H2 H3. unfold DataLoader.with_dates. cbv zeta.
  rewrite !cell_of_insert_ne by congruence. reflexivity.
Qed.

(** *** Bucket keys of [create_time_periods] *)

Section BucketKeys.

Variable to_timestamp : cell -> option Z.

Lemma key_of_date (df : DataFrame) (date_column : string) (period : Calendar.Granularity)
    (i : nat) (a : Z) :
  date_column ∈ columns df ->
  Utils.date_at to_timestamp df date_column i = Some a ->
  Utils.key_at (Utils.create_time_periods to_timestamp df date_column period) i
  = Some (Calendar.period_str (Calendar.to_period period a)).
Proof.
  intros Hc. unfold Utils.date_at, Utils.key_at.
  rewrite (create_time_periods_rows to_timestamp _ _ _ Hc), list_lookup_fmap.
  destruct (rows df !! i) as [r|]; [|discriminate]. cbn.
  intros Ha. rewrite cell_of_insert. unfold Utils.to_datetime. rewrite Ha. reflexivity.
Qed.

(** C7. In the frame [create_time_periods] returns, every record whose
    date parses has a bucket key, and the key depends on the date and
    the granularity only: two records whose dates lie in the same
    calendar bucket (no day, Monday, first of a month, of a quarter or
    of a year starts between them) have the same key.  When both dates
    are in the range of pandas timestamps, equal keys are given only
    within one bucket, and the keys of an earlier and a later date are
    in that order as text.  The monthly keys of 2024-01-15, 2024-01-20
    and 2024-02-01 are "2024-01", "2024-01" and "2024-02". *)
Theorem period_bucket_keys (df : DataFrame) (date_column : string)
    (g : Calendar.Granularity) :
  date_column ∈ columns df ->
  let out := Utils.create_time_periods to_timestamp df date_column g in
  (forall i a, Utils.date_at to_timestamp df date_column i = Some a ->
               exists k, Utils.key_at out i = Some k)
  /\ (forall i j a b ki kj,
        Utils.date_at to_timestamp df date_column i = Some a ->
        Utils.date_at to_timestamp df date_column j = Some b ->
        Utils.key_at out i = Some ki -> Utils.key_at out j = Some kj ->
        (Calendar.same_calendar_bucket g a b -> ki = kj)
        /\ (Calendar.timestamp_min <= a <= Calendar.timestamp_max ->
            Calendar.timestamp_min <= b <= Calendar.timestamp_max ->
            (ki = kj -> Calendar.same_calendar_bucket g a b)
            /\ (a <= b -> String.le ki kj)))
  /\ map (fun r => Utils.bucket_key (cell_of r "time_period"))
       (rows (Utils.create_time_periods timestamps_only three_dates "instance_date"
                Calendar.Monthly))
     = [Some "2024-01"; Some "2024-01"; Some "2024-02"]%string.
Proof.
  intros Hc out. split; [|split; [|exact three_dates_monthly]].
  - intros i a Ha. eexists. apply key_of_date; eassumption.
  - intros i j a b ki kj Ha Hb Hi Hj. unfold out in Hi, Hj.
    rewrite (key_of_date _ _ _ _ _ Hc Ha) in Hi.
    rewrite (key_of_date _ _ _ _ _ Hc Hb) in Hj.
    injection Hi as <-. injection Hj as <-. split.
    + intros Hs. rewrite (CalendarFacts.same_calendar_bucket_same_period _ _ _ Hs).
      reflexivity.
    + intros Ra Rb. split.
      * intros Hk. apply BucketFacts.same_bucket_no_start;
          [unfold Calendar.origin_days, Calendar.timestamp_min in *; lia ..|].
        apply BucketFacts.keys_distinguish; assumption.
      * intros Hab. apply CalendarFacts.keys_chronological; lia.
Qed.

End BucketKeys.

Lemma period_bucket_keys_witness :
  let out := Utils.create_time_periods timestamps_only three_dates "instance_date"
               Calendar.Weekly in
  (forall i a, Utils.date_at timestamps_only three_dates "instance_date" i = Some a ->
               exists k, Utils.key_at out i = Some k)
  /\ (forall i j a b ki kj,
        Utils.date_at timestamps_only three_dates "instance_date" i = Some a ->
        Utils.date_at timestamps_only three_dates "instance_date" j = Some b ->
        Utils.key_at out i = Some ki -> Utils.key_at out j = Some kj ->
        (Calendar.same_calendar_bucket Calendar.Weekly a b -> ki = kj)
        /\ (Calendar.timestamp_min <= a <= Calendar.timestamp_max ->
            Calendar.timestamp_min <= b <= Calendar.timestamp_max ->
            (ki = kj -> Calendar.same_calendar_bucket Calendar.Weekly a b)
            /\ (a <= b -> String.le ki kj)))
  /\ map (fun r => Utils.bucket_key (cell_of r "time_period"))
       (rows (Utils.create_time_periods timestamps_only three_dates "instance_date"
                Calendar.Monthly))
     = [Some "2024-01"; Some "2024-01"; Some "2024-02"]%string.
Proof.
  apply (period_bucket_keys timestamps_only three_dates "instance_date" Calendar.Weekly).
  vm_compute. set_solver.
Defined.

Section DateFacts.

Variable to_timestamp : cell -> option Z.

(** X9. [create_time_periods] keeps every record and every column and adds
    the bucket column: each record's bucket is the period of its date as
    [to_datetime] reads it, and a record whose date does not parse stays
    in the frame with a null bucket. *)
Theorem create_time_periods_keeps_records (df : DataFrame) (date_column : string)
    (period : Calendar.Granularity) :
  date_column ∈ columns df ->
  let out := Utils.create_time_periods to_timestamp df date_column period in
  (forall c, c ∈ columns df -> c ∈ columns out)
  /\ "time_period"%string ∈ columns out
  /\ Forall2 (fun r r' =>
       cell_of r' "time_period"
       = match to_timestamp (cell_of r date_column) with
         | Some d => CPeriod (Calendar.to_period period d)
         | None => CNull
         end) (rows df) (rows out).
Proof.
  intros Hc out. unfold out, Utils.create_time_periods, Utils.ensure_datetime.
  rewrite (bool_decide_eq_true_2 _ Hc). cbn [negb].
  set (t1 := setitem df date_column _).
  assert (R1 : rows t1 = map (fun r => <[date_column :=
                 Utils.to_datetime to_timestamp (cell_of r date_column)]> r) (rows df))
    by apply setitem_rows.
  split; [|split].
  - intros c Hin. apply setitem_columns, setitem_columns, Hin.
  - unfold setitem at 1. cbn [columns]. case_bool_decide as Ht; [exact Ht|].
    apply elem_of_app. right. apply list_elem_of_singleton. reflexivity.
  - rewrite setitem_rows, R1, map_map.
    apply Forall2_fmap_r, Forall_Forall2_diag, List.Forall_forall. intros r _.
    unfold compose. cbv beta. rewrite !cell_of_insert.
    unfold Utils.dt_to_period, Utils.to_datetime.
    destruct (to_timestamp (cell_of r date_column)); reflexivity.
Qed.

Hypothesis to_timestamp_date : forall d, to_timestamp (CDate d) = Some d.
Hypothesis to_timestamp_null : to_timestamp CNull = None.

Lemma to_datetime_twice (c : cell) :
  Utils.to_datetime to_timestamp (Utils.to_datetime to_timestamp c)
  = Utils.to_datetime to_timestamp c.
Proof.
  unfold Utils.to_datetime. destruct (to_timestamp c) as [d|]; simpl.
  - rewrite to_timestamp_date. reflexivity.
  - rewrite to_timestamp_null. reflexivity.
Qed.

(** X10. Coercing a date column a second time changes nothing, as long as
    the parser keeps a timestamp as it is and a null as null. *)
Theorem ensure_datetime_idempotent (df : DataFrame) (date_column : string) :
  Utils.ensure_datetime to_timestamp (Utils.ensure_datetime to_timestamp df date_column)
    date_column
  = Utils.ensure_datetime to_timestamp df date_column.
Proof.
  unfold Utils.ensure_datetime.
  destruct (decide (date_column ∈ columns df)) as [Hc|Hc].
  - rewrite (bool_decide_eq_true_2 _ Hc).
    set (t1 := setitem df date_column _).
    assert (C1 : columns t1 = columns df).
    { unfold t1, setitem. cbn [columns]. rewrite (bool_decide_eq_true_2 _ Hc). reflexivity. }
    assert (R1 : rows t1 = map (fun r => <[date_column :=
                   Utils.to_datetime to_timestamp (cell_of r date_column)]> r) (rows df))
      by apply setitem_rows.
    rewrite C1, (bool_decide_eq_true_2 _ Hc).
    destruct t1 as [c1 r1] eqn:Et. cbn [columns rows] in C1, R1. subst c1.
    unfold setitem at 1. cbn [columns rows]. rewrite (bool_decide_eq_true_2 _ Hc).
    f_equal. rewrite zip_with_map, R1, map_map. apply map_ext. intros r.
    rewrite cell_of_insert, insert_insert_eq, to_datetime_twice. reflexivity.
  - rewrite (bool_decide_eq_false_2 _ Hc), (bool_decide_eq_false_2 _ Hc). reflexivity.
Qed.

Variable to_timestamp_dayfirst : cell -> option Z.

Lemma convert_transactions_rows (raw : DataFrame) :
  "instance_date"%string ∈ columns raw ->
  exists stored,
    Conversion.convert_transactions to_timestamp_dayfirst raw = Ok stored
    /\ columns stored = columns raw
    /\ rows stored
       = map (fun r => <["instance_date"%string :=
                Utils.to_datetime to_timestamp_dayfirst (cell_of r "instance_date")]> r)
           (List.filter (Conversion.parsable to_timestamp_dayfirst) (rows raw)).
Proof.
  intros Hc. unfold Conversion.convert_transactions.
  rewrite getitem_present by done. rewrite bind_ok, map_map.
  set (t1 := setitem raw "instance_date" _).
  assert (C1 : columns t1 = columns raw).
  { unfold t1, setitem. cbn [columns]. rewrite (bool_decide_eq_true_2 _ Hc). reflexivity. }
  assert (R1 : rows t1 = map (fun r => <["instance_date"%string :=
                 Utils.to_datetime to_timestamp_dayfirst (cell_of r "instance_date")]> r)
                 (rows raw)) by apply setitem_rows.
  unfold dropna. rewrite getitem_present by (rewrite C1; exact Hc).
  rewrite bind_ok, map_map. eexists. split; [reflexivity|].
  unfold loc. cbn [columns rows]. split; [exact C1|].
  rewrite select_map_filter, R1, filter_map_comm. f_equal.
  apply filter_ext_bool. intros r. rewrite cell_of_insert.
  unfold Utils.to_datetime, Conversion.parsable.
  destruct (to_timestamp_dayfirst (cell_of r "instance_date")); reflexivity.
Qed.

(** X11. On the first run the records returned are exactly those whose date
    the day-first parser reads, in their original order and with that
    date: the second parse of the stored table ("double-check date
    parsing") drops nothing and changes no date. *)
Theorem first_run_keeps_parsed (raw_transactions raw_rentals : DataFrame) :
  "instance_date"%string ∈ columns raw_transactions ->
  exists transactions,
    Conversion.load_data_first_run to_timestamp_dayfirst to_timestamp
      raw_transactions raw_rentals = Ok (transactions, raw_rentals)
    /\ Forall2 (fun r r' =>
         cell_of r' "instance_date"
         = Utils.to_datetime to_timestamp_dayfirst (cell_of r "instance_date")
         /\ cell_of r' "actual_worth" = cell_of r "actual_worth")
       (List.filter (Conversion.parsable to_timestamp_dayfirst) (rows raw_transactions))
       (rows transactions).
Proof.
  intros Hc. unfold Conversion.load_data_first_run.
  destruct (convert_transactions_rows raw_transactions Hc) as (stored & Hs & Cs & Rs).
  rewrite Hs, bind_ok. unfold DataLoader.load_data.
  destruct (load_transactions_rows to_timestamp stored) as (t & Ht & Rt).
  { rewrite Cs. exact Hc. }
  rewrite Ht, bind_ok. exists t. split; [reflexivity|].
  rewrite Rt, Rs, filter_map_comm, map_map.
  rewrite (filter_ext_bool
             (fun x => negb (DataLoader.unparsable to_timestamp
                (<["instance_date"%string :=
                   Utils.to_datetime to_timestamp_dayfirst (cell_of x "instance_date")]> x)))
             (Conversion.parsable to_timestamp_dayfirst)).
  2:{ intros r. unfold DataLoader.unparsable, Conversion.parsable.
      rewrite cell_of_insert. unfold Utils.to_datetime.
      destruct (to_timestamp_dayfirst (cell_of r "instance_date")); simpl.
      - rewrite to_timestamp_date. reflexivity.
      - rewrite to_timestamp_null. reflexivity. }
  rewrite filter_filter_andb.
  rewrite (filter_ext_bool
             (fun x => Conversion.parsable to_timestamp_dayfirst x
                       && Conversion.parsable to_timestamp_dayfirst x)
             (Conversion.parsable to_timestamp_dayfirst))
    by (intros r; apply andb_diag).
  apply Forall2_fmap_r, Forall_Forall2_diag, List.Forall_forall. intros r Hr.
  unfold compose. cbv beta.
  apply List.filter_In in Hr as [_ Hp]. unfold Conversion.parsable in Hp.
  rewrite with_dates_instance_date, with_dates_other by discriminate.
  rewrite cell_of_insert, cell_of_insert_ne by discriminate.
  unfold Utils.to_datetime.
  destruct (to_timestamp_dayfirst (cell_of r "instance_date")) as [d|]; [|discriminate].
  simpl. rewrite to_timestamp_date. split; reflexivity.
Qed.

End DateFacts.

Lemma create_time_periods_keeps_records_witness :
  let out := Utils.create_time_periods timestamps_only one_bad_date "instance_date"
               Calendar.Monthly in
  (forall c, c ∈ columns one_bad_date -> c ∈ columns out)
  /\ "time_period"%string ∈ columns out
  /\ Forall2 (fun r r' =>
       cell_of r' "time_period"
       = match timestamps_only (cell_of r "instance_date") with
         | Some d => CPeriod (Calendar.to_period Calendar.Monthly d)
         | None => CNull
         end) (rows one_bad_date) (rows out).
Proof.
  apply (create_time_periods_keeps_records timestamps_only one_bad_date "instance_date"
           Calendar.Monthly).
  compute_done.
Defined.

Lemma ensure_datetime_idempotent_witness :
  Utils.ensure_datetime timestamps_only
    (Utils.ensure_datetime timestamps_only one_bad_date "instance_date") "instance_date"
  = Utils.ensure_datetime timestamps_only one_bad_date "instance_date".
Proof.
  apply (ensure_datetime_idempotent timestamps_only
           (fun d => eq_refl) eq_refl one_bad_date "instance_date").
Defined.

Lemma first_run_keeps_parsed_witness :
  exists transactions,
    Conversion.load_data_first_run dayfirst_only timestamps_only raw_two no_sales
    = Ok (transactions, no_sales)
    /\ Forall2 (fun r r' =>
         cell_of r' "instance_date"
         = Utils.to_datetime dayfirst_only (cell_of r "instance_date")
         /\ cell_of r' "actual_worth" = cell_of r "actual_worth")
       (List.filter (Conversion.parsable dayfirst_only) (rows raw_two))
       (rows transactions).
Proof.
  apply (first_run_keeps_parsed timestamps_only (fun d => eq_refl) eq_refl dayfirst_only
           raw_two no_sales).
  compute_done.
Defined.

Example first_run_raw_two :
  Conversion.load_data_first_run dayfirst_only timestamps_only raw_two no_sales
  = DataLoader.load_data timestamps_only one_bad_date no_sales.
Proof. compute_done. Qed.

(** *** More on the filter sections *)

Section FilterSections.

Variable astype_str : cell -> string.

Lemma step_if_guarded (cond : bool) (col : string) (p : FilterPredicate) :
  Forall (fun st => guarded st = true) (step_if cond col p).
Proof. unfold step_if. destruct cond; repeat constructor. Qed.

Lemma sales_steps_guarded (w : SalesSelection) :
  Forall (fun st => guarded st = true) (sales_steps w).
Proof.
  unfold sales_steps. cbv zeta.
  repeat (apply Forall_app; split);
    repeat match goal with
           | |- context [if ?b then _ else _] => destruct b
           end;
    apply step_if_guarded.
Qed.

Lemma find_blocking_guarded (cols : list string) (steps : list FilterStep) :
  Forall (fun st => guarded st = true) steps -> List.find (blocking cols) steps = None.
Proof.
  induction 1 as [|st steps Hst _ IH]; simpl; [reflexivity|].
  unfold blocking at 1. rewrite Hst. simpl. exact IH.
Qed.

Lemma keep_present (cols : list string) (steps : list FilterStep) (r : gmap string cell) :
  keep astype_str cols steps r = true ->
  Forall (fun st => field st ∈ cols -> satisfies astype_str st r = true) steps.
Proof.
  unfold keep. induction steps as [|st steps IH]; simpl; intros Hk; [constructor|].
  apply andb_true_iff in Hk as [H1 H2]. constructor; [|auto].
  intros Hin. unfold present in H1. rewrite (bool_decide_eq_true_2 _ Hin) in H1. exact H1.
Qed.

(** X12. On data whose date and distance columns hold dates and numbers,
    the filter section of the sales dashboard never fails, whichever
    columns the data has: a filter on a missing column is skipped, and
    the section returns a view with the same columns whose records are a
    sub-sequence of the data, each passing every filter the selection
    asks for on a column that exists. *)
Theorem sales_filter_never_raises (transactions : DataFrame) (w : SalesSelection) :
  sales_columns_typed transactions ->
  exists filtered_data,
    show_sales_dashboard_filtered_data astype_str transactions w = Ok filtered_data
    /\ columns filtered_data = columns transactions
    /\ sublist (rows filtered_data) (rows transactions)
    /\ Forall (fun r =>
         Forall (fun st => field st ∈ columns transactions
                           -> satisfies astype_str st r = true) (sales_steps w))
       (rows filtered_data).
Proof.
  intros _. rewrite sales_filter_steps, apply_filters_view. unfold filtered_view.
  rewrite (find_blocking_guarded _ _ (sales_steps_guarded w)).
  eexists. split; [reflexivity|]. cbn [columns rows].
  split; [reflexivity|]. split; [apply filter_sublist|].
  apply List.Forall_forall. intros r Hr. apply List.filter_In in Hr as [_ Hk].
  apply keep_present, Hk.
Qed.

(** X13. Asking for more never shows more: the view under the filters [P]
    followed by [Q] is a sub-sequence of the view under [P] alone. *)
Theorem more_filters_fewer_records (D v vq : DataFrame) (P Q : list FilterStep) :
  apply_filters astype_str D P = Ok v ->
  apply_filters astype_str D (P ++ Q) = Ok vq ->
  columns vq = columns v /\ sublist (rows vq) (rows v).
Proof.
  intros HP HPQ. rewrite apply_filters_app, HP, bind_ok in HPQ.
  rewrite apply_filters_view in HPQ. unfold filtered_view in HPQ.
  destruct (List.find _ Q); [discriminate|]. injection HPQ as <-.
  split; [reflexivity | apply filter_sublist].
Qed.

Lemma reductions_total (s : list cell) :
  Forall is_amount s ->
  exists a b c d, series_sum s = Ok a /\ series_mean s = Ok b
                  /\ series_median s = Ok c /\ series_max s = Ok d.
Proof.
  intros H. destruct (values_total s H) as [vs Hvs].
  unfold series_sum, series_mean, series_median, series_max. rewrite Hvs.
  do 4 eexists. repeat split; reflexivity.
Qed.

(** X14. In the rentals dashboard the filter statements never fail: the
    function reads [annual_amount], [area_name_en] and
    [ejari_property_sub_type_en] before it reaches them, so on data that
    lacks one of the three it stops with [KeyError] for the first one
    missing, whatever is selected, and otherwise the filters return a
    view with the same columns whose records are a sub-sequence of the
    data.  The amounts are numbers or nulls. *)
Theorem rentals_filters_after_reads (rentals : DataFrame)
    (selected_area selected_property_type : string) :
  amount_column rentals "annual_amount" ->
  match first_missing rentals with
  | Some c =>
      show_rentals_dashboard_to_filters astype_str rentals
        selected_area selected_property_type = Raise (KeyError c)
  | None =>
      exists filtered_rentals,
        show_rentals_dashboard_to_filters astype_str rentals
          selected_area selected_property_type = Ok filtered_rentals
        /\ columns filtered_rentals = columns rentals
        /\ sublist (rows filtered_rentals) (rows rentals)
  end.
Proof.
  intros Hnum. unfold first_missing, show_rentals_dashboard_to_filters. cbn [List.find].
  destruct (decide ("annual_amount"%string ∈ columns rentals)) as [Cm|Cm];
    [rewrite (bool_decide_eq_true_2 _ Cm)
    | rewrite (bool_decide_eq_false_2 _ Cm), (getitem_absent _ _ Cm); reflexivity].
  cbn [negb]. rewrite (getitem_present _ _ Cm), !bind_ok.
  destruct (reductions_total (map (fun r => cell_of r "annual_amount") (rows rentals)))
    as (a & b & c & d & -> & -> & -> & ->).
  { apply List.Forall_forall. intros x Hx. apply in_map_iff in Hx as (r & <- & Hr).
    exact (proj1 (List.Forall_forall _ _) Hnum r Hr). }
  rewrite !bind_ok.
  destruct (decide ("area_name_en"%string ∈ columns rentals)) as [Ca|Ca];
    [rewrite (bool_decide_eq_true_2 _ Ca)
    | rewrite (bool_decide_eq_false_2 _ Ca), (getitem_absent _ _ Ca); reflexivity].
  cbn [negb]. rewrite (getitem_present _ _ Ca), !bind_ok.
  destruct (decide ("ejari_property_sub_type_en"%string ∈ columns rentals)) as [Cp|Cp];
    [rewrite (bool_decide_eq_true_2 _ Cp)
    | rewrite (bool_decide_eq_false_2 _ Cp), (getitem_absent _ _ Cp); reflexivity].
  cbn [negb]. rewrite (getitem_present _ _ Cp), !bind_ok.
  rewrite rentals_filter_steps, apply_filters_view. unfold filtered_view.
  assert (Hb : List.find (blocking (columns rentals))
                 (rentals_steps selected_area selected_property_type) = None).
  { unfold rentals_steps.
    destruct (negb (is_all selected_area)), (negb (is_all selected_property_type));
      cbn; unfold blocking, present; cbn;
      rewrite ?(bool_decide_eq_true_2 _ Ca), ?(bool_decide_eq_true_2 _ Cp); reflexivity. }
  rewrite Hb. eexists. split; [reflexivity|]. cbn [columns rows].
  split; [reflexivity | apply filter_sublist].
Qed.

End FilterSections.

Lemma sales_filter_never_raises_witness :
  exists filtered_data,
    show_sales_dashboard_filtered_data text_str three_dates
      (mkSalesSelection [19740; 19760] "B" "Villa" "All" "All" "All" "All" "All" "Yes"
         "All" "All" "All" "All" "Under 1km") = Ok filtered_data
    /\ columns filtered_data = columns three_dates
    /\ sublist (rows filtered_data) (rows three_dates)
    /\ Forall (fun r =>
         Forall (fun st => field st ∈ columns three_dates
                           -> satisfies text_str st r = true)
                (sales_steps
                   (mkSalesSelection [19740; 19760] "B" "Villa" "All" "All" "All" "All"
                      "All" "Yes" "All" "All" "All" "All" "Under 1km")))
       (rows filtered_data).
Proof.
  apply (sales_filter_never_raises text_str three_dates).
  unfold sales_columns_typed. repeat (constructor; [split; exact I|]). constructor.
Defined.

(** Rentals without the sub-type column: the dashboard stops at the
    select box, with nothing selected. *)
Lemma rentals_filters_after_reads_witness :
  show_rentals_dashboard_to_filters text_str two_rents "All" "All"
  = Raise (KeyError "ejari_property_sub_type_en").
Proof.
  apply (rentals_filters_after_reads text_str two_rents "All" "All").
  repeat constructor.
Defined.

Example sales_filter_on_bare_frame :
  show_sales_dashboard_filtered_data text_str five_sales
    (mkSalesSelection [19737; 19754] "B" "Villa" "All" "All" "All" "All" "All" "Yes"
       "All" "All" "All" "All" "All")
  = Ok (mkFrame ["actual_worth"; "area_name_en"]%string
          [sale "B" 300; sale "B" 400; sale "B" 500]).
Proof. vm_compute. reflexivity. Qed.

Lemma more_filters_fewer_records_witness :
  columns (mkFrame ["actual_worth"; "area_name_en"]%string
             [sale "B" 300; sale "B" 400; sale "B" 500])
  = columns (mkFrame ["actual_worth"; "area_name_en"]%string
               [sale "A" 200; sale "B" 300; sale "B" 400; sale "B" 500])
  /\ sublist [sale "B" 300; sale "B" 400; sale "B" 500]
             [sale "A" 200; sale "B" 300; sale "B" 400; sale "B" 500].
Proof.
  apply (more_filters_fewer_records text_str five_sales
           (mkFrame ["actual_worth"; "area_name_en"]%string
              [sale "A" 200; sale "B" 300; sale "B" 400; sale "B" 500])
           (mkFrame ["actual_worth"; "area_name_en"]%string
              [sale "B" 300; sale "B" 400; sale "B" 500])
           [worth_from_200] [in_area_B]); vm_compute; reflexivity.
Defined.

(** *** The session *)

Module SessionFacts.

Import Session.

Lemma insert3 (s : SessionState) (a u n : value) :
  let s' := <["name"%string := n]> (<["username"%string := u]>
              (<["authenticated"%string := a]> s)) in
  s' !! "authenticated"%string = Some a
  /\ s' !! "username"%string = Some u
  /\ s' !! "name"%string = Some n.
Proof.
  cbv zeta. repeat split.
  - rewrite !lookup_insert_ne by discriminate. apply lookup_insert_eq.
  - rewrite lookup_insert_ne by discriminate. apply lookup_insert_eq.
  - apply lookup_insert_eq.
Qed.

Lemma eqb_pair (a b x y : string) :
  String.eqb a x && String.eqb b y = true -> a = x /\ b = y.
Proof.
  intros [H1 H2]%andb_true_iff. split; apply String.eqb_eq; assumption.
Qed.

(** One call of [custom_login] on a consistent session. *)
Lemma custom_login_step (s : SessionState) (w : Widgets) :
  consistent s ->
  exists s' o,
    custom_login s w = Ok (s', o)
    /\ consistent s'
    /\ (o = Return true ->
        s' = s /\ s !! "authenticated"%string = Some (VBool true) /\ logout w = false)
    /\ (s' !! "authenticated"%string = Some (VBool true) ->
        s !! "authenticated"%string = Some (VBool true) \/ demo_credentials w).
Proof.
  intros [(Ha & Hu & Hn)|[(Ha & Hu & Hn)|(Ha & Hu & Hn)]];
    unfold custom_login, getitem_state; rewrite Ha; cbn [mbind result_bind truthy negb].
  - destruct (submit w) eqn:Es.
    + destruct (String.eqb (username w) "user" && String.eqb (password w) "password123")
        eqn:E1.
      * apply eqb_pair in E1 as [Eu Ep]. do 2 eexists. split; [reflexivity|].
        split; [right; left; rewrite Eu; apply insert3|].
        split; [discriminate|]. intros _. right. split; [exact Es | left; auto].
      * destruct (String.eqb (username w) "admin" && String.eqb (password w) "admin123")
          eqn:E2.
        -- apply eqb_pair in E2 as [Eu Ep]. do 2 eexists. split; [reflexivity|].
           split; [right; right; rewrite Eu; apply insert3|].
           split; [discriminate|]. intros _. right. split; [exact Es | right; auto].
        -- do 2 eexists. split; [reflexivity|].
           split; [left; repeat split; assumption|].
           split; [discriminate | intros H; rewrite Ha in H; discriminate].
    + do 2 eexists. split; [reflexivity|].
      split; [left; repeat split; assumption|].
      split; [discriminate | intros H; rewrite Ha in H; discriminate].
  - rewrite Hn. cbn [mbind result_bind]. destruct (logout w) eqn:El.
    + do 2 eexists. split; [reflexivity|]. split; [left; apply insert3|].
      split; [discriminate | intros _; left; reflexivity].
    + do 2 eexists. split; [reflexivity|].
      split; [right; left; repeat split; assumption|].
      split; [intros _; auto | intros _; left; reflexivity].
  - rewrite Hn. cbn [mbind result_bind]. destruct (logout w) eqn:El.
    + do 2 eexists. split; [reflexivity|]. split; [left; apply insert3|].
      split; [discriminate | intros _; left; reflexivity].
    + do 2 eexists. split; [reflexivity|].
      split; [right; right; repeat split; assumption|].
      split; [intros _; auto | intros _; left; reflexivity].
Qed.

Lemma setdefault_known (key : string) (v v0 : value) (s : SessionState) :
  s !! key = Some v0 -> setdefault key v s = s.
Proof. intros H. unfold setdefault. rewrite H. reflexivity. Qed.

Lemma app_initialises (s : SessionState) :
  started s ->
  let s0 := setdefault "name" VNone
              (setdefault "username" VNone (setdefault "authenticated" (VBool false) s)) in
  consistent s0
  /\ (consistent s -> s0 = s)
  /\ (s0 !! "authenticated"%string = Some (VBool true)
      -> s !! "authenticated"%string = Some (VBool true)).
Proof.
  intros [->|Hc]; cbv zeta.
  - split; [left; vm_compute; auto|]. split.
    + intros [(H & _)|[(H & _)|(H & _)]]; rewrite lookup_empty in H; discriminate.
    + vm_compute. discriminate.
  - assert (E : setdefault "name" VNone
              (setdefault "username" VNone (setdefault "authenticated" (VBool false) s)) = s).
    { destruct Hc as [(Ha & Hu & Hn)|[(Ha & Hu & Hn)|(Ha & Hu & Hn)]];
        rewrite (setdefault_known _ _ _ _ Ha), (setdefault_known _ _ _ _ Hu),
          (setdefault_known _ _ _ _ Hn); reflexivity. }
    rewrite E. auto.
Qed.

Lemma app_step (s : SessionState) (w : Widgets) :
  started s ->
  exists s' o,
    app s w = Ok (s', o)
    /\ consistent s'
    /\ (o = Return true ->
        s' = s /\ s !! "authenticated"%string = Some (VBool true) /\ logout w = false)
    /\ (s' !! "authenticated"%string = Some (VBool true) ->
        s !! "authenticated"%string = Some (VBool true) \/ demo_credentials w).
Proof.
  intros Hs. unfold app. cbv zeta.
  destruct (app_initialises s Hs) as (Hc & Hsame & Hauth).
  destruct (custom_login_step _ w Hc) as (s' & o & E & Hc' & Hret & Hin).
  exists s', o. split; [exact E|]. split; [exact Hc'|]. split.
  - intros Ho. destruct (Hret Ho) as (E1 & E2 & E3).
    assert (Ha := Hauth E2).
    assert (Hcs : consistent s).
    { destruct Hs as [->|Hcs]; [rewrite lookup_empty in Ha; discriminate | exact Hcs]. }
    rewrite (Hsame Hcs) in E1. auto.
  - intros H. destruct (Hin H) as [H1|H1]; [left; apply Hauth, H1 | right; exact H1].
Qed.

Lemma runs_invariant (ws : list Widgets) (s0 s : SessionState) :
  started s0 -> runs s0 ws = Ok s ->
  started s
  /\ (s !! "authenticated"%string = Some (VBool true) ->
      s0 !! "authenticated"%string = Some (VBool true) \/ Exists demo_credentials ws).
Proof.
  revert s0. induction ws as [|w ws IH]; intros s0 Hs0 Hr; simpl in Hr.
  - injection Hr as <-. auto.
  - destruct (app_step s0 w Hs0) as (s1 & o & E & Hc & _ & Hin).
    rewrite E in Hr. cbn [mbind result_bind fst] in Hr.
    destruct (IH s1 (or_intror Hc) Hr) as (Hs & Ha). split; [exact Hs|].
    intros H. destruct (Ha H) as [H1|H1].
    + destruct (Hin H1) as [H2|H2]; [left; exact H2 | right; left; exact H2].
    + right. right. exact H1.
Qed.

Lemma runs_total (ws : list Widgets) (s0 : SessionState) :
  started s0 -> exists s, runs s0 ws = Ok s.
Proof.
  revert s0. induction ws as [|w ws IH]; intros s0 Hs0; simpl; [eauto|].
  destruct (app_step s0 w Hs0) as (s1 & o & E & Hc & _).
  rewrite E. cbn [mbind result_bind fst]. apply IH. right. exact Hc.
Qed.

(** X15. However a visitor uses the widgets, no run of the script fails at
    the login gate, and after every run the session is that of a
    logged-out visitor or of one of the two demo accounts, with the
    matching display name. *)
Theorem session_stays_consistent (ws : list Widgets) (w : Widgets) :
  exists s s' o,
    runs ∅ ws = Ok s /\ app s w = Ok (s', o) /\ consistent s'.
Proof.
  destruct (runs_total ws ∅ (or_introl eq_refl)) as (s & Hr).
  destruct (runs_invariant ws ∅ s (or_introl eq_refl) Hr) as (Hs & _).
  destruct (app_step s w Hs) as (s' & o & E & Hc & _).
  exists s, s', o. auto.
Qed.

(** X16. The dashboards are behind the login: a run in which [custom_login]
    returns [True] leaves the session as it was, the session is that of
    one of the two demo accounts, the logout button was not pressed, and
    some earlier run submitted the login form with a demo pair. *)
Theorem dashboards_behind_login (ws : list Widgets) (w : Widgets) (s s' : SessionState) :
  runs ∅ ws = Ok s ->
  app s w = Ok (s', Return true) ->
  s' = s
  /\ (logged_in_as "user" "Regular User" s \/ logged_in_as "admin" "Admin User" s)
  /\ logout w = false
  /\ Exists demo_credentials ws.
Proof.
  intros Hr Ha.
  destruct (runs_invariant ws ∅ s (or_introl eq_refl) Hr) as (Hs & Hhist).
  destruct (app_step s w Hs) as (s1 & o & E & _ & Hret & _).
  rewrite E in Ha. injection Ha as -> ->.
  destruct (Hret eq_refl) as (E1 & E2 & E3).
  split; [exact E1|]. split.
  - destruct Hs as [->|[(H & _)|[H|H]]]; [rewrite lookup_empty in E2; discriminate
      | rewrite H in E2; discriminate | left; exact H | right; exact H].
  - split; [exact E3|]. destruct (Hhist E2) as [H|H]; [|exact H].
    rewrite lookup_empty in H. discriminate.
Qed.

Lemma dashboards_behind_login_witness :
  Exists demo_credentials [mkWidgets "admin" "admin123" true false].
Proof.
  apply (dashboards_behind_login [mkWidgets "admin" "admin123" true false]
           (mkWidgets "" "" false false)
           (<["name"%string := VStr "Admin User"]>
              (<["username"%string := VStr "admin"]>
                 (<["authenticated"%string := VBool true]>
                    (<["name"%string := VNone]>
                       (<["username"%string := VNone]>
                          (<["authenticated"%string := VBool false]> ∅))))))
           (<["name"%string := VStr "Admin User"]>
              (<["username"%string := VStr "admin"]>
                 (<["authenticated"%string := VBool true]>
                    (<["name"%string := VNone]>
                       (<["username"%string := VNone]>
                          (<["authenticated"%string := VBool false]> ∅)))))));
    vm_compute; reflexivity.
Defined.

(** X17. [get_data] loads once: when it fails, the loader failed, with that
    error; when it returns, every later call returns the same two
    tables without loading and leaves the session as it is, whatever
    [use_sample] says. *)
Theorem get_data_loads_once (load_data : option Z -> result (DataFrame * DataFrame))
    (use_sample : bool) (session_state : SessionState) :
  match get_data load_data use_sample session_state with
  | inr (session_state', tables) =>
      forall load_data' use_sample',
        get_data load_data' use_sample' session_state' = inr (session_state', tables)
  | inl e =>
      exists e0, e = Load e0
                 /\ load_data (if use_sample then Some 10000 else None) = Raise e0
  end.
Proof.
  unfold get_data, getattr.
  destruct (session_state !! "transactions"%string) as [t|] eqn:Et;
    destruct (session_state !! "rentals"%string) as [r|] eqn:Er; cbn.
  1: { rewrite Et, Er. intros load' b'. rewrite Et, Er. cbn. rewrite Et, Er. reflexivity. }
  all: destruct (load_data (if use_sample then Some 10000 else None)) as [[t' r']|e0];
    [|eauto].
  all: rewrite lookup_insert_ne by discriminate; rewrite lookup_insert_eq;
    rewrite lookup_insert_eq.
  all: intros load' b'; rewrite lookup_insert_ne by discriminate;
    rewrite lookup_insert_eq; rewrite lookup_insert_eq; cbn;
    rewrite lookup_insert_ne by discriminate; rewrite lookup_insert_eq;
    rewrite lookup_insert_eq; reflexivity.
Qed.

End SessionFacts.

(** *** The previous period of the sales dashboard *)

Section PreviousPeriodFacts.

Variable astype_str : cell -> string.

Lemma narrow_rows (cond : bool) (df df' : DataFrame) (col : string) (p : FilterPredicate) :
  (if cond then where_ astype_str df col p else Ok df) = Ok df' ->
  columns df' = columns df /\ sublist (rows df') (rows df).
Proof.
  destruct cond; [|intros [= <-]; split; reflexivity].
  destruct (decide (col ∈ columns df)) as [Hin|Hout].
  - rewrite (where_present astype_str df col p Hin). intros [= <-].
    split; [reflexivity | apply filter_sublist].
  - rewrite (where_absent astype_str df col p Hout). discriminate.
Qed.

Lemma narrow_present (cond : bool) (df : DataFrame) (col : string) (p : FilterPredicate) :
  col ∈ columns df ->
  exists df', (if cond then where_ astype_str df col p else Ok df) = Ok df'
              /\ columns df' = columns df.
Proof.
  intros Hin. destruct cond; [|eauto].
  rewrite (where_present astype_str df col p Hin). eauto.
Qed.

Lemma date_between (lo hi : Z) (c : cell) :
  matches astype_str (DateBetween lo hi) c = true ->
  exists d, c = CDate d /\ lo <= d <= hi.
Proof.
  destruct c; simpl; try discriminate.
  intros [H1 H2]%andb_true_iff. eexists. split; [reflexivity | lia].
Qed.

(** X18. The previous period of the sales dashboard is the window just
    before the selected one: its records are records of the data dated
    from [d0 - 1 - (d1 - d0)] to [d0 - 1], the day before the selected
    range starts; the filtered view holds only records dated within the
    selected range, and so no record is in both. *)
Theorem previous_period_window (transactions previous_period_data filtered_data : DataFrame)
    (w : SalesSelection) (d0 d1 : Z) :
  date_range w = [d0; d1] ->
  "instance_date"%string ∈ columns transactions ->
  show_sales_dashboard_previous_period_data astype_str transactions w
    = Frame previous_period_data ->
  show_sales_dashboard_filtered_data astype_str transactions w = Ok filtered_data ->
  sublist (rows previous_period_data) (rows transactions)
  /\ Forall (fun r => exists d, cell_of r "instance_date" = CDate d
                                /\ d0 - 1 - (d1 - d0) <= d <= d0 - 1)
       (rows previous_period_data)
  /\ Forall (fun r => exists d, cell_of r "instance_date" = CDate d /\ d0 <= d <= d1)
       (rows filtered_data)
  /\ (forall r, r ∈ rows previous_period_data -> r ∉ rows filtered_data).
Proof.
  intros Hdr Hcol Hprev Hcur.
  assert (HP : sublist (rows previous_period_data) (rows transactions)
          /\ Forall (fun r => exists d, cell_of r "instance_date" = CDate d
                                        /\ d0 - 1 - (d1 - d0) <= d <= d0 - 1)
               (rows previous_period_data)).
  { unfold show_sales_dashboard_previous_period_data in Hprev.
    rewrite Hdr in Hprev. cbn [length nth] in Hprev.
    rewrite (bool_decide_eq_true_2 _ Hcol) in Hprev.
    rewrite (bool_decide_eq_true_2 (2 = 2)%nat) in Hprev by reflexivity.
    cbn [andb] in Hprev. cbv zeta in Hprev.
    rewrite (where_present astype_str _ _ _ Hcol) in Hprev.
    destruct (bool_decide ("area_name_en"%string ∈ columns transactions));
      [|discriminate].
    cbn [negb] in Hprev.
    match type of Hprev with
    | match ?m with _ => _ end = _ => destruct m as [p1|] eqn:E1; [|discriminate]
    end.
    destruct (bool_decide ("property_type_en"%string ∈ columns transactions));
      [|discriminate].
    cbn [negb] in Hprev.
    match type of Hprev with
    | match ?m with _ => _ end = _ => destruct m as [p2|] eqn:E2; [|discriminate]
    end.
    injection Hprev as ->.
    apply narrow_rows in E1 as [_ S1]. apply narrow_rows in E2 as [_ S2].
    cbn [rows] in S1.
    assert (S : sublist (rows previous_period_data)
                  (List.filter (fun r => matches astype_str
                     (DateBetween (d0 - 1 - (d1 - d0)) (d0 - 1))
                     (cell_of r "instance_date")) (rows transactions)))
      by (etrans; eassumption).
    split; [etrans; [exact S | apply filter_sublist]|].
    apply (sublist_Forall _ _ _ S). apply List.Forall_forall. intros r Hr.
    apply List.filter_In in Hr as [_ Hm]. apply date_between in Hm. exact Hm. }
  assert (HF : Forall (fun r => exists d, cell_of r "instance_date" = CDate d
                                          /\ d0 <= d <= d1) (rows filtered_data)).
  { rewrite sales_filter_steps, apply_filters_view in Hcur. unfold filtered_view in Hcur.
    rewrite (find_blocking_guarded _ _ (sales_steps_guarded w)) in Hcur.
    injection Hcur as <-. cbn [rows].
    apply List.Forall_forall. intros r Hr. apply List.filter_In in Hr as [_ Hk].
    apply keep_present in Hk. unfold sales_steps in Hk. cbv zeta in Hk.
    apply Forall_app in Hk as [Hk _]. rewrite Hdr in Hk. cbn [length nth] in Hk.
    rewrite (bool_decide_eq_true_2 (2 = 2)%nat) in Hk by reflexivity.
    unfold step_if in Hk. inversion Hk as [|st sts Hst _]; subst.
    apply (date_between d0 d1). apply Hst. exact Hcol. }
  destruct HP as [HP1 HP2]. repeat split; [exact HP1 | exact HP2 | exact HF |].
  intros r Hp Hf.
  apply list_elem_of_In in Hp, Hf.
  destruct (proj1 (List.Forall_forall _ _) HP2 r Hp) as (d & Ed & Hd).
  destruct (proj1 (List.Forall_forall _ _) HF r Hf) as (d' & Ed' & Hd').
  rewrite Ed in Ed'. injection Ed' as <-. lia.
Qed.

(** X19. The previous-period section never fails inside pandas.  It stops
    with [UnboundLocalError] exactly when the data has dates, the range
    has two ends and the area or the property-type column is missing:
    the variable of the select box that was not drawn is read. *)
Theorem previous_period_outcome (transactions : DataFrame) (w : SalesSelection) :
  match show_sales_dashboard_previous_period_data astype_str transactions w with
  | Frame previous_period_data =>
      ~ ("instance_date"%string ∈ columns transactions /\ length (date_range w) = 2%nat)
      /\ previous_period_data = mkFrame [] []
      \/ ("instance_date"%string ∈ columns transactions /\ length (date_range w) = 2%nat
          /\ "area_name_en"%string ∈ columns transactions
          /\ "property_type_en"%string ∈ columns transactions
          /\ columns previous_period_data = columns transactions)
  | UnboundLocalError name =>
      "instance_date"%string ∈ columns transactions /\ length (date_range w) = 2%nat
      /\ (name = "selected_area"%string /\ "area_name_en"%string ∉ columns transactions
          \/ name = "selected_property_type"%string
             /\ "area_name_en"%string ∈ columns transactions
             /\ "property_type_en"%string ∉ columns transactions)
  | Pandas _ => False
  end.
Proof.
  unfold show_sales_dashboard_previous_period_data.
  destruct (decide ("instance_date"%string ∈ columns transactions)) as [Hd|Hd];
    [rewrite (bool_decide_eq_true_2 _ Hd) | rewrite (bool_decide_eq_false_2 _ Hd)];
    [|left; split; [tauto | reflexivity]].
  destruct (decide (length (date_range w) = 2%nat)) as [Hl|Hl];
    [rewrite (bool_decide_eq_true_2 _ Hl) | rewrite (bool_decide_eq_false_2 _ Hl)];
    [|left; split; [tauto | reflexivity]].
  cbn [andb]. cbv zeta. rewrite (where_present astype_str _ _ _ Hd).
  destruct (decide ("area_name_en"%string ∈ columns transactions)) as [Ha|Ha];
    [rewrite (bool_decide_eq_true_2 _ Ha) | rewrite (bool_decide_eq_false_2 _ Ha)];
    cbn [negb]; [|auto].
  match goal with
  | |- context [if negb (is_all ?s) then where_ _ ?df ?c ?p else _] =>
      destruct (narrow_present (negb (is_all s)) df c p Ha) as (p1 & -> & C1)
  end.
  destruct (decide ("property_type_en"%string ∈ columns transactions)) as [Ht|Ht];
    [rewrite (bool_decide_eq_true_2 _ Ht) | rewrite (bool_decide_eq_false_2 _ Ht)];
    cbn [negb]; [|auto 6].
  cbn [columns] in C1.
  assert (Ht1 : "property_type_en"%string ∈ columns p1) by (rewrite C1; exact Ht).
  match goal with
  | |- context [if negb (is_all ?s) then where_ _ ?df ?c ?p else _] =>
      destruct (narrow_present (negb (is_all s)) df c p Ht1) as (p2 & -> & C2)
  end.
  right. rewrite C2, C1. auto 6.
Qed.

End PreviousPeriodFacts.

Lemma previous_period_window_witness :
  sublist [dated 19737] [dated 19737; dated 19742; dated 19754]
  /\ Forall (fun r => exists d, cell_of r "instance_date" = CDate d
                                /\ 19740 - 1 - (19760 - 19740) <= d <= 19740 - 1)
       [dated 19737]
  /\ Forall (fun r => exists d, cell_of r "instance_date" = CDate d /\ 19740 <= d <= 19760)
       [dated 19742; dated 19754]
  /\ (forall r, r ∈ [dated 19737] -> r ∉ [dated 19742; dated 19754]).
Proof.
  apply (previous_period_window text_str
           (mkFrame ["instance_date"; "area_name_en"; "property_type_en"]%string
              [dated 19737; dated 19742; dated 19754])
           (mkFrame ["instance_date"; "area_name_en"; "property_type_en"]%string
              [dated 19737])
           (mkFrame ["instance_date"; "area_name_en"; "property_type_en"]%string
              [dated 19742; dated 19754])
           (mkSalesSelection [19740; 19760] "All" "All" "All" "All" "All" "All" "All"
              "All" "All" "All" "All" "All" "All")
           19740 19760);
    [reflexivity | vm_compute; set_solver | vm_compute; reflexivity
     | vm_compute; reflexivity].
Defined.

(** *** Price segments *)

Module SegmentFacts.

Import Segments.

Ltac qc_order :=
  unfold Qclt, Qcle in *;
  repeat match goal with
         | H : context [this (Qc_of_Z ?n)] |- _ =>
             let v := eval vm_compute in (this (Qc_of_Z n)) in
             change (this (Qc_of_Z n)) with v in H
         | H : context [this (Q2Qc ?n)] |- _ =>
             let v := eval vm_compute in (this (Q2Qc n)) in
             change (this (Q2Qc n)) with v in H
         end;
  lra.

(** The segment as a function of the worth. *)
Lemma cut_price (q : Qc) :
  cut price_bins price_labels q
  = if Qc_leb q 0%Qc then None
    else if Qc_leb q (Qc_of_Z 1000000) then Some "Affordable (<1M)"%string
    else if Qc_leb q (Qc_of_Z 3000000) then Some "Mid-Market (1-3M)"%string
    else if Qc_leb q (Qc_of_Z 5000000) then Some "Luxury (3-5M)"%string
    else if Qc_leb q (Qc_of_Z 10000000) then Some "Ultra-Luxury (5-10M)"%string
    else Some "Super-Prime (10M+)"%string.
Proof.
  unfold price_bins, price_labels. cbn [cut above upto]. unfold Qc_ltb, Qc_leb.
  repeat case_bool_decide; cbn [andb]; try reflexivity; exfalso; qc_order.
Qed.

Lemma price_segment_positive (c : cell) (seg : option string) (r : gmap string cell) :
  cell_of r "actual_worth" = c ->
  price_segment c = Ok seg ->
  match seg with Some l => bool_decide (l ∈ price_labels) | None => false end
  = positive_worth r.
Proof.
  intros Ec. unfold price_segment, positive_worth. rewrite Ec.
  assert (Hq : forall q,
    match cut price_bins price_labels q with
    | Some l => bool_decide (l ∈ price_labels)
    | None => false
    end = Qc_ltb 0%Qc q).
  { intros q. rewrite cut_price. unfold Qc_leb, Qc_ltb.
    repeat case_bool_decide; try reflexivity; exfalso;
      first [ qc_order
            | match goal with
              | H : _ ∉ price_labels |- _ => apply H; unfold price_labels; set_solver
              end ]. }
  destruct c; cbn [numeric mbind result_bind]; try discriminate; intros [= <-];
    cbn [mbind option_bind].
  - apply Hq.
  - etrans; [apply Hq|]. destruct b.
    + apply bool_decide_eq_true_2. reflexivity.
    + apply bool_decide_eq_false_2. intros H. vm_compute in H. discriminate.
  - reflexivity.
Qed.

Lemma value_counts_total (categories : list string) (s : list (option string)) :
  NoDup categories ->
  nat_sum (map snd (value_counts categories s))
  = length (List.filter (fun x => match x with
                                  | Some l => bool_decide (l ∈ categories)
                                  | None => false
                                  end) s).
Proof.
  intros Hnd. unfold value_counts, nat_sum. rewrite map_map. cbn [snd].
  rewrite <- length_as_total.
  rewrite <- (partition_total 0%nat Nat.add Nat.add_comm Nat.add_assoc eq_refl
                (fun x : option string => x) (fun _ => 1%nat) categories s Hnd).
  f_equal. apply map_ext. intros l. symmetry. apply length_as_total.
Qed.

Lemma segments_of_rows (rs : list (gmap string cell)) (segs : list (option string)) :
  Forall2 (fun c seg => price_segment c = Ok seg)
    (map (fun r => cell_of r "actual_worth") rs) segs ->
  length (List.filter (fun x => match x with
                                | Some l => bool_decide (l ∈ price_labels)
                                | None => false
                                end) segs)
  = length (List.filter positive_worth rs).
Proof.
  revert segs. induction rs as [|r rs IH]; intros segs H; inversion H; subst;
    [reflexivity|].
  cbn [List.filter].
  rewrite (price_segment_positive _ _ r eq_refl ltac:(eassumption)).
  destruct (positive_worth r); cbn [length]; rewrite (IH _ ltac:(eassumption)); reflexivity.
Qed.

(** X20. A worth on an edge belongs to the segment below it: exactly
    1,000,000 is "Affordable (<1M)", exactly 10,000,000 is
    "Ultra-Luxury (5-10M)"; a worth of zero or less has no segment, and
    every worth above zero has one. *)
Theorem price_segment_edges (q : Qc) :
  cut price_bins price_labels (Qc_of_Z 1000000) = Some "Affordable (<1M)"%string
  /\ cut price_bins price_labels (Qc_of_Z 10000000) = Some "Ultra-Luxury (5-10M)"%string
  /\ (cut price_bins price_labels q = None <-> (q <= 0)%Qc)
  /\ (forall l, cut price_bins price_labels q = Some l -> l ∈ price_labels).
Proof.
  split; [vm_compute; reflexivity|]. split; [vm_compute; reflexivity|].
  rewrite cut_price. unfold Qc_leb. split.
  - repeat case_bool_decide; split; intros Hq; try discriminate; try assumption;
      try reflexivity; contradiction.
  - intros l. unfold price_labels.
    repeat case_bool_decide; intros [= <-]; set_solver.
Qed.

(** X21. The segment table has one row per label, in the order of the
    labels, and its counts add up to the number of records whose worth
    is above zero: a record is counted once, and the records with no
    worth or a worth of zero or less are in no segment. *)
Theorem price_segments_account (filtered_data : DataFrame) (table : list SegmentCount) :
  price_segment_counts filtered_data = Ok table ->
  map Segment table = price_labels
  /\ nat_sum (map Count table)
     = length (List.filter positive_worth (rows filtered_data))
  /\ Forall (fun row =>
       Percentage row = percentage (Count row)
                          (length (List.filter positive_worth (rows filtered_data))))
     table.
Proof.
  unfold price_segment_counts. intros H.
  apply bind_Ok_inv in H as (s & Hs & H).
  apply bind_Ok_inv in H as (segs & Hsegs & H). cbv zeta in H.
  remember (value_counts price_labels segs) as counts eqn:Ec. injection H as <-.
  destruct (decide ("actual_worth"%string ∈ columns filtered_data)) as [Hin|Hout];
    [|rewrite (getitem_absent _ _ Hout) in Hs; discriminate].
  rewrite (getitem_present _ _ Hin) in Hs. injection Hs as <-.
  apply traverse_Forall2 in Hsegs.
  assert (Hnd : NoDup price_labels) by (apply (bool_decide_unpack _); vm_compute; exact I).
  assert (Ht : nat_sum (map snd counts)
               = length (List.filter positive_worth (rows filtered_data))).
  { rewrite Ec, (value_counts_total _ _ Hnd). apply segments_of_rows, Hsegs. }
  rewrite Ht. split; [|split].
  - rewrite map_map. cbn [Segment]. rewrite Ec. unfold value_counts. rewrite map_map.
    cbn [fst]. apply map_id.
  - rewrite map_map. cbn [Count]. exact Ht.
  - apply List.Forall_forall. intros row Hrow. apply in_map_iff in Hrow as (lc & <- & _).
    reflexivity.
Qed.

End SegmentFacts.

Lemma price_segments_account_witness :
  nat_sum [3; 1; 0; 0; 1]%nat
  = length (List.filter Segments.positive_worth
              [stored_row CNull 1000000; stored_row CNull 0; stored_row CNull 500;
               stored_row CNull 1000001; stored_row CNull 20000000;
               stored_row CNull 1]).
Proof.
  apply (SegmentFacts.price_segments_account
           (mkFrame ["instance_date"; "actual_worth"]%string
              [stored_row CNull 1000000; stored_row CNull 0; stored_row CNull 500;
               stored_row CNull 1000001; stored_row CNull 20000000;
               stored_row CNull 1])
           [Segments.mkSegmentCount "Affordable (<1M)" 3
              (Num (Qc_of_Z 3 / Qc_of_Z 5 * Qc_of_Z 100)%Qc);
            Segments.mkSegmentCount "Mid-Market (1-3M)" 1
              (Num (Qc_of_Z 1 / Qc_of_Z 5 * Qc_of_Z 100)%Qc);
            Segments.mkSegmentCount "Luxury (3-5M)" 0
              (Num (Qc_of_Z 0 / Qc_of_Z 5 * Qc_of_Z 100)%Qc);
            Segments.mkSegmentCount "Ultra-Luxury (5-10M)" 0
              (Num (Qc_of_Z 0 / Qc_of_Z 5 * Qc_of_Z 100)%Qc);
            Segments.mkSegmentCount "Super-Prime (10M+)" 1
              (Num (Qc_of_Z 1 / Qc_of_Z 5 * Qc_of_Z 100)%Qc)]).
  compute_done.
Defined.

(** *** The merged table of the comparing dashboard *)

Module ComparingFacts.

Import Comparing.

Lemma groupby_mean_keys (df : DataFrame) (key target : string)
    (table : list (string * number)) :
  groupby_mean df key target = Ok table ->
  StronglySorted str_lt (map fst table)
  /\ (forall k, k ∈ map fst table <-> exists r, r ∈ rows df /\ cell_of r key = CStr k).
Proof.
  unfold groupby_mean. destruct (groupby df key) as [groups|e] eqn:Eg; [|discriminate].
  rewrite bind_ok. destruct (bool_decide _); [|discriminate].
  intros Ht. apply traverse_Forall2 in Ht.
  assert (E : map fst table = map fst groups).
  { clear Eg. induction Ht as [|kg y groups table Hy _ IH]; simpl; [reflexivity|].
    f_equal; [|exact IH].
    destruct (getitem kg.2 target) as [s|e]; [|discriminate]. rewrite bind_ok in Hy.
    destruct (series_mean s) as [v|e]; [|discriminate]. injection Hy as <-. reflexivity. }
  rewrite E. destruct (groupby_groups _ _ _ Eg) as (ks & Hks & ->).
  destruct (group_keys_spec _ _ Hks) as [Hs Hin].
  rewrite map_map. simpl. rewrite map_id. split; [exact Hs|].
  intros k. split.
  - intros Hk. apply Hin, list_elem_of_In, in_map_iff in Hk as (r & Hr & Hr').
    exists r. split; [apply list_elem_of_In; exact Hr' | exact Hr].
  - intros (r & Hr & Hc). apply (group_keys_complete _ _ _ Hks).
    rewrite <- Hc. apply list_elem_of_In.
    apply (in_map (fun r => cell_of r key)). apply list_elem_of_In. exact Hr.
Qed.

Lemma merge_keys (left right : list (string * number)) (k : string) :
  In k (map area_name_en (merge left right))
  <-> In k (map fst left) /\ In k (map fst right).
Proof.
  unfold merge. rewrite in_map_iff. split.
  - intros (row & <- & Hrow). apply in_flat_map in Hrow as (l & Hl & Hrow).
    apply in_map_iff in Hrow as (r & <- & Hr). apply List.filter_In in Hr as [Hr E].
    apply bool_decide_eq_true_1 in E. cbn [area_name_en]. split.
    + apply in_map. exact Hl.
    + rewrite <- E. apply in_map. exact Hr.
  - intros [Hl Hr]. apply in_map_iff in Hl as (l & <- & Hl).
    apply in_map_iff in Hr as (r & E & Hr).
    exists (mkMergedRow l.1 l.2 r.2). split; [reflexivity|].
    apply in_flat_map. exists l. split; [exact Hl|].
    apply (in_map (fun r => mkMergedRow l.1 l.2 r.2)). apply List.filter_In.
    split; [exact Hr | apply bool_decide_eq_true_2; exact E].
Qed.

Lemma no_later_key (right : list (string * number)) (k : string) :
  Forall (str_lt k) (map fst right) ->
  List.filter (fun r : string * number => bool_decide (r.1 = k)) right = [].
Proof.
  induction right as [|r right IH]; simpl; intros H; [reflexivity|].
  inversion H as [|? ? Hr Hrest]; subst.
  rewrite bool_decide_eq_false_2; [apply IH, Hrest|].
  intros E. rewrite E in Hr. exact (str_lt_irrefl _ Hr).
Qed.

Lemma one_per_key (right : list (string * number)) (k : string) :
  StronglySorted str_lt (map fst right) ->
  (length (List.filter (fun r : string * number => bool_decide (r.1 = k)) right) <= 1)%nat.
Proof.
  induction right as [|r right IH]; simpl; intros H; [lia|].
  inversion H as [|? ? Hs Hall]; subst.
  destruct (decide (r.1 = k)) as [E|E].
  - rewrite (bool_decide_eq_true_2 _ E). rewrite <- E.
    rewrite (no_later_key right r.1 Hall). simpl. lia.
  - rewrite (bool_decide_eq_false_2 _ E). apply IH, Hs.
Qed.

Lemma merge_sorted (left right : list (string * number)) :
  StronglySorted str_lt (map fst left) ->
  StronglySorted str_lt (map fst right) ->
  StronglySorted str_lt (map area_name_en (merge left right)).
Proof.
  intros Hl Hr. induction left as [|l left IH]; [constructor|].
  simpl in Hl. inversion Hl as [|? ? Hs Hall]; subst.
  change (merge (l :: left) right)
    with (map (fun r => mkMergedRow l.1 l.2 r.2)
            (List.filter (fun r : string * number => bool_decide (r.1 = l.1)) right)
          ++ merge left right).
  pose proof (one_per_key right l.1 Hr) as Hone.
  destruct (List.filter _ right) as [|r [|r' rest]]; simpl in Hone; [| |lia].
  - apply IH, Hs.
  - simpl. constructor; [apply IH, Hs|].
    apply List.Forall_forall. intros k Hk. apply merge_keys in Hk as [Hk _].
    exact (proj1 (List.Forall_forall _ _) Hall k Hk).
Qed.

Section PrepareFacts.

Variable astype_str : cell -> string.

(** X22. The comparison table of the comparing dashboard has one row for
    each area in which both the filtered sales and the filtered rentals
    have a record, and no other row; the rows are in ascending order of
    the area name.  The two filtered frames are sub-sequences of the
    data with the columns unchanged. *)
Theorem merged_data_areas (transactions rentals : DataFrame)
    (selected_area selected_property_type selected_rooms : string)
    (min_price : Qc) (max_price : Segments.edge)
    (filtered_transactions filtered_rentals : DataFrame) (merged_data : list MergedRow) :
  prepare_merged_data astype_str transactions rentals selected_area
    selected_property_type selected_rooms min_price max_price
  = Ok (filtered_transactions, filtered_rentals, merged_data) ->
  (columns filtered_transactions = columns transactions
   /\ sublist (rows filtered_transactions) (rows transactions))
  /\ (columns filtered_rentals = columns rentals
      /\ sublist (rows filtered_rentals) (rows rentals))
  /\ StronglySorted str_lt (map area_name_en merged_data)
  /\ (forall k, k ∈ map area_name_en merged_data
                <-> in_area filtered_transactions k /\ in_area filtered_rentals k).
Proof.
  unfold prepare_merged_data. cbv zeta. intros H.
  apply bind_Ok_inv in H as (t1 & H1 & H). apply bind_Ok_inv in H as (t2 & H2 & H).
  apply bind_Ok_inv in H as (t3 & H3 & H). apply bind_Ok_inv in H as (worth & _ & H).
  apply bind_Ok_inv in H as (r1 & G1 & H). apply bind_Ok_inv in H as (r2 & G2 & H).
  apply bind_Ok_inv in H as (r3 & G3 & H). apply bind_Ok_inv in H as (price & Hp & H).
  apply bind_Ok_inv in H as (rental & Hr & H).
  injection H as <- <- <-.
  apply (narrow_rows astype_str) in H1 as [C1 S1], H2 as [C2 S2].
  unfold if_column in H3, G3.
  apply (narrow_rows astype_str) in H3 as [C3 S3], G1 as [D1 T1], G3 as [D3 T3].
  assert (G : columns r2 = columns r1 /\ sublist (rows r2) (rows r1)).
  { destruct (negb (is_all selected_property_type)); [|injection G2 as <-; auto].
    destruct (bool_decide ("property_type_en"%string ∈ columns rentals));
      [exact (narrow_rows astype_str true _ _ _ _ G2)|].
    destruct (bool_decide ("ejari_property_sub_type_en"%string ∈ columns rentals));
      [|injection G2 as <-; auto].
    destruct (property_mapping selected_property_type);
      [exact (narrow_rows astype_str true _ _ _ _ G2) | injection G2 as <-; auto]. }
  destruct G as [D2 T2].
  destruct (groupby_mean_keys _ _ _ _ Hp) as [Ps Pk].
  destruct (groupby_mean_keys _ _ _ _ Hr) as [Rs Rk].
  split; [|split; [|split]].
  - cbn [columns rows loc]. split; [congruence|].
    etrans; [apply select_sublist|]. etrans; [exact S3|]. etrans; [exact S2 | exact S1].
  - split; [congruence|]. etrans; [exact T3|]. etrans; [exact T2 | exact T1].
  - apply merge_sorted; assumption.
  - intros k. rewrite list_elem_of_In, merge_keys, <- !list_elem_of_In, Pk, Rk.
    reflexivity.
Qed.

End PrepareFacts.

End ComparingFacts.

Lemma merged_data_areas_witness :
  exists filtered_transactions filtered_rentals merged_data,
    Comparing.prepare_merged_data text_str five_sales two_rents "All" "All" "All"
      0%Qc Segments.Inf
    = Ok (filtered_transactions, filtered_rentals, merged_data)
    /\ map Comparing.area_name_en merged_data = ["B"]%string
    /\ (forall k, k ∈ map Comparing.area_name_en merged_data
                  <-> Comparing.in_area filtered_transactions k
                      /\ Comparing.in_area filtered_rentals k).
Proof.
  eexists _, _, _. split; [vm_compute; reflexivity|]. split; [reflexivity|].
  eapply (ComparingFacts.merged_data_areas text_str five_sales two_rents "All" "All" "All"
            0%Qc Segments.Inf).
  vm_compute. reflexivity.
Defined.
